(** * Finger Prince: client hooks, Electron sidecar bridge and date formatting

    A shallow embedding of the TypeScript sources of the repository
    (apps/shared/hooks, apps/shared/components, apps/shared/utils,
    apps/web/src/App.tsx, apps/electron/main, apps/electron/preload and
    apps/electron/python-bridge/sidecar.ts) together with the properties the
    specification states about them and further properties of the code.

    Conventions.
    - JavaScript values are the inductive [Js.JsValue]; objects are finite
      maps from property names to values (stdpp [gmap]).  TypeScript types
      are erased at run time, so values that cross a boundary (a parsed
      response, the result of an IPC call) are kept as [JsValue].
    - JavaScript strings are byte strings holding the UTF-8 encoding of the
      source text.
    - The numbers that occur in the modelled code (counts, HTTP status codes,
      millisecond timestamps) are integers and are modelled as [Z]; numbers
      with a fraction, [NaN] and the infinities are not values of the
      model.  An integer is printed with all its digits as long as it is a
      safe integer; the text of a larger one is left to the engine.
    - An [async] function is split at its first [await]: a [_begin] part that
      runs synchronously when the function is called, and a [_finish] part
      that runs when the awaited chain has settled. *)

From stdpp Require Import gmap strings list fin_maps pretty.
From Stdlib Require Import ZArith Ascii.

Set Warnings "-register-all".
Local Open Scope Z_scope.

(* ===================================================================== *)
(** * JavaScript values and the few primitives the sources rely on        *)
(* ===================================================================== *)

Module Js.

Inductive JsValue :=
| VUndefined
| VNull
| VBool (b : bool)
| VNum (n : Z)
| VStr (s : string)
| VArr (xs : list JsValue)
| VObj (fields : gmap string JsValue).

(** A thrown value: an [Error] instance with its [message], or anything else. *)
Inductive Thrown :=
| ErrorObj (message : string)
| NonError (v : JsValue).

(** Outcome of an expression that may throw, or of an awaited promise. *)
Inductive Completion (A : Type) :=
| Normal (a : A)
| Throw (e : Thrown).
Arguments Normal {A} a.
Arguments Throw {A} e.

Definition bind {A B} (c : Completion A) (k : A → Completion B) : Completion B :=
  match c with
  | Normal a => k a
  | Throw e => Throw e
  end.

#[global] Instance Completion_bind : MBind Completion := λ A B k c, bind c k.
#[global] Instance Completion_ret : MRet Completion := λ A a, Normal a.

(** What is left to the JavaScript engine and to React: the text of the
    [TypeError] raised when a property of [null] or [undefined] is read or
    when something that is not a function is called, the text of the error
    React raises for an object used as a child, the numeric conversion
    behind [v > 0] for operands that are neither numbers nor [undefined],
    and the text of a number that is not a safe integer (rounded to the
    nearest double, with an exponent from 1e21 on). *)
Record Engine := {
  typeErrorMessage : JsValue → string → string;
  notAFunctionMessage : string → string;
  invalidChildMessage : JsValue → string;
  convertedGtZero : JsValue → bool;
  numberToString : Z → string;
}.

(** [Number.isSafeInteger]: between -(2^53 - 1) and 2^53 - 1. *)
Definition isSafeInteger (n : Z) : bool := Z.abs n <=? 9007199254740991.

(** The text of a number, as template literals, [String] and React print
    it: all digits for a safe integer. *)
Definition numberText (eng : Engine) (n : Z) : string :=
  if isSafeInteger n then pretty n else numberToString eng n.

(** [v.k].  None of the property names read by the sources is defined on
    the prototypes of booleans, numbers, strings or arrays. *)
Definition getProp (eng : Engine) (v : JsValue) (k : string) : Completion JsValue :=
  match v with
  | VUndefined | VNull => Throw (ErrorObj (typeErrorMessage eng v k))
  | VObj m => Normal (default VUndefined (m !! k))
  | _ => Normal VUndefined
  end.

(** [v?.k] *)
Definition getPropOpt (v : JsValue) (k : string) : JsValue :=
  match v with
  | VObj m => default VUndefined (m !! k)
  | _ => VUndefined
  end.

(** [v ?? d] *)
Definition nullish (v d : JsValue) : JsValue :=
  match v with
  | VUndefined | VNull => d
  | _ => v
  end.

(** ToBoolean *)
Definition truthy (v : JsValue) : bool :=
  match v with
  | VUndefined | VNull => false
  | VBool b => b
  | VNum n => negb (n =? 0)
  | VStr s => negb (String.eqb s "")
  | VArr _ | VObj _ => true
  end.

(** ToString, as applied by template literals. *)
Fixpoint toString (eng : Engine) (v : JsValue) : string :=
  match v with
  | VUndefined => "undefined"
  | VNull => "null"
  | VBool true => "true"
  | VBool false => "false"
  | VNum n => numberText eng n
  | VStr s => s
  | VArr xs =>
      (fix join (l : list JsValue) : string :=
         match l with
         | [] => ""
         | x :: rest =>
             let sx := match x with
                       | VUndefined | VNull => ""
                       | _ => toString eng x
                       end in
             match rest with
             | [] => sx
             | _ => sx +:+ "," +:+ join rest
             end
         end) xs
  | VObj _ => "[object Object]"
  end.

(** The length of a string in UTF-16 code units, counted on its UTF-8
    encoding: one unit for a character of one to three bytes, two units for
    a character of four bytes. *)
Fixpoint utf16Length (s : string) : nat :=
  match s with
  | EmptyString => 0
  | String c rest =>
      let n := N_of_ascii c in
      ((if (n <? 128)%N then 1
        else if (n <? 192)%N then 0
        else if (n <? 240)%N then 1
        else 2) + utf16Length rest)%nat
  end.

(** The UTF-16 code units of a string, decoded from its UTF-8 encoding; a
    character of four bytes gives a surrogate pair.  The bytes that follow
    a lead byte are read with it and give no unit of their own. *)
Definition continuation (s : string) (i : nat) : N :=
  match String.get i s with
  | Some c => N.land (N_of_ascii c) 63
  | None => 0
  end%N.

Fixpoint utf16 (s : string) : list N :=
  match s with
  | EmptyString => []
  | String c rest =>
      let n := N_of_ascii c in
      (if n <? 128 then [n]
       else if n <? 192 then []
       else if n <? 224 then
         [N.lor (N.shiftl (N.land n 31) 6) (continuation rest 0)]
       else if n <? 240 then
         [N.lor (N.shiftl (N.land n 15) 12)
            (N.lor (N.shiftl (continuation rest 0) 6) (continuation rest 1))]
       else
         let cp := N.lor (N.shiftl (N.land n 7) 18)
                     (N.lor (N.shiftl (continuation rest 0) 12)
                        (N.lor (N.shiftl (continuation rest 1) 6)
                           (continuation rest 2))) in
         [55296 + N.shiftr (cp - 65536) 10; 56320 + N.land (cp - 65536) 1023])%N
      ++ utf16 rest
  end.

(** [v.length] for the values on which the sources read it. *)
Definition lengthOf (v : JsValue) : JsValue :=
  match v with
  | VArr xs => VNum (Z.of_nat (length xs))
  | VStr s => VNum (Z.of_nat (utf16Length s))
  | VObj m => default VUndefined (m !! "length")
  | _ => VUndefined
  end.

(** [v > 0] *)
Definition gtZero (eng : Engine) (v : JsValue) : bool :=
  match v with
  | VNum n => 0 <? n
  | VUndefined => false
  | _ => convertedGtZero eng v
  end.

(** [v === 0] *)
Definition isZero (v : JsValue) : bool :=
  match v with VNum n => n =? 0 | _ => false end.

(** A value placed between JSX tags: the text React shows for it. *)
Fixpoint reactChild (eng : Engine) (v : JsValue) : Completion string :=
  match v with
  | VUndefined | VNull | VBool _ => Normal ""
  | VNum n => Normal (numberText eng n)
  | VStr s => Normal s
  | VArr xs =>
      (fix children (l : list JsValue) : Completion string :=
         match l with
         | [] => Normal ""
         | x :: rest =>
             match reactChild eng x with
             | Throw e => Throw e
             | Normal sx =>
                 match children rest with
                 | Throw e => Throw e
                 | Normal sr => Normal (sx +:+ sr)
                 end
             end
         end) xs
  | VObj _ => Throw (ErrorObj (invalidChildMessage eng v))
  end.

(** How deep arrays and objects are nested in a value. *)
Fixpoint height (v : JsValue) : nat :=
  match v with
  | VArr xs => S (foldr (λ x acc, height x `max` acc) 0 xs)
  | VObj m => S (map_fold (λ _ x acc, height x `max` acc) 0 m)
  | _ => 0
  end%nat.

(** [l.map(f)] for a callback that may throw: the first error ends it. *)
Definition mapM {A B} (f : A → Completion B) : list A → Completion (list B) :=
  fix go (l : list A) : Completion (list B) :=
    match l with
    | [] => Normal []
    | x :: rest =>
        match f x with
        | Throw e => Throw e
        | Normal y =>
            match go rest with
            | Throw e => Throw e
            | Normal ys => Normal (y :: ys)
            end
        end
    end.

Definition isArray (v : JsValue) : bool :=
  match v with VArr _ => true | _ => false end.
Definition isString (v : JsValue) : bool :=
  match v with VStr _ => true | _ => false end.
Definition isNumber (v : JsValue) : bool :=
  match v with VNum _ => true | _ => false end.
Definition isNull (v : JsValue) : bool :=
  match v with VNull => true | _ => false end.
Definition isNullish (v : JsValue) : bool :=
  match v with VUndefined | VNull => true | _ => false end.

(** ** [String.prototype.trim]

    White space and line terminators of ECMAScript, matched on the UTF-8
    encoding: U+0009..U+000D, U+0020, U+00A0, U+1680, U+2000..U+200A,
    U+2028, U+2029, U+202F, U+205F, U+3000, U+FEFF. *)

Definition code (c : ascii) : N := N_of_ascii c.

Definition ws1 (c : ascii) : bool :=
  let n := code c in ((9 <=? n) && (n <=? 13) || (n =? 32))%N.

Definition ws2 (c1 c2 : ascii) : bool :=
  ((code c1 =? 194) && (code c2 =? 160))%N.

Definition ws3 (c1 c2 c3 : ascii) : bool :=
  let a := code c1 in let b := code c2 in let c := code c3 in
  ((a =? 225) && (b =? 154) && (c =? 128)
   || (a =? 226) && (b =? 128)
        && ((128 <=? c) && (c <=? 138) || (c =? 168) || (c =? 169) || (c =? 175))
   || (a =? 226) && (b =? 129) && (c =? 159)
   || (a =? 227) && (b =? 128) && (c =? 128)
   || (a =? 239) && (b =? 187) && (c =? 191))%N.

(** Drops the white space at the front; [m2] and [m3] recognise the two-
    and three-byte sequences. *)
Fixpoint strip (m2 : ascii → ascii → bool) (m3 : ascii → ascii → ascii → bool)
    (s : string) : string :=
  match s with
  | EmptyString => s
  | String c1 r1 =>
      if ws1 c1 then strip m2 m3 r1 else
      match r1 with
      | EmptyString => s
      | String c2 r2 =>
          if m2 c1 c2 then strip m2 m3 r2 else
          match r2 with
          | EmptyString => s
          | String c3 r3 => if m3 c1 c2 c3 then strip m2 m3 r3 else s
          end
      end
  end.

Definition trimStart (s : string) : string := strip ws2 ws3 s.

Definition trimEnd (s : string) : string :=
  String.rev (strip (λ a b, ws2 b a) (λ a b c, ws3 c b a) (String.rev s)).

Definition trim (s : string) : string := trimEnd (trimStart s).

(** [!s.trim()] *)
Definition isBlank (s : string) : bool := String.eqb (trim s) "".

End Js.

Import Js.

(* ===================================================================== *)
(** * The host seen by the hooks: [window.fingerPrince] and [fetch]       *)
(* ===================================================================== *)

Module Host.

(** The [init] argument of [fetch]; [body] is the object handed to
    [JSON.stringify] (its values here are strings and numbers, which
    [JSON.stringify] keeps). *)
Record Request := {
  url : string;
  method : string;
  headers : list (string * string);
  body : gmap string JsValue;
}.

(** A [Response]: [text] and [json] are what [await response.text()] and
    [await response.json()] deliver. *)
Record Response := {
  ok : bool;
  status : Z;
  text : Completion string;
  json : Completion JsValue;
}.

(** What a hook hands to the outside world before it suspends. *)
Inductive Call :=
| BridgeCrawl (gallId : string) (maxPages : Z)
| BridgeSearch (query : string) (topK : Z)
| HttpFetch (req : Request).

(** What the outside world hands back. *)
Inductive Reply :=
| BridgeReply (r : Completion JsValue)
| HttpReply (r : Completion Response).

(** [hasBridge] is
    [typeof window !== "undefined" && (window as any).fingerPrince]. *)
Record Host := {
  engine : Engine;
  hasBridge : bool;
}.

Definition isHttp (c : Call) : bool :=
  match c with HttpFetch _ => true | _ => false end.

(** The outside world of one invocation: what [ipcRenderer.invoke] and
    [fetch] deliver for each call. *)
Record World := {
  invoke : Call → Completion JsValue;
  fetch : Request → Completion Response;
}.

Definition reply (w : World) (c : Call) : Reply :=
  match c with
  | HttpFetch req => HttpReply (fetch w req)
  | _ => BridgeReply (invoke w c)
  end.

End Host.

Import Host.

(* ===================================================================== *)
(** * apps/shared/hooks/useSearch.ts                                      *)
(* ===================================================================== *)

Module UseSearch.

(** [SearchState]; [data] is [SmartSearchResult | null] in the types and
    whatever was stored at run time. *)
Record SearchState := {
  data : JsValue;
  isLoading : bool;
  error : option string;
}.

Definition initial : SearchState :=
  {| data := VNull; isLoading := false; error := None |}.

Definition defaultApiBase : string := "/api".
Definition defaultTopK : Z := 5.

(** The body of the request to [/smart-search]. *)
Definition requestBody (query : string) (topK : Z) : gmap string JsValue :=
  <["query" := VStr query]>
  (<["top_k" := VNum topK]>
  (<["google_results" := VNum 10]>
  (<["gallery_pages" := VNum 2]> ∅))).

Definition request (apiBase query : string) (topK : Z) : Request :=
  {| url := apiBase +:+ "/smart-search";
     method := "POST";
     headers := [("Content-Type", "application/json")];
     body := requestBody query topK |}.

(** snake_case to camelCase conversion of the parsed response. *)
Definition fromWire (eng : Engine) (json : JsValue) : Completion JsValue :=
  posts ← getProp eng json "posts";
  synthesized_answer ← getProp eng json "synthesized_answer";
  persona ← getProp eng json "persona";
  query_time ← getProp eng json "query_time";
  discovered_galls ← getProp eng json "discovered_galls";
  posts_crawled ← getProp eng json "posts_crawled";
  Normal (VObj (
    <["posts" := posts]> (
    <["synthesizedAnswer" := synthesized_answer]> (
    <["persona" := persona]> (
    <["queryTime" := query_time]> (
    <["discoveredGalls" := nullish discovered_galls (VArr [])]> (
    <["postsCrawled" := nullish posts_crawled (VNum 0)]> ∅))))))).

(** The [catch] block. *)
Definition failed (e : Thrown) : SearchState :=
  {| data := VNull;
     isLoading := false;
     error := Some match e with
                   | ErrorObj m => m
                   | NonError _ => "알 수 없는 오류"
                   end |}.

Definition succeeded (d : JsValue) : SearchState :=
  {| data := d; isLoading := false; error := None |}.

Definition settle (c : Completion JsValue) : SearchState :=
  match c with
  | Normal d => succeeded d
  | Throw e => failed e
  end.

(** [search], up to the first [await]: the guard, the state set when the
    search starts, and the call that is issued.  [None]: the guard
    returned. *)
Definition search_begin (h : Host) (apiBase : option string) (query : string)
    (topK : option Z) : option (SearchState * Call) :=
  let apiBase := default defaultApiBase apiBase in
  let topK := default defaultTopK topK in
  if isBlank query then None
  else
    Some ({| data := VNull; isLoading := true; error := None |},
          if hasBridge h then BridgeSearch query topK
          else HttpFetch (request apiBase query topK)).

(** The part of the [try] block after the [fetch] has settled. *)
Definition afterFetch (eng : Engine) (r : Completion Response) : Completion JsValue :=
  response ← r;
  if negb (ok response) then
    body ← text response;
    Throw (ErrorObj ("검색 실패 (" +:+ numberText eng (status response) +:+ "): " +:+ body))
  else
    json ← json response;
    fromWire eng json.

(** [search], from the settled call on: the state it sets last.  A reply of
    the other transport than the call's cannot occur and sets nothing. *)
Definition search_finish (h : Host) (c : Call) (r : Reply) : option SearchState :=
  match c, r with
  | BridgeSearch _ _, BridgeReply result => Some (settle result)
  | HttpFetch _, HttpReply resp => Some (settle (afterFetch (engine h) resp))
  | _, _ => None
  end.

Definition reset : SearchState :=
  {| data := VNull; isLoading := false; error := None |}.

Definition allStrings (v : JsValue) : bool :=
  match v with
  | VArr xs => forallb isString xs
  | _ => false
  end.

(** Modelled from the spec: the response of [/smart-search] as the boundary
    contract (§6) gives it,
    [{ posts: Post[], synthesized_answer: string|null, persona: string,
       query_time: number, discovered_galls: string[], posts_crawled: int }],
    where the last two fields may be missing or [null], as the hook allows.
    Of [posts] it asks that it is an array: the hook stores the elements
    unread, and what [DCPost] needs of them is [Untyped.isPostData], asked
    where the posts are rendered. *)
Definition conforms (wire : gmap string JsValue) : bool :=
  let field k := default VUndefined (wire !! k) in
  isArray (field "posts")
  && (isString (field "synthesized_answer")
      || isNull (field "synthesized_answer"))
  && isString (field "persona")
  && isNumber (field "query_time")
  && (allStrings (field "discovered_galls") || isNullish (field "discovered_galls"))
  && (isNumber (field "posts_crawled") || isNullish (field "posts_crawled")).

(** A value that has the type [SmartSearchResult] of the interface:
    [posts] an array, [synthesizedAnswer] a string or [null], [persona] a
    string, [queryTime] a number, [discoveredGalls] an array, [postsCrawled]
    a number. *)
Definition isSmartSearchResult (d : JsValue) : bool :=
  match d with
  | VObj m =>
      let field k := default VUndefined (m !! k) in
      isArray (field "posts")
      && (isString (field "synthesizedAnswer")
          || isNull (field "synthesizedAnswer"))
      && isString (field "persona")
      && isNumber (field "queryTime")
      && isArray (field "discoveredGalls")
      && isNumber (field "postsCrawled")
  | _ => false
  end.

(** One whole invocation that is not interleaved with another: the calls
    issued and the states set, in order. *)
Definition search (h : Host) (apiBase : option string) (query : string)
    (topK : option Z) (w : World) : list Call * list SearchState :=
  match search_begin h apiBase query topK with
  | None => ([], [])
  | Some (s0, c) =>
      ([c], s0 :: match search_finish h c (reply w c) with
                  | Some s1 => [s1]
                  | None => []
                  end)
  end.

End UseSearch.

(* ===================================================================== *)
(** * apps/shared/hooks/useCrawl.ts                                       *)
(* ===================================================================== *)

Module UseCrawl.

Inductive CrawlStatus := idle | running | done | error.

#[global] Instance CrawlStatus_eq_dec : EqDecision CrawlStatus.
Proof. solve_decision. Defined.

(** [CrawlState]; [message] and [postsIndexed] hold what the reply
    carried.  The field [error] of the source is [err] here, [error] being
    the status. *)
Record CrawlState := {
  status : CrawlStatus;
  message : JsValue;
  postsIndexed : JsValue;
  err : option string;
}.

Definition initial : CrawlState :=
  {| status := idle; message := VStr ""; postsIndexed := VNum 0; err := None |}.

Definition defaultApiBase : string := "/api".
Definition defaultMaxPages : Z := 5.

Definition requestBody (gallId : string) (maxPages : Z) : gmap string JsValue :=
  <["gall_id" := VStr gallId]> (<["max_pages" := VNum maxPages]> ∅).

Definition request (apiBase gallId : string) (maxPages : Z) : Request :=
  {| url := apiBase +:+ "/crawl";
     method := "POST";
     headers := [("Content-Type", "application/json")];
     body := requestBody gallId maxPages |}.

Definition started : CrawlState :=
  {| status := running; message := VStr "크롤링 시작...";
     postsIndexed := VNum 0; err := None |}.

(** The [catch] block. *)
Definition failed (e : Thrown) : CrawlState :=
  {| status := error;
     message := VStr "";
     postsIndexed := VNum 0;
     err := Some match e with
                 | ErrorObj m => m
                 | NonError _ => "크롤링 실패"
                 end |}.

(** The Electron branch after [fingerPrince.crawl] has settled. *)
Definition afterBridge (eng : Engine) (r : Completion JsValue) : Completion CrawlState :=
  result ← r;
  n ← getProp eng result "postsIndexed";
  Normal {| status := done;
            message := VStr ("완료: " +:+ toString eng n +:+ "개 게시물 인덱싱");
            postsIndexed := n;
            err := None |}.

(** The REST branch after [fetch] has settled. *)
Definition afterFetch (eng : Engine) (r : Completion Response) : Completion CrawlState :=
  response ← r;
  if negb (ok response) then
    body ← text response;
    Throw (ErrorObj ("Crawl failed (" +:+ numberText eng (Host.status response) +:+ "): " +:+ body))
  else
    json ← json response;
    m ← getProp eng json "message";
    n ← getProp eng json "posts_indexed";
    Normal {| status := done; message := m; postsIndexed := n; err := None |}.

Definition settle (c : Completion CrawlState) : CrawlState :=
  match c with
  | Normal s => s
  | Throw e => failed e
  end.

(** [startCrawl], up to the first [await]. *)
Definition startCrawl_begin (h : Host) (apiBase : option string) (gallId : string)
    (maxPages : option Z) : option (CrawlState * Call) :=
  let apiBase := default defaultApiBase apiBase in
  let maxPages := default defaultMaxPages maxPages in
  if isBlank gallId then None
  else
    Some (started,
          if hasBridge h then BridgeCrawl gallId maxPages
          else HttpFetch (request apiBase gallId maxPages)).

(** [startCrawl], from the settled call on. *)
Definition startCrawl_finish (h : Host) (c : Call) (r : Reply) : option CrawlState :=
  match c, r with
  | BridgeCrawl _ _, BridgeReply result => Some (settle (afterBridge (engine h) result))
  | HttpFetch _, HttpReply resp => Some (settle (afterFetch (engine h) resp))
  | _, _ => None
  end.

Definition reset : CrawlState :=
  {| status := idle; message := VStr ""; postsIndexed := VNum 0; err := None |}.

(** Whether the call delivered a result: the bridge resolved with a value
    that is not [null] or [undefined], or the server answered with a
    success status and a JSON body that is not [null]. *)
Definition delivered (r : Reply) : bool :=
  match r with
  | BridgeReply (Normal result) => negb (isNullish result)
  | HttpReply (Normal response) =>
      ok response
      && match json response with
         | Normal json => negb (isNullish json)
         | Throw _ => false
         end
  | _ => false
  end.

(** Whether the reply is of the transport of the call. *)
Definition fits (c : Call) (r : Reply) : bool :=
  match c, r with
  | HttpFetch _, HttpReply _ => true
  | BridgeCrawl _ _, BridgeReply _ => true
  | BridgeSearch _ _, BridgeReply _ => true
  | _, _ => false
  end.

(** One whole invocation that is not interleaved with another. *)
Definition startCrawl (h : Host) (apiBase : option string) (gallId : string)
    (maxPages : option Z) (w : World) : list Call * list CrawlState :=
  match startCrawl_begin h apiBase gallId maxPages with
  | None => ([], [])
  | Some (s0, c) =>
      ([c], s0 :: match startCrawl_finish h c (reply w c) with
                  | Some s1 => [s1]
                  | None => []
                  end)
  end.

(** ** The hook as a machine

    The state held by [useState] and the calls that have been issued and
    have not settled yet.  Every [setState] of the hook replaces the whole
    state. *)
Record Hook := {
  state : CrawlState;
  inflight : list Call;
}.

Definition mounted : Hook := {| state := initial; inflight := [] |}.

Inductive Event :=
| Start (gallId : string) (maxPages : option Z)
| Reset
| Settle (i : nat) (r : Reply).

Definition step (h : Host) (apiBase : option string) (k : Hook) (e : Event) : Hook :=
  match e with
  | Start gallId maxPages =>
      match startCrawl_begin h apiBase gallId maxPages with
      | None => k
      | Some (s, c) => {| state := s; inflight := inflight k ++ [c] |}
      end
  | Reset => {| state := reset; inflight := inflight k |}
  | Settle i r =>
      match inflight k !! i with
      | None => k
      | Some c =>
          match startCrawl_finish h c r with
          | None => k
          | Some s => {| state := s; inflight := delete i (inflight k) |}
          end
      end
  end.

Definition run (h : Host) (apiBase : option string) (k : Hook) (es : list Event) : Hook :=
  foldl (step h apiBase) k es.

End UseCrawl.

(* ===================================================================== *)
(** * apps/shared/utils/dateFormatter.ts                                  *)
(* ===================================================================== *)

Module DateFormatter.

(** Which [return] of [formatDCDate] is taken, with the value it prints. *)
Inductive DCDate :=
| JustNow
| MinutesAgo (diffMinutes : Z)
| HoursAgo (diffHours : Z)
| Absolute (date : option Z).

Section WithDate.

(** [getTime] is [new Date(dateStr).getTime()], [None] standing for [NaN]
    (an invalid date); [toLocaleDateString] is
    [date.toLocaleDateString("ko-KR", {month, day, hour, minute, hour12})]. *)
Variable getTime : string → option Z.
Variable toLocaleDateString : option Z → string.

(** [now] is [new Date().getTime()].  [Math.floor(diffMs / c)] is the floor
    of the quotient, which is [Z.div] for the positive constants used; every
    comparison with [NaN] is false, so an invalid date reaches the last
    [return]. *)
Definition formatDCDate_branch (now : Z) (dateStr : string) : DCDate :=
  match getTime dateStr with
  | None => Absolute None
  | Some date =>
      let diffMs := now - date in
      let diffMinutes := diffMs / 60000 in
      let diffHours := diffMs / 3600000 in
      if diffMinutes <? 1 then JustNow
      else if diffMinutes <? 60 then MinutesAgo diffMinutes
      else if diffHours <? 24 then HoursAgo diffHours
      else Absolute (Some date)
  end.

Definition print (d : DCDate) : string :=
  match d with
  | JustNow => "방금 전"
  | MinutesAgo diffMinutes => pretty diffMinutes +:+ "분 전"
  | HoursAgo diffHours => pretty diffHours +:+ "시간 전"
  | Absolute date => toLocaleDateString date
  end.

Definition formatDCDate (now : Z) (dateStr : string) : string :=
  print (formatDCDate_branch now dateStr).

End WithDate.

End DateFormatter.

(* ===================================================================== *)
(** * apps/shared/components/DCComment.tsx: personas                      *)
(* ===================================================================== *)

Module DCComment.

Inductive Persona :=
| aggressive_helper
| fact_checker
| meme_lord
| helpful_sunbae.

#[global] Instance Persona_eq_dec : EqDecision Persona.
Proof. solve_decision. Defined.

Record Meta := { label : string; colorClass : string }.

Definition PERSONA_META (p : Persona) : Meta :=
  match p with
  | aggressive_helper => {| label := "빡친도우미"; colorClass := "bg-red-600 text-white" |}
  | fact_checker => {| label := "팩트체커"; colorClass := "bg-blue-600 text-white" |}
  | meme_lord => {| label := "밈왕"; colorClass := "bg-purple-600 text-white" |}
  | helpful_sunbae => {| label := "개념글봇"; colorClass := "bg-green-600 text-white" |}
  end.

(** The string literal each member of the union is. *)
Definition personaId (p : Persona) : string :=
  match p with
  | aggressive_helper => "aggressive_helper"
  | fact_checker => "fact_checker"
  | meme_lord => "meme_lord"
  | helpful_sunbae => "helpful_sunbae"
  end.

Definition allPersonas : list Persona :=
  [aggressive_helper; fact_checker; meme_lord; helpful_sunbae].

Definition personaOfId (s : string) : option Persona :=
  snd <$> list_find (λ p, personaId p = s) allPersonas.

(** [comment.persona ? PERSONA_META[comment.persona] : null] *)
Definition personaMeta (persona : option Persona) : option Meta :=
  PERSONA_META <$> persona.

End DCComment.

(* ===================================================================== *)
(** * apps/shared/components/DCComment.tsx and DCPost.tsx                 *)
(* ===================================================================== *)

Module DCPost.

Import DCComment.

(** [CommentData]; the optional fields are options. *)
Inductive CommentData :=
| Comment (id author text date : string) (persona : option Persona)
    (replies : option (list CommentData)) (isAI : option bool).

Definition commentText (c : CommentData) : string :=
  match c with Comment _ _ text _ _ _ _ => text end.

(** What [DCComment] shows for one comment: whether it is set in as a
    reply, the persona badge or the author, the AI mark, the text, the
    date, and the replies below it. *)
Inductive CommentView :=
| Shown (isReply : bool) (badge : Meta + string) (aiMark : bool)
    (text dateText : string) (replies : list CommentView).

(** All comments of a tree and all shown comments of a view, in the order
    of the page. *)
Fixpoint texts (c : CommentData) : list string :=
  match c with
  | Comment _ _ text _ _ replies _ =>
      text :: match replies with
              | Some rs => concat (List.map texts rs)
              | None => []
              end
  end.

Fixpoint shownTexts (v : CommentView) : list string :=
  match v with
  | Shown _ _ _ text _ replies => text :: concat (List.map shownTexts replies)
  end.

(** The views below the top of a view. *)
Fixpoint below (v : CommentView) : list CommentView :=
  match v with
  | Shown _ _ _ _ _ replies => concat (List.map (λ r, r :: below r) replies)
  end.

Definition isReplyOf (v : CommentView) : bool :=
  match v with Shown isReply _ _ _ _ _ => isReply end.

Section WithFormat.

(** [formatDCDate] with its clock, and the two floating-point formats of
    the post header, [formatViewCount(views)] and
    [(score * 100).toFixed(0)], which are not unfolded; [Score] is the type
    of [score]. *)
Variable getTime : string → option Z.
Variable toLocaleDateString : option Z → string.
Variable now : Z.
Variable formatViewCount : Z → string.
Variable Score : Type.
Variable percent : Score → string.

(** [DCComment] *)
Fixpoint DCComment (depth : nat) (comment : CommentData) : CommentView :=
  match comment with
  | Comment _ author text date persona replies isAI =>
      Shown (bool_decide (0 < depth)%nat)
        (match personaMeta persona with
         | Some meta => inl meta
         | None => inr author
         end)
        (match isAI with Some true => true | _ => false end)
        text
        (DateFormatter.formatDCDate getTime toLocaleDateString now date)
        (match replies with
         | Some rs => List.map (DCComment (S depth)) rs
         | None => []
         end)
  end.

(** [PostData]; [body] is kept as its sequence of UTF-16 code units, the
    positions [slice] and [length] count. *)
Record PostData := {
  id : string;
  gallId : string;
  title : string;
  body : list N;
  author : string;
  date : string;
  views : Z;
  upvotes : Z;
  score : option Score;
  comments : list CommentData;
  sourceUrl : option string;
}.

Record CommentSection := {
  commentCount : nat;
  commentViews : list CommentView;
}.

Record View := {
  shownTitle : string;
  shownGallId : string;
  shownAuthor : string;
  shownDate : string;
  shownViews : string;
  shownUpvotes : Z;
  scoreBadge : option string;
  shownBody : list N;
  moreButton : bool;
  commentSection : option CommentSection;
  sourceLink : option string;
}.

Definition previewBody (post : PostData) : list N := take 280 (body post).

Definition isTruncated (post : PostData) : bool :=
  bool_decide (280 < length (body post))%nat.

(** [DCPost] *)
Definition render (post : PostData) (expanded : bool) : View :=
  {| shownTitle := title post;
     shownGallId := gallId post;
     shownAuthor := author post;
     shownDate := DateFormatter.formatDCDate getTime toLocaleDateString now (date post);
     shownViews := "조회 " +:+ formatViewCount (views post);
     shownUpvotes := upvotes post;
     scoreBadge := (λ s, percent s +:+ "% 일치") <$> score post;
     shownBody := if expanded then body post else previewBody post;
     moreButton := negb expanded && isTruncated post;
     commentSection :=
       if expanded && bool_decide (0 < length (comments post))%nat then
         Some {| commentCount := length (comments post);
                 commentViews := List.map (DCComment 0) (comments post) |}
       else None;
     sourceLink := match sourceUrl post with
                   | Some u => if String.eqb u "" then None else Some u
                   | None => None
                   end |}.

(** ** The post list of [DCBoard]

    [expandedId] of the board; a post is expanded when its id is the
    expanded one, and [onExpand] toggles it. *)
Definition isExpanded (expandedId : option string) (post : PostData) : bool :=
  bool_decide (expandedId = Some (id post)).

Definition onExpand (expandedId : option string) (post : PostData) : option string :=
  if isExpanded expandedId post then None else Some (id post).

Definition renderPosts (expandedId : option string) (posts : list PostData) : list View :=
  (λ post, render post (isExpanded expandedId post)) <$> posts.

(** A click on the "더 보기" button of the [i]-th post, which is there only
    when that post is shown with the button. *)
Definition clickMore (posts : list PostData) (expandedId : option string) (i : nat)
    : option string :=
  match posts !! i with
  | Some post =>
      if moreButton (render post (isExpanded expandedId post))
      then onExpand expandedId post
      else expandedId
  | None => expandedId
  end.

(** The board keeps [expandedId] as long as it is mounted, which in the
    page is always: a click changes it, a change of the posts handed to
    the board does not. *)
Record Board := {
  posts : list PostData;
  expandedId : option string;
}.

Definition mounted (posts : list PostData) : Board :=
  {| posts := posts; expandedId := None |}.

Inductive BoardEvent :=
| ClickMore (i : nat)
| NewPosts (posts : list PostData).

Definition boardStep (b : Board) (e : BoardEvent) : Board :=
  match e with
  | ClickMore i =>
      {| posts := posts b; expandedId := clickMore (posts b) (expandedId b) i |}
  | NewPosts ps => {| posts := ps; expandedId := expandedId b |}
  end.

Definition boardRun (b : Board) (es : list BoardEvent) : Board :=
  foldl boardStep b es.

(** The posts the board has been handed up to now. *)
Definition listed (posts : list PostData) (es : list BoardEvent) : list PostData :=
  posts ++ concat (omap (λ e, match e with
                              | NewPosts ps => Some ps
                              | ClickMore _ => None
                              end) es).

(** The expanded id is nothing or the id of one of the given posts whose
    body is longer than 280 code units. *)
Definition expandable (seen : list PostData) (e : option string) : Prop :=
  e = None
  ∨ ∃ q, q ∈ seen ∧ e = Some (id q) ∧ (280 < length (body q))%nat.

End WithFormat.

Arguments expandable {Score} _ _.
Arguments id {Score} _.
Arguments gallId {Score} _.
Arguments title {Score} _.
Arguments body {Score} _.
Arguments author {Score} _.
Arguments date {Score} _.
Arguments views {Score} _.
Arguments upvotes {Score} _.
Arguments score {Score} _.
Arguments comments {Score} _.
Arguments sourceUrl {Score} _.
Arguments previewBody {Score} _.
Arguments isTruncated {Score} _.
Arguments isExpanded {Score} _ _.
Arguments onExpand {Score} _ _.
Arguments render _ _ _ _ {Score} _ _ _.
Arguments renderPosts _ _ _ _ {Score} _ _ _.
Arguments clickMore _ _ _ _ {Score} _ _ _ _.
Arguments Board : clear implicits.
Arguments BoardEvent : clear implicits.
Arguments posts {Score} _.
Arguments expandedId {Score} _.
Arguments mounted {Score} _.
Arguments ClickMore {Score} _.
Arguments NewPosts {Score} _.
Arguments boardStep _ _ _ _ {Score} _ _ _.
Arguments boardRun _ _ _ _ {Score} _ _ _.
Arguments listed {Score} _ _.

End DCPost.

(* ===================================================================== *)
(** * DCComment.tsx and DCPost.tsx on the data as it arrives             *)
(* ===================================================================== *)

(** The two components applied to values that were not checked against
    [PostData] and [CommentData]: what they show, or the error that ends
    the rendering of the page. *)
Module Untyped.

Import DCComment.

(** The clock and the formats of dateFormatter.ts and of the post header:
    [getTime] and [toLocaleDateString] as in [DateFormatter], [now],
    [formatViewCount(views)] and [(score * 100).toFixed(0)].  The last two
    compute with fractions; neither throws. *)
Record Formats := {
  getTime : string → option Z;
  toLocaleDateString : option Z → string;
  now : Z;
  formatViewCount : JsValue → string;
  percent : JsValue → string;
}.

(** The names [Object.prototype] defines, which an object literal such as
    [PERSONA_META] inherits. *)
Definition objectPrototypeKeys : list string :=
  [ "constructor"; "hasOwnProperty"; "isPrototypeOf"; "propertyIsEnumerable";
    "toLocaleString"; "toString"; "valueOf"; "__proto__";
    "__defineGetter__"; "__defineSetter__"; "__lookupGetter__";
    "__lookupSetter__" ].

Record CommentSection := {
  commentCount : string;
  commentViews : list DCPost.CommentView;
}.

(** What [DCPost] shows; [sourceLink] is the value put in [href]. *)
Record PostView := {
  shownTitle : string;
  shownGallId : string;
  shownAuthor : string;
  shownDate : string;
  shownViews : string;
  shownUpvotes : string;
  scoreBadge : option string;
  shownBody : list N;
  moreButton : bool;
  commentSection : option CommentSection;
  sourceLink : option JsValue;
}.




Section WithEngine.

Variable eng : Engine.
Variable fmt : Formats.

(** [new Date(v).getTime()]: a string is parsed, [undefined] is no date,
    anything else but an array or an object is converted to the number of
    milliseconds, which is no date beyond 8.64e15; an array or an object is
    parsed as the string it converts to. *)
Definition newDate (v : JsValue) : option Z :=
  match v with
  | VStr s => getTime fmt s
  | VUndefined => None
  | VNull => Some 0
  | VBool b => Some (if b then 1 else 0)
  | VNum n => if Z.abs n <=? 8640000000000000 then Some n else None
  | VArr _ | VObj _ => getTime fmt (toString eng v)
  end.

(** [formatDCDate(v)] *)
Definition formatDCDate (v : JsValue) : string :=
  DateFormatter.formatDCDate (λ _, newDate v) (toLocaleDateString fmt) (now fmt) "".

(** [comment.persona ? PERSONA_META[comment.persona] : null], as far as
    the badge shows it: the entry of a persona, or a member inherited from
    [Object.prototype], which is truthy and has neither [label] nor
    [colorClass]. *)
Definition personaMeta (persona : JsValue) : option Meta :=
  if truthy persona then
    match personaOfId (toString eng persona) with
    | Some p => Some (PERSONA_META p)
    | None =>
        if bool_decide (toString eng persona ∈ objectPrototypeKeys)
        then Some {| label := ""; colorClass := "undefined" |}
        else None
    end
  else None.

(** [keys] reads [x.id] of every element, as [key={x.id}] does. *)
Definition keys (l : list JsValue) : Completion (list JsValue) :=
  mapM (λ x, getProp eng x "id") l.

(** The part of [DCComment] before its replies are rendered: the body of
    the function with [comment.replies?.map], then the children of the
    header, the badge or the author and the text. *)
Definition commentHeader (comment : JsValue)
    : Completion ((Meta + string) * string) :=
  persona ← getProp eng comment "persona";
  _ ← match getPropOpt comment "replies" with
      | VUndefined | VNull => Normal []
      | VArr rs => keys rs
      | _ => Throw (ErrorObj (notAFunctionMessage eng "comment.replies?.map"))
      end;
  badge ← match personaMeta persona with
          | Some meta => Normal (inl meta)
          | None => author ← reactChild eng (getPropOpt comment "author");
                    Normal (inr author)
          end;
  text ← reactChild eng (getPropOpt comment "text");
  Normal (badge, text).

(** [DCComment].  The replies are reached through [fmap] over the fields
    of the comment, which is how the recursion descends into an object;
    the result is that of rendering the elements of [comment.replies]. *)
Fixpoint DCComment (depth : nat) (comment : JsValue) {struct comment}
    : Completion DCPost.CommentView :=
  match commentHeader comment with
  | Throw e => Throw e
  | Normal (badge, text) =>
      match
        match comment with
        | VObj m =>
            default (Normal [])
              (((λ replies, match replies with
                            | VArr rs => mapM (DCComment (S depth)) rs
                            | _ => Normal []
                            end) <$> m) !! "replies")
        | _ => Normal []
        end
      with
      | Throw e => Throw e
      | Normal replies =>
          Normal (DCPost.Shown (bool_decide (0 < depth)%nat) badge
                    (truthy (getPropOpt comment "isAI")) text
                    (formatDCDate (getPropOpt comment "date")) replies)
      end
  end.

(** [post.body.slice(0, 280)] and [post.body.length]: a string by its code
    units, an array by its elements. *)
Definition slice (body : JsValue) : Completion (list N + list JsValue) :=
  match body with
  | VUndefined | VNull => Throw (ErrorObj (typeErrorMessage eng body "slice"))
  | VStr s => Normal (inl (utf16 s))
  | VArr xs => Normal (inr xs)
  | _ => Throw (ErrorObj (notAFunctionMessage eng "post.body.slice"))
  end.

(** [expanded && post.comments.length > 0 && (... post.comments.map ...)]:
    the comments that are handed to [DCComment]. *)
Definition commentElements (post : JsValue) (expanded : bool)
    : Completion (option (list JsValue)) :=
  if expanded then
    let comments := getPropOpt post "comments" in
    if isNullish comments then
      Throw (ErrorObj (typeErrorMessage eng comments "length"))
    else if gtZero eng (lengthOf comments) then
      match comments with
      | VArr cs => _ ← keys cs; Normal (Some cs)
      | _ => Throw (ErrorObj (notAFunctionMessage eng "post.comments.map"))
      end
    else Normal None
  else Normal None.

(** [DCPost]: the body of the function, then the children in the order of
    the page. *)
Definition DCPost (post : JsValue) (expanded : bool) : Completion PostView :=
  body ← getProp eng post "body";
  sliced ← slice body;
  let isTruncated :=
    match sliced with
    | inl units => bool_decide (280 < length units)%nat
    | inr xs => bool_decide (280 < length xs)%nat
    end in
  comments ← commentElements post expanded;
  title ← reactChild eng (getPropOpt post "title");
  gallId ← reactChild eng (getPropOpt post "gallId");
  author ← reactChild eng (getPropOpt post "author");
  upvotes ← reactChild eng (getPropOpt post "upvotes");
  shown ← match sliced with
          | inl units => Normal (if expanded then units else take 280 units)
          | inr xs =>
              t ← reactChild eng (VArr (if expanded then xs else take 280 xs));
              Normal (utf16 t)
          end;
  section ← match comments with
            | Some cs =>
                count ← reactChild eng (lengthOf (getPropOpt post "comments"));
                views ← mapM (DCComment 0) cs;
                Normal (Some {| commentCount := count; commentViews := views |})
            | None => Normal None
            end;
  Normal {| shownTitle := title;
            shownGallId := gallId;
            shownAuthor := author;
            shownDate := formatDCDate (getPropOpt post "date");
            shownViews := "조회 " +:+ formatViewCount fmt (getPropOpt post "views");
            shownUpvotes := upvotes;
            scoreBadge :=
              match getPropOpt post "score" with
              | VUndefined => None
              | score => Some (percent fmt score +:+ "% 일치")
              end;
            shownBody := shown;
            moreButton := negb expanded && isTruncated;
            commentSection := section;
            sourceLink := if truthy (getPropOpt post "sourceUrl")
                          then Some (getPropOpt post "sourceUrl") else None |}.

End WithEngine.

End Untyped.

(* ===================================================================== *)
(** * apps/shared/components/DCBoard.tsx                                  *)
(* ===================================================================== *)

Module DCBoard.

(** What the post list area shows; [PostList] holds what [DCPost] shows for
    each post, in order. *)
Inductive Body :=
| LoadingSkeleton
| EmptyState (query : string)
| PostList (posts : list Untyped.PostView).

(** [resultCount] is the count shown in the header, present when [query] is
    not empty. *)
Record View := {
  resultCount : option string;
  body : Body;
}.

(** The posts handed to [DCPost], each with its flag [expanded], when the
    list is shown: [posts.map((post) => <DCPost key={post.id} ... />)].
    [expanded i] is the outcome of [expandedId === post.id] for the post
    at position [i]; it depends on the state the board has kept and, for
    an id that is an object, on its identity. *)
Definition postElements (eng : Engine) (expanded : nat → bool) (posts : JsValue)
    (isLoading : bool) : Completion (list (JsValue * bool)) :=
  if isLoading then Normal []
  else if isZero (lengthOf posts) then Normal []
  else match posts with
       | VArr xs =>
           _ ← Untyped.keys eng xs;
           Normal (imap (λ i post, (post, expanded i)) xs)
       | _ => Throw (ErrorObj (notAFunctionMessage eng "posts.map"))
       end.

(** [DCBoard]: the body of the function, then the count in the header,
    then the posts.  [posts.length] is read for the header when there is a
    query, and for the list when the board is not loading. *)
Definition render (eng : Engine) (fmt : Untyped.Formats) (expanded : nat → bool)
    (posts : JsValue) (isLoading : bool) (query : string) : Completion View :=
  _ ← (if isNullish posts && (negb (String.eqb query "") || negb isLoading)
       then Throw (ErrorObj (typeErrorMessage eng posts "length"))
       else Normal ());
  elements ← postElements eng expanded posts isLoading;
  count ← (if negb (String.eqb query "") then
             n ← reactChild eng (lengthOf posts); Normal (Some n)
           else Normal None);
  shown ← mapM (λ e, Untyped.DCPost eng fmt e.1 e.2) elements;
  Normal {| resultCount := count;
            body := if isLoading then LoadingSkeleton
                    else if isZero (lengthOf posts) then EmptyState query
                    else PostList shown |}.

End DCBoard.

(* ===================================================================== *)
(** * apps/web/src/App.tsx                                                *)
(* ===================================================================== *)

Module App.

Record CrawlPanel := {
  crawlDisabled : bool;
  crawlLabel : string;
  crawlMessage : option JsValue;
  crawlError : option string;
}.

Record GalleryStrip := {
  badges : list string;
  summary : string;
}.

Record AnswerBox := {
  answerPersona : string;
  answerText : string;
}.

(** The blocks of the page that depend on the state of the two hooks;
    [crawlMessageText] is the text React puts in the span of the crawl
    message. *)
Record View := {
  searchDisabled : bool;
  searchLabel : string;
  resetShown : bool;
  crawlPanel : option CrawlPanel;
  crawlMessageText : option string;
  loadingNotice : bool;
  galleryStrip : option GalleryStrip;
  answerBox : option AnswerBox;
  errorBox : option string;
  board : DCBoard.View;
}.

(** The state of [App] and of the hooks it uses; [boardExpanded] is the
    outcome of [expandedId === post.id] in the board for each position of
    the list, nowhere true when the board is first shown unless an id is
    [null]. *)
Record State := {
  query : string;
  gallId : string;
  showCrawlPanel : bool;
  searchState : UseSearch.SearchState;
  crawlState : UseCrawl.CrawlState;
  boardExpanded : nat → bool;
}.

Definition initial : State :=
  {| query := ""; gallId := "programming"; showCrawlPanel := false;
     searchState := UseSearch.initial; crawlState := UseCrawl.initial;
     boardExpanded := λ _, false |}.

Definition isRunning (s : UseCrawl.CrawlStatus) : bool :=
  bool_decide (s = UseCrawl.running).

(** The elements of the crawl panel: the attributes of the button and the
    children of the two spans, each there when its value is truthy.  The
    children are mounted by [render]. *)
Definition renderCrawlPanel (c : UseCrawl.CrawlState) : CrawlPanel :=
  {| crawlDisabled := isRunning (UseCrawl.status c);
     crawlLabel := if isRunning (UseCrawl.status c) then "크롤링 중..." else "크롤 시작";
     crawlMessage := if truthy (UseCrawl.message c) then Some (UseCrawl.message c) else None;
     crawlError := match UseCrawl.err c with
                   | Some e => if String.eqb e "" then None else Some e
                   | None => None
                   end |}.

Fixpoint mapChildren (eng : Engine) (l : list JsValue) : Completion (list string) :=
  match l with
  | [] => Normal []
  | x :: rest =>
      sx ← reactChild eng x;
      sr ← mapChildren eng rest;
      Normal (sx :: sr)
  end.

(** [{crawlMessage && <span>{crawlMessage}</span>}] of an open panel,
    mounted: the text of the message. *)
Definition mountCrawlMessage (eng : Engine) (panel : option CrawlPanel)
    : Completion (option string) :=
  match panel with
  | Some p =>
      match crawlMessage p with
      | Some m => t ← reactChild eng m; Normal (Some t)
      | None => Normal None
      end
  | None => Normal None
  end.

(** [data && data.discoveredGalls && data.discoveredGalls.length > 0 && ...]
    (the stray text React prints when an operand is the number 0 is left
    out): the galleries handed to [map], which is called when [App] is
    evaluated. *)
Definition galleryElements (eng : Engine) (data : JsValue)
    : Completion (option (list JsValue)) :=
  let galls := getPropOpt data "discoveredGalls" in
  if truthy data && truthy galls && gtZero eng (lengthOf galls) then
    match galls with
    | VArr xs => Normal (Some xs)
    | _ => Throw (ErrorObj (notAFunctionMessage eng "data.discoveredGalls.map"))
    end
  else Normal None.

(** The strip mounted: the badges and the two numbers of the summary. *)
Definition mountGalleryStrip (eng : Engine) (data : JsValue)
    (elements : option (list JsValue)) : Completion (option GalleryStrip) :=
  match elements with
  | Some xs =>
      bs ← mapChildren eng xs;
      crawled ← reactChild eng (getPropOpt data "postsCrawled");
      time ← reactChild eng (getPropOpt data "queryTime");
      Normal (Some {| badges := bs;
                      summary := crawled +:+ "개 게시물 크롤링 · " +:+ time +:+ "ms" |})
  | None => Normal None
  end.

Definition renderGalleryStrip (eng : Engine) (data : JsValue)
    : Completion (option GalleryStrip) :=
  elements ← galleryElements eng data;
  mountGalleryStrip eng data elements.

(** [data?.synthesizedAnswer && ...] *)
Definition renderAnswerBox (eng : Engine) (data : JsValue)
    : Completion (option AnswerBox) :=
  let answer := getPropOpt data "synthesizedAnswer" in
  if truthy answer then
    persona ← reactChild eng (getPropOpt data "persona");
    txt ← reactChild eng answer;
    Normal (Some {| answerPersona := persona +:+ " 페르소나"; answerText := txt |})
  else Normal None.

(** [{showCrawlPanel && (...)}] *)
Definition crawlPanelOf (shown : bool) (c : UseCrawl.CrawlState) : option CrawlPanel :=
  if shown then Some (renderCrawlPanel c) else None.

(** [App]: the body of the function, in which [data.discoveredGalls.map]
    is called, then the children in the order of the page: the crawl
    panel, the gallery strip, the answer box and the board. *)
Definition render (eng : Engine) (fmt : Untyped.Formats) (s : State)
    : Completion View :=
  let data := UseSearch.data (searchState s) in
  let isLoading := UseSearch.isLoading (searchState s) in
  galls ← galleryElements eng data;
  message ← mountCrawlMessage eng (crawlPanelOf (showCrawlPanel s) (crawlState s));
  strip ← mountGalleryStrip eng data galls;
  answer ← renderAnswerBox eng data;
  b ← DCBoard.render eng fmt (boardExpanded s)
         (nullish (getPropOpt data "posts") (VArr [])) isLoading (query s);
  Normal {| searchDisabled := isLoading;
            searchLabel := if isLoading then "검색 중..." else "검색";
            resetShown := truthy data;
            crawlPanel := crawlPanelOf (showCrawlPanel s) (crawlState s);
            crawlMessageText := message;
            loadingNotice := isLoading;
            galleryStrip := strip;
            answerBox := answer;
            errorBox := match UseSearch.error (searchState s) with
                        | Some e => if String.eqb e "" then None else Some e
                        | None => None
                        end;
            board := b |}.

(** A stored result for a query that matched nothing: [posts] is the empty
    array and [synthesizedAnswer] is [null]; the other fields the page
    reads have their types or are missing. *)
Definition emptyResult (d : JsValue) : bool :=
  match d with
  | VObj m =>
      let field k := default VUndefined (m !! k) in
      match field "posts" with VArr [] => true | _ => false end
      && isNull (field "synthesizedAnswer")
      && (UseSearch.allStrings (field "discoveredGalls")
          || isNullish (field "discoveredGalls"))
      && (isNumber (field "postsCrawled") || isNullish (field "postsCrawled"))
      && (isNumber (field "queryTime") || isNullish (field "queryTime"))
  | _ => false
  end.

(** ** The manual crawl panel as a machine

    The button's [onClick] is [resetCrawl(); startCrawl(gallId)]; a disabled
    button delivers no click. *)
Record Panel := {
  panelGallId : string;
  hook : UseCrawl.Hook;
}.

Definition panelMounted : Panel :=
  {| panelGallId := "programming"; hook := UseCrawl.mounted |}.

Inductive Event :=
| TypeGallId (value : string)
| ClickCrawl
| Settled (i : nat) (r : Reply).

Definition onClickCrawl (h : Host) (p : Panel) : Panel :=
  {| panelGallId := panelGallId p;
     hook := UseCrawl.run h None (hook p)
               [UseCrawl.Reset; UseCrawl.Start (panelGallId p) None] |}.

Definition step (h : Host) (p : Panel) (e : Event) : Panel :=
  match e with
  | TypeGallId v => {| panelGallId := v; hook := hook p |}
  | ClickCrawl =>
      if crawlDisabled (renderCrawlPanel (UseCrawl.state (hook p))) then p
      else onClickCrawl h p
  | Settled i r =>
      {| panelGallId := panelGallId p;
         hook := UseCrawl.step h None (hook p) (UseCrawl.Settle i r) |}
  end.

Definition run (h : Host) (p : Panel) (es : list Event) : Panel :=
  foldl (step h) p es.

(** Either a crawl is running and one call is in flight, or none is. *)
Definition oneInFlight (k : UseCrawl.Hook) : Prop :=
  (UseCrawl.status (UseCrawl.state k) = UseCrawl.running
   ∧ length (UseCrawl.inflight k) = 1%nat)
  ∨ (UseCrawl.status (UseCrawl.state k) ≠ UseCrawl.running
     ∧ UseCrawl.inflight k = []).

End App.

(* ===================================================================== *)
(** * apps/electron/python-bridge/sidecar.ts                              *)
(* ===================================================================== *)

Module Sidecar.

(** What the module reads from Electron and Node. *)
Record Platform := {
  isPackaged : bool;
  resourcesPath : string;
  dirname : string;
  platform : string;
  pathJoin : list string → string;
}.

Definition getBackendPath (pf : Platform) : string :=
  if isPackaged pf then pathJoin pf [resourcesPath pf; "backend"; "main.py"]
  else pathJoin pf [dirname pf; ".."; ".."; ".."; "backend"; "main.py"].

Definition pythonBin (pf : Platform) : string :=
  if String.eqb (platform pf) "win32" then "python" else "python3".

(** A child process is named by the rank of its [spawn]. *)
Definition Pid := nat.

(** The arguments of a [spawn]; the child inherits a copy of the
    environment. *)
Record Spawn := {
  command : string;
  args : list string;
  stdio : list string;
}.

(** A line handed to one of the two callbacks of [startPythonSidecar]
    (the main process passes the same two callbacks at every call). *)
Inductive Output :=
| OnLog (line : string)
| OnError (line : string).

(** The module variable [pythonProcess], the processes spawned so far, the
    signals sent, and the lines handed to the callbacks. *)
Record State := {
  pythonProcess : option Pid;
  spawned : list Spawn;
  killed : list (Pid * string);
  output : list Output;
}.

Definition loaded : State :=
  {| pythonProcess := None; spawned := []; killed := []; output := [] |}.

Definition startPythonSidecar (pf : Platform) (s : State) : State :=
  match pythonProcess s with
  | Some _ =>
      {| pythonProcess := pythonProcess s;
         spawned := spawned s;
         killed := killed s;
         output := output s ++ [OnLog "[sidecar] Python backend already running."] |}
  | None =>
      let backendPath := getBackendPath pf in
      {| pythonProcess := Some (length (spawned s));
         spawned := spawned s ++ [{| command := pythonBin pf; args := [backendPath];
                                    stdio := ["ignore"; "pipe"; "pipe"] |}];
         killed := killed s;
         output := output s ++
           [OnLog ("[sidecar] Starting: " +:+ pythonBin pf +:+ " " +:+ backendPath)] |}
  end.

Definition stopPythonSidecar (s : State) : State :=
  match pythonProcess s with
  | None => s
  | Some p =>
      {| pythonProcess := None;
         spawned := spawned s;
         killed := killed s ++ [(p, "SIGTERM")];
         output := output s |}
  end.

Definition isSidecarRunning (s : State) : bool :=
  match pythonProcess s with
  | Some _ => true
  | None => false
  end.

(** The listeners [startPythonSidecar] attaches to the process it spawns. *)
Definition onStdout (data : string) (s : State) : State :=
  {| pythonProcess := pythonProcess s; spawned := spawned s; killed := killed s;
     output := output s ++ [OnLog ("[backend] " +:+ trim data)] |}.

Definition onStderr (data : string) (s : State) : State :=
  {| pythonProcess := pythonProcess s; spawned := spawned s; killed := killed s;
     output := output s ++ [OnError ("[backend:err] " +:+ trim data)] |}.

(** [code] is the exit code, or [null] when the process was ended by a
    signal. *)
Definition onClose (code : option Z) (s : State) : State :=
  {| pythonProcess := None; spawned := spawned s; killed := killed s;
     output := output s ++
       [OnLog ("[sidecar] Python backend exited with code "
               +:+ from_option pretty "null" code)] |}.

Definition onSpawnError (message : string) (s : State) : State :=
  {| pythonProcess := None; spawned := spawned s; killed := killed s;
     output := output s ++ [OnError ("[sidecar] Failed to start Python: " +:+ message)] |}.

(** What can happen to the module: a call of one of its exports, or an
    event of a process it spawned.  Only spawned processes have
    listeners. *)
Inductive Event :=
| CallStart
| CallStop
| Stdout (p : Pid) (data : string)
| Stderr (p : Pid) (data : string)
| Close (p : Pid) (code : option Z)
| SpawnError (p : Pid) (message : string).

Definition hasListeners (s : State) (p : Pid) : bool :=
  bool_decide (p < length (spawned s))%nat.

Definition step (pf : Platform) (s : State) (e : Event) : State :=
  match e with
  | CallStart => startPythonSidecar pf s
  | CallStop => stopPythonSidecar s
  | Stdout p data => if hasListeners s p then onStdout data s else s
  | Stderr p data => if hasListeners s p then onStderr data s else s
  | Close p code => if hasListeners s p then onClose code s else s
  | SpawnError p message => if hasListeners s p then onSpawnError message s else s
  end.

Definition run (pf : Platform) (s : State) (es : list Event) : State :=
  foldl (step pf) s es.

(** A call of [stopPythonSidecar], the exit of a process, a failure to
    spawn. *)
Definition ends (e : Event) : bool :=
  match e with
  | CallStop | Close _ _ | SpawnError _ _ => true
  | _ => false
  end.

Definition processOf (e : Event) : option Pid :=
  match e with
  | Stdout p _ | Stderr p _ | Close p _ | SpawnError p _ => Some p
  | CallStart | CallStop => None
  end.

(** Every event of a process comes after the [spawn] of that process. *)
Fixpoint wellFormed (pf : Platform) (s : State) (es : list Event) : bool :=
  match es with
  | [] => true
  | e :: rest =>
      from_option (hasListeners s) true (processOf e)
      && wellFormed pf (step pf s e) rest
  end.

(** Whether the last call or event that touches the module variable is a
    call of [startPythonSidecar]. *)
Definition startedLast (es : list Event) : bool :=
  foldl (λ b e, match e with
                | CallStart => true
                | _ => if ends e then false else b
                end) false es.

(** The tracked process is the one spawned last, and no signal was sent to
    it. *)
Definition trackedFresh (s : State) : Prop :=
  (∀ q, q ∈ (killed s).*1 → (q < length (spawned s))%nat)
  ∧ (∀ p, pythonProcess s = Some p →
       S p = length (spawned s) ∧ p ∉ (killed s).*1).

End Sidecar.

(* ===================================================================== *)
(** * Parts of the repository that are not among the sources            *)
(* ===================================================================== *)

Module Backend.

Import DCComment.

(** Modelled from the spec: the handler of the [crawl:status] IPC channel,
    registered by [registerIpcHandlers] of apps/electron/main/ipc-handlers,
    which is not among the sources.  The spec (§6) gives a [status()] call
    returning [{ sidecarRunning: bool }]; the preload script types
    [getStatus] as [Promise<{ sidecarRunning: boolean }>]; the flag is what
    [isSidecarRunning] of the sidecar module reports. *)
Definition getStatus (s : Sidecar.State) : JsValue :=
  VObj {[ "sidecarRunning" := VBool (Sidecar.isSidecarRunning s) ]}.

(** Modelled from the spec: the result of [PersonaSynthesizer.synthesize]
    (§4.6), [{ answer: string|null, persona: PersonaId }].  The synthesizer
    is part of the Python backend, which is not among the sources. *)
Record Synthesis := {
  answer : option string;
  persona : Persona;
}.

(** Modelled from the spec: the failure of the synthesizer (§4.6, §7), "a
    generative-capability failure or timeout yields [GenerationFailed]". *)
Inductive SynthesisError := GenerationFailed.

(** Modelled from the spec: the default persona (§4.6), "if no persona is
    supplied, a default ([helpful_sunbae]) is used". *)
Definition defaultPersona : Persona := helpful_sunbae.

(** Modelled from the spec: [PersonaSynthesizer.synthesize] (§4.6), not
    among the sources.  "If [hits] is empty, returns [answer = null] without
    invoking the generative capability."  Otherwise the generative
    capability [generate] is called on the prompt built from the query, the
    hits and the tone of the persona; [None] is its failure or timeout. *)
Definition synthesize {Hit : Type}
    (generate : string → list Hit → Persona → option string)
    (query : string) (hits : list Hit) (requested : option Persona)
    : SynthesisError + Synthesis :=
  let p := default defaultPersona requested in
  match hits with
  | [] => inr {| answer := None; persona := p |}
  | _ =>
      match generate query hits p with
      | Some text => inr {| answer := Some text; persona := p |}
      | None => inl GenerationFailed
      end
  end.

(** Modelled from the spec: the last stage of [SmartSearchOrchestrator]
    (§4.7, §4.6), not among the sources.  [GenerationFailed] is not fatal:
    "returns [answer = null] while still returning the retrieved posts".
    The two fields are those the response of [/smart-search] carries as
    [synthesized_answer] and [persona] (§6). *)
Definition synthesisFields {Hit : Type}
    (generate : string → list Hit → Persona → option string)
    (query : string) (hits : list Hit) (requested : option Persona)
    : gmap string JsValue :=
  let r := match synthesize generate query hits requested with
           | inr r => r
           | inl GenerationFailed =>
               {| answer := None; persona := default defaultPersona requested |}
           end in
  <["synthesized_answer" := from_option VStr VNull (answer r)]>
  (<["persona" := VStr (personaId (persona r))]> ∅).

(** Modelled from the spec: the politeness interval of [CrawlOrchestrator]
    (§4.2, §6), "default 1 second", in milliseconds.  The crawler is part of
    the Python backend, which is not among the sources. *)
Definition minDelayMs : Z := 1000.

(** Modelled from the spec: an outbound request of a crawl operation (§4.2),
    with the job and the gallery it belongs to, the origin it goes to and
    the time at which the crawl has it ready. *)
Record Outbound := {
  job : nat;
  gallery : string;
  origin : string;
  readyAt : Z;
}.

(** Modelled from the spec: the request-delay gate of [CrawlOrchestrator]
    (§5), "a single global (or per-origin) request-delay gate shared across
    all concurrent crawl operations, implemented as a serializing rate
    limiter, not per-job throttling".  The gate keeps, for each origin, the
    time at which it let the last request out, and lets the next one out no
    earlier than the minimum interval after it. *)
Definition issueTime (gate : gmap string Z) (r : Outbound) : Z :=
  match gate !! origin r with
  | Some last => Z.max (readyAt r) (last + minDelayMs)
  | None => readyAt r
  end.

(** Modelled from the spec: the state of the gate (§5) after it has let the
    request out. *)
Definition pass (gate : gmap string Z) (r : Outbound) : gmap string Z :=
  <[origin r := issueTime gate r]> gate.

(** Modelled from the spec: the gate serializing (§5) the requests of all
    running crawls, taken in the order in which they reach it; each request
    is paired with the time at which it is sent. *)
Fixpoint issue (gate : gmap string Z) (rs : list Outbound) : list (Outbound * Z) :=
  match rs with
  | [] => []
  | r :: rest => (r, issueTime gate r) :: issue (pass gate r) rest
  end.

End Backend.

(* ===================================================================== *)
(** * Concrete hosts used in the examples                                 *)
(* ===================================================================== *)

Module Examples.

(** ** Number::toString outside the safe integers

    The double nearest to [a], for [a >= 2^53]: 53 significant bits, ties
    to the even significand. *)
Definition nearestDouble (a : Z) : Z :=
  let ulp := 2 ^ (Z.log2 a - 52) in
  let m := a / ulp in
  let r := a mod ulp in
  (if (ulp <? 2 * r) || ((2 * r =? ulp) && Z.odd m) then m + 1 else m) * ulp.

(** Whether the decimal [v] is read back as the double [d]: it lies between
    the midpoints to the neighbours of [d], which belong to [d] when its
    significand is even.  The three numbers are compared times 4. *)
Definition denotes (d v : Z) : bool :=
  let ulp := 2 ^ (Z.log2 d - 52) in
  let m := d / ulp in
  let lo := 4 * d - (if m =? 2 ^ 52 then ulp else 2 * ulp) in
  let hi := 4 * d + 2 * ulp in
  if Z.even m then (lo <=? 4 * v) && (4 * v <=? hi)
  else (lo <? 4 * v) && (4 * v <? hi).

(** The decimal of [k] significant digits that is read back as [d], the
    nearest to [d] if there are two; [p] is the number of digits of [d]. *)
Definition candidate (d : Z) (p k : nat) : option Z :=
  let s := 10 ^ Z.of_nat (p - k) in
  let v1 := d / s * s in
  let v2 := v1 + s in
  match denotes d v1, denotes d v2 with
  | true, true =>
      Some (if d - v1 <? v2 - d then v1
            else if v2 - d <? d - v1 then v2
            else if Z.even (d / s) then v1 else v2)
  | true, false => Some v1
  | false, true => Some v2
  | false, false => None
  end.

(** The decimal with the fewest significant digits that is read back as
    [d]. *)
Definition shortest (d : Z) : Z :=
  default d (head (omap (candidate d (String.length (pretty d))) (seq 1 17))).

Fixpoint stripZeros (ds : string) : string :=
  match ds with
  | EmptyString => EmptyString
  | String c rest =>
      let rest' := stripZeros rest in
      if String.eqb rest' "" && Ascii.eqb c "0" then EmptyString
      else String c rest'
  end.

(** All digits up to 21 of them, the exponent form from there on. *)
Definition decimalText (v : Z) : string :=
  let ds := pretty v in
  let n := String.length ds in
  if (n <=? 21)%nat then ds
  else
    match stripZeros ds with
    | String c rest =>
        String c (if String.eqb rest "" then "" else "." +:+ rest)
        +:+ "e+" +:+ pretty (Z.of_nat n - 1)
    | EmptyString => ds
    end.

Definition printNumber (n : Z) : string :=
  let a := Z.abs n in
  let text := if 2 ^ 1024 - 2 ^ 970 <=? a then "Infinity"
              else decimalText (shortest (nearestDouble a)) in
  if n <? 0 then "-" +:+ text else text.

(** ** [s > 0] for a string: StringToNumber

    The string without the white space around it is empty (0), [Infinity]
    with an optional sign, a hexadecimal, octal or binary literal without
    sign, or a decimal literal with an optional sign, fraction and
    exponent; anything else is [NaN]. *)
Definition isDigit (c : ascii) : bool :=
  let n := N_of_ascii c in ((48 <=? n) && (n <=? 57))%N.

Definition digitValue (c : ascii) : Z := Z.of_N (N_of_ascii c) - 48.

(** The digits at the front of a string and what follows them. *)
Fixpoint digitsPrefix (s : string) : string * string :=
  match s with
  | EmptyString => (EmptyString, EmptyString)
  | String c rest =>
      if isDigit c then
        let '(ds, tl) := digitsPrefix rest in (String c ds, tl)
      else (EmptyString, s)
  end.

Fixpoint decimalValue (acc : Z) (ds : string) : Z :=
  match ds with
  | EmptyString => acc
  | String c rest => decimalValue (10 * acc + digitValue c) rest
  end.

(** Whether a string is one or more digits of a base, one of them not 0. *)
Fixpoint radixDigits (valid : ascii → bool) (s : string) : bool * bool :=
  match s with
  | EmptyString => (true, false)
  | String c rest =>
      let '(ok, nonzero) := radixDigits valid rest in
      (valid c && ok, negb (Ascii.eqb c "0") || nonzero)
  end.

Definition radixGtZero (valid : ascii → bool) (s : string) : bool :=
  match s with
  | EmptyString => false
  | _ => let '(ok, nonzero) := radixDigits valid s in ok && nonzero
  end.

Definition isHexDigit (c : ascii) : bool :=
  let n := N_of_ascii c in
  (isDigit c || (65 <=? n) && (n <=? 70) || (97 <=? n) && (n <=? 102))%N.
Definition isOctalDigit (c : ascii) : bool :=
  let n := N_of_ascii c in ((48 <=? n) && (n <=? 55))%N.
Definition isBinaryDigit (c : ascii) : bool :=
  let n := N_of_ascii c in ((48 <=? n) && (n <=? 49))%N.

(** The exponent part, if the rest of the literal is one or is empty. *)
Definition exponentPart (s : string) : option Z :=
  match s with
  | EmptyString => Some 0
  | String c rest =>
      if Ascii.eqb c "e" || Ascii.eqb c "E" then
        let '(negative, digits) :=
          match rest with
          | String "-" r => (true, r)
          | String "+" r => (false, r)
          | _ => (false, rest)
          end in
        match digitsPrefix digits with
        | (String d ds, EmptyString) =>
            let e := decimalValue 0 (String d ds) in
            Some (if negative : bool then - e else e)
        | _ => None
        end
      else None
  end.

(** A decimal literal without sign: positive when a digit of the
    significand is not 0 and the value does not round to 0, which it does
    up to 2^-1075. *)
Definition decimalGtZero (s : string) : bool :=
  let '(int, afterInt) := digitsPrefix s in
  let '(frac, afterFrac) :=
    match afterInt with
    | String "." r => digitsPrefix r
    | _ => (EmptyString, afterInt)
    end in
  if String.eqb int "" && String.eqb frac "" then false
  else
    match exponentPart afterFrac with
    | None => false
    | Some e =>
        let m := decimalValue 0 (int +:+ frac) in
        let x := e - Z.of_nat (String.length frac) in
        if m =? 0 then false
        else if 0 <=? x then true
        else if 400 + Z.of_nat (String.length (int +:+ frac)) <? - x then false
        else 10 ^ (- x) <? m * 2 ^ 1075
    end.

Definition stringGtZero (s : string) : bool :=
  match trim s with
  | String "0" (String r digits) =>
      if Ascii.eqb r "x" || Ascii.eqb r "X" then radixGtZero isHexDigit digits
      else if Ascii.eqb r "o" || Ascii.eqb r "O" then radixGtZero isOctalDigit digits
      else if Ascii.eqb r "b" || Ascii.eqb r "B" then radixGtZero isBinaryDigit digits
      else decimalGtZero (trim s)
  | String "-" _ => false
  | String "+" rest =>
      if String.eqb rest "Infinity" then true else decimalGtZero rest
  | t => if String.eqb t "Infinity" then true else decimalGtZero t
  end.

(** The messages of V8 and the conversions of ECMAScript; the text React
    gives for an object used as a child is cut after its first sentence.
    For [v > 0], [null] converts to 0, a boolean to 0 or 1, a string by
    StringToNumber and an array by the string its elements are joined to,
    which is a number only for at most one element, that neither a boolean
    nor an object. *)
Definition v8 : Engine :=
  {| typeErrorMessage := λ v k,
       "Cannot read properties of "
       +:+ match v with VNull => "null" | _ => "undefined" end
       +:+ " (reading '" +:+ k +:+ "')";
     notAFunctionMessage := λ f, f +:+ " is not a function";
     invalidChildMessage := λ _, "Objects are not valid as a React child";
     convertedGtZero :=
       (fix gt (v : JsValue) : bool :=
          match v with
          | VBool b => b
          | VStr s => stringGtZero s
          | VArr [] => false
          | VArr [x] =>
              match x with
              | VNum n => 0 <? n
              | VStr s => stringGtZero s
              | VArr _ => gt x
              | _ => false
              end
          | _ => false
          end);
     numberToString := printNumber |}.

(** ** A clock and the formats of the post header

    The days from 1970-01-01 to a date of the proleptic Gregorian
    calendar, and back. *)
Definition daysFromCivil (y m d : Z) : Z :=
  let y' := if m <=? 2 then y - 1 else y in
  let era := y' / 400 in
  let yoe := y' - era * 400 in
  let doy := (153 * (if 2 <? m then m - 3 else m + 9) + 2) / 5 + d - 1 in
  let doe := yoe * 365 + yoe / 4 - yoe / 100 + doy in
  era * 146097 + doe - 719468.

Definition civilFromDays (days : Z) : Z * Z * Z :=
  let z := days + 719468 in
  let era := z / 146097 in
  let doe := z - era * 146097 in
  let yoe := (doe - doe / 1460 + doe / 36524 - doe / 146096) / 365 in
  let doy := doe - (365 * yoe + yoe / 4 - yoe / 100) in
  let mp := (5 * doy + 2) / 153 in
  let d := doy - (153 * mp + 2) / 5 + 1 in
  let m := if mp <? 10 then mp + 3 else mp - 9 in
  (yoe + era * 400 + (if m <=? 2 then 1 else 0), m, d).

Definition daysInMonth (y m : Z) : Z :=
  if m =? 2 then
    if ((y mod 4 =? 0) && negb (y mod 100 =? 0)) || (y mod 400 =? 0) then 29 else 28
  else if (m =? 4) || (m =? 6) || (m =? 9) || (m =? 11) then 30 else 31.

(** [n] digits at the front of a string, as a number, and the rest. *)
Fixpoint readDigits (n : nat) (acc : Z) (s : string) : option (Z * string) :=
  match n with
  | O => Some (acc, s)
  | S n' =>
      match s with
      | String c rest =>
          if isDigit c then readDigits n' (10 * acc + digitValue c) rest else None
      | EmptyString => None
      end
  end.

Definition expect (c : ascii) (s : string) : option string :=
  match s with
  | String c' rest => if Ascii.eqb c c' then Some rest else None
  | EmptyString => None
  end.

(** A date of the form [YYYY-MM-DD] or [YYYY-MM-DDTHH:mm:ssZ], in
    milliseconds since the epoch. *)
Definition parseIso (s : string) : option Z :=
  '(y, s) ← readDigits 4 0 s;
  s ← expect "-" s;
  '(m, s) ← readDigits 2 0 s;
  s ← expect "-" s;
  '(d, s) ← readDigits 2 0 s;
  if negb ((1 <=? m) && (m <=? 12) && (1 <=? d) && (d <=? daysInMonth y m)) then None
  else
    match s with
    | EmptyString => Some (daysFromCivil y m d * 86400000)
    | _ =>
        s ← expect "T" s;
        '(hh, s) ← readDigits 2 0 s;
        s ← expect ":" s;
        '(mm, s) ← readDigits 2 0 s;
        s ← expect ":" s;
        '(ss, s) ← readDigits 2 0 s;
        s ← expect "Z" s;
        if String.eqb s "" && (hh <=? 23) && (mm <=? 59) && (ss <=? 59) then
          Some (((daysFromCivil y m d * 24 + hh) * 60 + mm) * 60000 + ss * 1000)
        else None
    end.

Definition twoDigits (n : Z) : string :=
  if n <? 10 then "0" +:+ pretty n else pretty n.

(** Month, day, hour and minute of a time, in UTC. *)
Definition monthDayTime (t : option Z) : string :=
  match t with
  | None => "Invalid Date"
  | Some t =>
      let '(_, m, d) := civilFromDays (t / 86400000) in
      let minutes := t mod 86400000 / 60000 in
      twoDigits m +:+ ". " +:+ twoDigits d +:+ ". "
      +:+ twoDigits (minutes / 60) +:+ ":" +:+ twoDigits (minutes mod 60)
  end.

(** The double an integer is read as. *)
Definition toDouble (n : Z) : Z :=
  if isSafeInteger n then n
  else if n <? 0 then - nearestDouble (- n) else nearestDouble n.

(** [(p / q).toFixed(1)] for positive integers that are safe and whose
    quotient is below 1e21: the quotient is rounded to a double of 53
    significant bits, ties to even, and that double to one decimal, ties
    upwards. *)
Definition fixed1 (p q : Z) : string :=
  let e := Z.log2 p - Z.log2 q - 53 in
  let scaled k := if 0 <=? k then (p, q * 2 ^ k) else (p * 2 ^ (- k), q) in
  let '(a, b) := scaled e in
  let e := if 2 ^ 53 <=? a / b then e + 1 else e in
  let '(a, b) := scaled e in
  let m0 := a / b in
  let r := a mod b in
  let m := if (b <? 2 * r) || ((2 * r =? b) && Z.odd m0) then m0 + 1 else m0 in
  let tenths := if 0 <=? e then 10 * m * 2 ^ e
                else (20 * m + 2 ^ (- e)) / 2 ^ (1 - e) in
  pretty (tenths / 10) +:+ "." +:+ pretty (tenths mod 10).

(** A host in UTC at 2024-05-01T12:00:00Z.  Of the date strings, the clock
    reads the two ISO forms of [parseIso]; how others are read depends on
    the engine, and here they are no dates.  [formatViewCount] and the
    percentage are those of the sources for a safe integer, and for
    [null] and booleans in the percentage; for other values they are the
    text [String] gives, [NaN] for the percentage. *)
Definition formats : Untyped.Formats :=
  {| Untyped.getTime := parseIso;
     Untyped.toLocaleDateString := monthDayTime;
     Untyped.now := 1714564800000;
     Untyped.formatViewCount := λ views,
       match views with
       | VNum n =>
           if isSafeInteger n && (10000 <=? n) then fixed1 n 10000 +:+ "만"
           else if isSafeInteger n && (1000 <=? n) then fixed1 n 1000 +:+ "천"
           else toString v8 views
       | _ => toString v8 views
       end;
     Untyped.percent := λ score,
       match score with
       | VNum n =>
           let x := toDouble n * 100 in
           if isSafeInteger x then pretty x
           else if nearestDouble (Z.abs x) <? 10 ^ 21 then
             (if x <? 0 then "-" else "") +:+ pretty (nearestDouble (Z.abs x))
           else printNumber x
       | VNull | VBool false => "0"
       | VBool true => "100"
       | _ => "NaN"
       end |}.

(** The web build: no [window.fingerPrince]. *)
Definition browser : Host := {| engine := v8; hasBridge := false |}.

(** The Electron renderer, where the preload script has exposed the bridge. *)
Definition electron : Host := {| engine := v8; hasBridge := true |}.

(** [path.join] of POSIX: the non-empty segments joined by [/] and
    normalised, where [.] and empty components are dropped and [..] takes
    the component before it away. *)
Fixpoint splitSlash (s : string) : list string :=
  match s with
  | EmptyString => [EmptyString]
  | String c rest =>
      if Ascii.eqb c "/" then EmptyString :: splitSlash rest
      else match splitSlash rest with
           | first :: others => String c first :: others
           | [] => [String c EmptyString]
           end
  end.

Definition resolve (absolute : bool) (stack : list string) (component : string)
    : list string :=
  if String.eqb component "" || String.eqb component "." then stack
  else if String.eqb component ".." then
    match last stack with
    | Some top =>
        if String.eqb top ".." then stack ++ [component]
        else take (length stack - 1) stack
    | None => if absolute then stack else [component]
    end
  else stack ++ [component].

Definition normalize (path : string) : string :=
  let absolute := match path with String "/" _ => true | _ => false end in
  let trailing := match String.rev path with String "/" _ => true | _ => false end in
  let kept := String.concat "/" (foldl (resolve absolute) [] (splitSlash path)) in
  let kept := if String.eqb kept "" && negb absolute then "." else kept in
  let kept := if negb (String.eqb kept "") && trailing then kept +:+ "/" else kept in
  if absolute then "/" +:+ kept else kept.

Definition posixJoin (parts : list string) : string :=
  let joined :=
    String.concat "/" (List.filter (λ part, negb (String.eqb part "")) parts) in
  if String.eqb joined "" then "." else normalize joined.

Definition linuxDev : Sidecar.Platform :=
  {| Sidecar.isPackaged := false;
     Sidecar.resourcesPath := "/opt/finger-prince/resources";
     Sidecar.dirname := "/work/apps/electron/dist/python-bridge";
     Sidecar.platform := "linux";
     Sidecar.pathJoin := posixJoin |}.

(** A server that answers [/smart-search] with the given JSON value. *)
Definition answering (json : JsValue) : World :=
  {| invoke := λ _, Normal json;
     fetch := λ _, Normal {| ok := true; status := 200;
                             text := Normal ""; json := Normal json |} |}.

(** A result without [posts]. *)
Definition withoutPosts : gmap string JsValue :=
  <["synthesized_answer" := VNull]>
  (<["persona" := VStr "helpful_sunbae"]>
  (<["query_time" := VNum 12]> ∅)).

(** A [RAGResult], the result type the preload script documents for
    [fingerPrince.search]. *)
Definition ragResult : gmap string JsValue :=
  <["posts" := VArr []]>
  (<["synthesizedAnswer" := VNull]>
  (<["persona" := VStr "helpful_sunbae"]>
  (<["queryTime" := VNum 12]> ∅))).

(** A response of [/smart-search] for a query that matched nothing. *)
Definition nothingFound : gmap string JsValue :=
  <["posts" := VArr []]>
  (<["synthesized_answer" := VNull]>
  (<["persona" := VStr "helpful_sunbae"]>
  (<["query_time" := VNum 840]>
  (<["discovered_galls" := VArr [VStr "eldenring"]]>
  (<["posts_crawled" := VNum 0]> ∅))))).

(** Requests of two crawls, of different galleries, to one origin. *)
Definition twoCrawls : list Backend.Outbound :=
  [ {| Backend.job := 0%nat; Backend.gallery := "programming";
       Backend.origin := "https://gall.dcinside.com"; Backend.readyAt := 0 |};
    {| Backend.job := 1; Backend.gallery := "eldenring";
       Backend.origin := "https://gall.dcinside.com"; Backend.readyAt := 10 |};
    {| Backend.job := 0; Backend.gallery := "programming";
       Backend.origin := "https://gall.dcinside.com"; Backend.readyAt := 20 |} ].

End Examples.

(* ===================================================================== *)
(** * The search hook and the search form as machines                    *)
(* ===================================================================== *)

Module SearchHook.

(** The state held by [useState] of [useSearch] and the calls that have
    been issued and have not settled yet. *)
Record Hook := {
  state : UseSearch.SearchState;
  inflight : list Call;
}.

Definition mounted : Hook := {| state := UseSearch.initial; inflight := [] |}.

Inductive Event :=
| Search (query : string) (topK : option Z)
| Reset
| Settle (i : nat) (r : Reply).

Definition step (h : Host) (apiBase : option string) (k : Hook) (e : Event) : Hook :=
  match e with
  | Search query topK =>
      match UseSearch.search_begin h apiBase query topK with
      | None => k
      | Some (s, c) => {| state := s; inflight := inflight k ++ [c] |}
      end
  | Reset => {| state := UseSearch.reset; inflight := inflight k |}
  | Settle i r =>
      match inflight k !! i with
      | None => k
      | Some c =>
          match UseSearch.search_finish h c r with
          | None => k
          | Some s => {| state := s; inflight := delete i (inflight k) |}
          end
      end
  end.

Definition run (h : Host) (apiBase : option string) (k : Hook) (es : list Event) : Hook :=
  foldl (step h apiBase) k es.

(** The search form of apps/web/src/App.tsx: the text of the input and the
    hook.  A disabled submit button submits nothing, and the reset button
    exists only while [data] is truthy. *)
Record Form := {
  query : string;
  hook : Hook;
}.

Definition formMounted : Form := {| query := ""; hook := mounted |}.

Inductive FormEvent :=
| TypeQuery (value : string)
| Submit
| ClickReset
| Settled (i : nat) (r : Reply).

(** [handleSearch], after [e.preventDefault()]. *)
Definition handleSearch (h : Host) (f : Form) : Form :=
  if negb (isBlank (query f)) then
    {| query := query f; hook := step h None (hook f) (Search (query f) None) |}
  else f.

Definition formStep (h : Host) (f : Form) (e : FormEvent) : Form :=
  match e with
  | TypeQuery v => {| query := v; hook := hook f |}
  | Submit =>
      if UseSearch.isLoading (state (hook f)) then f else handleSearch h f
  | ClickReset =>
      if truthy (UseSearch.data (state (hook f))) then
        {| query := query f; hook := step h None (hook f) Reset |}
      else f
  | Settled i r => {| query := query f; hook := step h None (hook f) (Settle i r) |}
  end.

Definition formRun (h : Host) (f : Form) (es : list FormEvent) : Form :=
  foldl (formStep h) f es.

(** A search is in flight exactly while the state is loading, and then it
    is the only one. *)
Definition loadingIffInFlight (k : Hook) : Prop :=
  (UseSearch.isLoading (state k) = true ∧ length (inflight k) = 1%nat)
  ∨ (UseSearch.isLoading (state k) = false ∧ inflight k = []).

(** What every state the hook sets satisfies. *)
Definition coherent (s : UseSearch.SearchState) : Prop :=
  (UseSearch.isLoading s = true →
     UseSearch.data s = VNull ∧ UseSearch.error s = None)
  ∧ (is_Some (UseSearch.error s) →
     UseSearch.data s = VNull ∧ UseSearch.isLoading s = false).

End SearchHook.

(* ===================================================================== *)
(** * apps/electron/preload: the bridge [window.fingerPrince]             *)
(* ===================================================================== *)

Module Preload.

(** [ipcRenderer.invoke(channel, arg)]; [arg] is [None] when the call
    passes no argument. *)
Record Invoke := {
  channel : string;
  arg : option (gmap string JsValue);
}.

Definition crawl (gallId : string) (maxPages : option Z) : Invoke :=
  {| channel := "crawl:start";
     arg := Some (<["gallId" := VStr gallId]>
                  (<["maxPages" := VNum (default 5 maxPages)]> ∅)) |}.

Definition search (query : string) (topK : option Z) : Invoke :=
  {| channel := "search:query";
     arg := Some (<["query" := VStr query]>
                  (<["topK" := VNum (default 5 topK)]> ∅)) |}.

Definition getStatus : Invoke :=
  {| channel := "crawl:status"; arg := None |}.

(** What a call of a hook becomes when it goes through the bridge: the
    hooks call [fingerPrince.crawl(gallId, maxPages)] and
    [fingerPrince.search(query, topK)]. *)
Definition ofCall (c : Call) : option Invoke :=
  match c with
  | BridgeCrawl gallId maxPages => Some (crawl gallId (Some maxPages))
  | BridgeSearch query topK => Some (search query (Some topK))
  | HttpFetch _ => None
  end.

(** ** [onBackendLog]

    Every call of [onBackendLog] makes a handler of its own, registers it
    on the channel [backend:log] and returns the function that removes it.
    A handler is named by the rank of the call that made it; it hands the
    line to the callback of that call. *)
Record Channel := {
  listeners : list nat;
  subscribed : nat;
  delivered : list (nat * string);
}.

Definition fresh : Channel :=
  {| listeners := []; subscribed := 0; delivered := [] |}.

Fixpoint removeFirst (i : nat) (l : list nat) : list nat :=
  match l with
  | [] => []
  | x :: rest => if decide (x = i) then rest else x :: removeFirst i rest
  end.

(** [removeListener] removes at most one instance of the handler, the one
    added last. *)
Definition removeListener (i : nat) (l : list nat) : list nat :=
  reverse (removeFirst i (reverse l)).

Inductive Event :=
| OnBackendLog
| Unsubscribe (i : nat)
| BackendLog (line : string).

Definition step (c : Channel) (e : Event) : Channel :=
  match e with
  | OnBackendLog =>
      {| listeners := listeners c ++ [subscribed c];
         subscribed := S (subscribed c);
         delivered := delivered c |}
  | Unsubscribe i =>
      {| listeners := removeListener i (listeners c);
         subscribed := subscribed c;
         delivered := delivered c |}
  | BackendLog line =>
      {| listeners := listeners c;
         subscribed := subscribed c;
         delivered := delivered c ++ ((λ i, (i, line)) <$> listeners c) |}
  end.

Definition run (c : Channel) (es : list Event) : Channel := foldl step c es.

(** The lines the callback of the [i]-th call has been handed, in order. *)
Definition receivedBy (i : nat) (c : Channel) : list string :=
  (filter (λ d, d.1 = i) (delivered c)).*2.

Definition isOnBackendLog (e : Event) : bool :=
  match e with OnBackendLog => true | _ => false end.

(** The number of calls of [onBackendLog] among the events. *)
Definition subscriptions (es : list Event) : nat :=
  length (List.filter isOnBackendLog es).

Definition lines (es : list Event) : list string :=
  omap (λ e, match e with BackendLog line => Some line | _ => None end) es.

Definition isUnsubscribe (i : nat) (e : Event) : bool :=
  match e with
  | Unsubscribe j => bool_decide (j = i)
  | _ => false
  end.

(** Handlers are distinct and were made by calls that have happened; so
    were the handlers of all deliveries. *)
Definition tidy (c : Channel) : Prop :=
  NoDup (listeners c)
  ∧ (∀ i, i ∈ listeners c → (i < subscribed c)%nat)
  ∧ (∀ d, d ∈ delivered c → (d.1 < subscribed c)%nat).

End Preload.

(* ===================================================================== *)
(** * apps/electron/main: the main process                                *)
(* ===================================================================== *)

Module Main.

Inductive Content :=
| LoadURL (url : string)
| LoadFile (path : string).

Record Window := {
  width : Z;
  height : Z;
  minWidth : Z;
  minHeight : Z;
  backgroundColor : string;
  title : string;
  preload : string;
  contextIsolation : bool;
  nodeIntegration : bool;
  sandbox : bool;
  content : Content;
  devTools : bool;
}.

Definition isDev (pf : Sidecar.Platform) : bool := negb (Sidecar.isPackaged pf).

Definition createWindow (pf : Sidecar.Platform) : Window :=
  {| width := 1280;
     height := 800;
     minWidth := 900;
     minHeight := 600;
     backgroundColor := "#1a1a2e";
     title := "핑거 프린스 👑";
     preload := Sidecar.pathJoin pf [Sidecar.dirname pf; ".."; "preload"; "index.js"];
     contextIsolation := true;
     nodeIntegration := false;
     sandbox := true;
     content := if isDev pf then LoadURL "http://localhost:5173"
                else LoadFile (Sidecar.pathJoin pf
                                 [Sidecar.dirname pf; ".."; "renderer"; "index.html"]);
     devTools := isDev pf |}.

(** The state of the sidecar module, whether the [whenReady] callback has
    run, the windows created so far and the calls of [app.quit()]. *)
Record State := {
  sidecar : Sidecar.State;
  ready : bool;
  windows : list Window;
  quits : nat;
}.

Definition launched : State :=
  {| sidecar := Sidecar.loaded; ready := false; windows := []; quits := 0 |}.

(** What Electron delivers to the main process: the resolution of
    [whenReady] (its callback runs once), [activate] with the number of
    open windows, [window-all-closed], [before-quit], and the events of the
    child process. *)
Inductive Event :=
| Ready
| Activate (openWindows : nat)
| WindowAllClosed
| BeforeQuit
| Child (e : Sidecar.Event).

Definition step (pf : Sidecar.Platform) (s : State) (e : Event) : State :=
  match e with
  | Ready =>
      if ready s then s
      else {| sidecar := Sidecar.startPythonSidecar pf (sidecar s);
              ready := true;
              windows := windows s ++ [createWindow pf];
              quits := quits s |}
  | Activate openWindows =>
      if ready s && bool_decide (openWindows = 0%nat) then
        {| sidecar := sidecar s; ready := ready s;
           windows := windows s ++ [createWindow pf]; quits := quits s |}
      else s
  | WindowAllClosed =>
      {| sidecar := Sidecar.stopPythonSidecar (sidecar s);
         ready := ready s;
         windows := windows s;
         quits := if String.eqb (Sidecar.platform pf) "darwin" then quits s
                  else S (quits s) |}
  | BeforeQuit =>
      {| sidecar := Sidecar.stopPythonSidecar (sidecar s);
         ready := ready s; windows := windows s; quits := quits s |}
  | Child e =>
      match Sidecar.processOf e with
      | Some _ =>
          {| sidecar := Sidecar.step pf (sidecar s) e;
             ready := ready s; windows := windows s; quits := quits s |}
      | None => s
      end
  end.

Definition run (pf : Sidecar.Platform) (s : State) (es : list Event) : State :=
  foldl (step pf) s es.

Definition stops (e : Event) : bool :=
  match e with
  | WindowAllClosed | BeforeQuit => true
  | _ => false
  end.

(** Before [whenReady] nothing has been spawned; after it exactly one
    process has been, and it is the only one that can be tracked. *)
Definition spawnedOnce (s : State) : Prop :=
  (ready s = false ∧ sidecar s = Sidecar.loaded)
  ∨ (ready s = true
     ∧ length (Sidecar.spawned (sidecar s)) = 1%nat
     ∧ (Sidecar.pythonProcess (sidecar s) = None
        ∨ Sidecar.pythonProcess (sidecar s) = Some 0%nat)
     ∧ (Sidecar.killed (sidecar s) = []
        ∨ (Sidecar.killed (sidecar s) = [(0%nat, "SIGTERM")]
           ∧ Sidecar.pythonProcess (sidecar s) = None))).

(** What ends the backend the main process has started: a
    [window-all-closed], a [before-quit], the exit of the first child
    process or its failure to spawn. *)
Definition endsBackend (e : Event) : bool :=
  match e with
  | WindowAllClosed | BeforeQuit => true
  | Child (Sidecar.Close p _) | Child (Sidecar.SpawnError p _) =>
      bool_decide (p = 0%nat)
  | _ => false
  end.

(** Whether [whenReady] has resolved, and whether it has and nothing has
    ended the backend since. *)
Definition backendUp (es : list Event) : bool * bool :=
  foldl (λ (st : bool * bool) e,
           match e with
           | Ready => if st.1 then st else (true, true)
           | _ => (st.1, if endsBackend e then false else st.2)
           end) (false, false) es.

(** The number of [window-all-closed] events. *)
Definition closings (es : list Event) : nat :=
  length (List.filter (λ e, match e with WindowAllClosed => true | _ => false end) es).

End Main.

(* ===================================================================== *)
(** * More concrete inputs for the examples                               *)
(* ===================================================================== *)

Module Samples.

Definition reply1 : DCPost.CommentData :=
  DCPost.Comment "c2" "ㅇㅇ" "ㄹㅇㅋㅋ" "2024-05-01T10:05:00Z" None None None.

Definition comment1 : DCPost.CommentData :=
  DCPost.Comment "c1" "bot" "출혈 빌드가 아직 강함" "2024-05-01T10:00:00Z"
    (Some DCComment.fact_checker) (Some [reply1]) (Some true).

Definition longPost : DCPost.PostData unit :=
  {| DCPost.id := "101"; DCPost.gallId := "eldenring"; DCPost.title := "현재 메타 정리";
     DCPost.body := replicate 300 65%N; DCPost.author := "ㅇㅇ";
     DCPost.date := "2024-05-01T09:00:00Z"; DCPost.views := 1234;
     DCPost.upvotes := 10; DCPost.score := None;
     DCPost.comments := [comment1]; DCPost.sourceUrl := None |}.

Definition shortPost : DCPost.PostData unit :=
  {| DCPost.id := "102"; DCPost.gallId := "eldenring"; DCPost.title := "질문";
     DCPost.body := replicate 20 66%N; DCPost.author := "ㅇㅇ";
     DCPost.date := "2024-05-01T09:30:00Z"; DCPost.views := 12;
     DCPost.upvotes := 0; DCPost.score := None;
     DCPost.comments := [reply1]; DCPost.sourceUrl := None |}.

Definition macPackaged : Sidecar.Platform :=
  {| Sidecar.isPackaged := true;
     Sidecar.resourcesPath := "/Applications/FingerPrince.app/Contents/Resources";
     Sidecar.dirname := "/Applications/FingerPrince.app/Contents/Resources/app/main";
     Sidecar.platform := "darwin";
     Sidecar.pathJoin := Examples.posixJoin |}.

(** A post and a comment as they arrive in a response. *)
Definition wireComment : gmap string JsValue :=
  <["id" := VStr "c1"]>
  (<["author" := VStr "bot"]>
  (<["text" := VStr "출혈 빌드가 아직 강함"]>
  (<["date" := VStr "2024-05-01T10:00:00Z"]>
  (<["persona" := VStr "fact_checker"]>
  (<["isAI" := VBool true]> ∅))))).

Definition wirePost : gmap string JsValue :=
  <["id" := VStr "101"]>
  (<["gallId" := VStr "eldenring"]>
  (<["title" := VStr "현재 메타 정리"]>
  (<["body" := VStr "출혈이 답이다"]>
  (<["author" := VStr "ㅇㅇ"]>
  (<["date" := VStr "2024-05-01T09:00:00Z"]>
  (<["views" := VNum 1234]>
  (<["upvotes" := VNum 10]>
  (<["comments" := VArr [VObj wireComment]]>
  (<["sourceUrl" := VStr "https://gall.dcinside.com/eldenring/101"]> ∅))))))))).


End Samples.

(* ===================================================================== *)
(** * Properties                                                          *)
(* ===================================================================== *)

(** ** Date formatting *)

Section DateFormatterProperties.

Import DateFormatter.

Variable getTime : string → option Z.
Variable toLocaleDateString : option Z → string.

Lemma formatDCDate_branch_valid now dateStr date :
  getTime dateStr = Some date →
  formatDCDate_branch getTime now dateStr =
    if now - date <? 60000 then JustNow
    else if now - date <? 3600000 then MinutesAgo ((now - date) / 60000)
    else if now - date <? 86400000 then HoursAgo ((now - date) / 3600000)
    else Absolute (Some date).
Proof.
  intros Hdate. unfold formatDCDate_branch. rewrite Hdate. cbv zeta.
  repeat match goal with
         | |- context [?a <? ?b] => destruct (Z.ltb_spec a b)
         end; try reflexivity; exfalso; Z.div_mod_to_equations; lia.
Qed.

Lemma formatDCDate_branch_invalid now dateStr :
  getTime dateStr = None →
  formatDCDate_branch getTime now dateStr = Absolute None.
Proof. intros Hdate. unfold formatDCDate_branch. by rewrite Hdate. Qed.

End DateFormatterProperties.

(** C10.  For a timestamp less than one minute before the current time, and
    so for every timestamp in the future, [formatDCDate] returns "방금 전".
    The minute form is returned exactly for timestamps between one minute
    and one hour old and the hour form exactly for timestamps between one
    hour and 24 hours old, each with the floor of the elapsed minutes or
    hours; timestamps at least 24 hours old get the locale-formatted
    absolute date. *)
Theorem formatDCDate_relative_forms
    (getTime : string → option Z) (toLocaleDateString : option Z → string)
    (now : Z) (dateStr : string) (date : Z) :
  getTime dateStr = Some date →
  let branch := DateFormatter.formatDCDate_branch getTime now dateStr in
  let shown := DateFormatter.formatDCDate getTime toLocaleDateString now dateStr in
  (now - date < 60000 → shown = "방금 전")
  ∧ (now < date → shown = "방금 전")
  ∧ (branch = DateFormatter.JustNow ↔ now - date < 60000)
  ∧ (∀ m, branch = DateFormatter.MinutesAgo m ↔
          60000 ≤ now - date < 3600000 ∧ m = (now - date) / 60000)
  ∧ (∀ h, branch = DateFormatter.HoursAgo h ↔
          3600000 ≤ now - date < 86400000 ∧ h = (now - date) / 3600000)
  ∧ (60000 ≤ now - date < 3600000 →
       shown = pretty ((now - date) / 60000) +:+ "분 전")
  ∧ (3600000 ≤ now - date < 86400000 →
       shown = pretty ((now - date) / 3600000) +:+ "시간 전")
  ∧ (86400000 ≤ now - date → shown = toLocaleDateString (Some date)).
Proof.
  intros Hdate branch shown. subst shown. unfold DateFormatter.formatDCDate.
  subst branch. rewrite (formatDCDate_branch_valid _ _ _ _ Hdate).
  destruct (Z.ltb_spec (now - date) 60000) as [H1|H1];
    [|destruct (Z.ltb_spec (now - date) 3600000) as [H2|H2];
      [|destruct (Z.ltb_spec (now - date) 86400000) as [H3|H3]]];
    cbn [DateFormatter.print];
    (repeat split; try intros ?; try (intros [? ?]); try reflexivity;
     try congruence; try lia).
  all: try (match goal with
            | H : DateFormatter.MinutesAgo _ = DateFormatter.MinutesAgo _ |- _ =>
                injection H as H; lia
            | H : DateFormatter.HoursAgo _ = DateFormatter.HoursAgo _ |- _ =>
                injection H as H; lia
            | H : _ ∧ ?x = _ |- _ => destruct H as [_ ->]; reflexivity
            end).
Qed.

Lemma formatDCDate_relative_forms_witness :
  DateFormatter.formatDCDate (λ _, Some 1000) (λ _, "01. 01. 00:00") 400
    "2031-05-01T00:00:00Z" = "방금 전".
Proof.
  exact (proj1 (proj2
    (formatDCDate_relative_forms (λ _, Some 1000) (λ _, "01. 01. 00:00") 400
       "2031-05-01T00:00:00Z" 1000 eq_refl)) ltac:(lia)).
Defined.

(** ** The Python sidecar *)

Section SidecarProperties.

Import Sidecar.

Variable pf : Platform.

Lemma run_snoc s es e : run pf s (es ++ [e]) = step pf (run pf s es) e.
Proof. unfold run. by rewrite foldl_app. Qed.

Lemma wellFormed_app s es es' :
  wellFormed pf s (es ++ es') =
  wellFormed pf s es && wellFormed pf (run pf s es) es'.
Proof.
  revert s. induction es as [|e es IH]; intros s; [done|].
  cbn [app wellFormed]. rewrite IH. unfold run. cbn [foldl].
  by rewrite andb_assoc.
Qed.

Lemma trackedFresh_step s e : trackedFresh s → trackedFresh (step pf s e).
Proof.
  intros [Hk Hp].
  assert (Hclear : ∀ o, trackedFresh
            {| pythonProcess := None; spawned := spawned s;
               killed := killed s; output := o |}).
  { intros o. split; [exact Hk|]. intros p Hsome. discriminate Hsome. }
  assert (Hsame : ∀ o, trackedFresh
            {| pythonProcess := pythonProcess s; spawned := spawned s;
               killed := killed s; output := o |}).
  { intros o. split; [exact Hk|exact Hp]. }
  destruct e as [| |p d|p d|p c|p m]; cbn [step].
  - unfold startPythonSidecar. destruct (pythonProcess s) as [p|] eqn:Htracked.
    + split; [exact Hk|]. cbn. intros p' [= <-]. by apply Hp.
    + split; cbn.
      * intros q Hq. rewrite length_app. cbn. specialize (Hk q Hq). lia.
      * intros p' [= <-]. rewrite length_app. cbn. split; [lia|].
        intros Hin. specialize (Hk _ Hin). lia.
  - unfold stopPythonSidecar. destruct (pythonProcess s) as [p|] eqn:Htracked.
    + destruct (Hp p eq_refl) as [Hlast _]. split; cbn.
      * intros q. rewrite fmap_app. cbn. rewrite elem_of_app, list_elem_of_singleton.
        intros [Hq | ->]; [by apply Hk | lia].
      * intros p' Hsome. discriminate Hsome.
    + split; [exact Hk|]. by rewrite Htracked.
  - destruct (hasListeners s p); [apply Hsame | by split].
  - destruct (hasListeners s p); [apply Hsame | by split].
  - destruct (hasListeners s p); [apply Hclear | by split].
  - destruct (hasListeners s p); [apply Hclear | by split].
Qed.

Lemma trackedFresh_run es : trackedFresh (run pf loaded es).
Proof.
  induction es as [|e es IH] using rev_ind.
  - split; cbn; [intros q Hq; by apply elem_of_nil in Hq | intros p Hp; discriminate Hp].
  - rewrite run_snoc. by apply trackedFresh_step.
Qed.

Lemma isSidecarRunning_step s e :
  from_option (hasListeners s) true (processOf e) = true →
  isSidecarRunning (step pf s e) =
    match e with
    | CallStart => true
    | _ => if ends e then false else isSidecarRunning s
    end.
Proof.
  destruct e as [| |p d|p d|p c|p m]; cbn [processOf from_option step ends].
  - intros _. unfold startPythonSidecar, isSidecarRunning.
    by destruct (pythonProcess s).
  - intros _. unfold stopPythonSidecar, isSidecarRunning.
    destruct (pythonProcess s) eqn:Htracked; [done|]. by rewrite Htracked.
  - by intros ->.
  - by intros ->.
  - by intros ->.
  - by intros ->.
Qed.

Lemma isSidecarRunning_run es :
  wellFormed pf loaded es = true →
  isSidecarRunning (run pf loaded es) = startedLast es.
Proof.
  induction es as [|e es IH] using rev_ind; [done|].
  rewrite wellFormed_app, andb_true_iff. cbn [wellFormed].
  rewrite andb_true_r. intros [Hes He].
  rewrite run_snoc, (isSidecarRunning_step _ _ He), (IH Hes).
  unfold startedLast. by rewrite foldl_app.
Qed.

Lemma startedLast_after_start post :
  Forall (λ e, ends e = false) post →
  foldl (λ b e, match e with
                | CallStart => true
                | _ => if ends e then false else b
                end) true post = true.
Proof.
  induction 1 as [|e post He _ IH]; [done|].
  cbn [foldl]. destruct e; cbn in He |- *; try discriminate He; exact IH.
Qed.

Lemma startedLast_split es :
  startedLast es = true ↔
  ∃ pre post, es = pre ++ CallStart :: post ∧ Forall (λ e, ends e = false) post.
Proof.
  split.
  - induction es as [|e es IH] using rev_ind; [discriminate|].
    unfold startedLast. rewrite foldl_app. cbn [foldl].
    destruct e as [| |p d|p d|p c|p m]; cbn [ends]; try discriminate.
    + intros _. exists es, []. by split.
    + intros Hes. destruct (IH Hes) as (pre & post & -> & Hpost).
      exists pre, (post ++ [Stdout p d]). split; [by rewrite <- app_assoc|].
      apply Forall_app. split; [done|]. by constructor.
    + intros Hes. destruct (IH Hes) as (pre & post & -> & Hpost).
      exists pre, (post ++ [Stderr p d]). split; [by rewrite <- app_assoc|].
      apply Forall_app. split; [done|]. by constructor.
  - intros (pre & post & -> & Hpost). unfold startedLast.
    rewrite foldl_app. cbn [foldl]. by apply startedLast_after_start.
Qed.

End SidecarProperties.

(** The listeners do not look at which process emitted the event: the exit
    of a process that was stopped clears the variable also after another
    process has been started in its place, which then runs untracked. *)
Example late_close_of_stopped_process :
  let s := Sidecar.run Examples.linuxDev Sidecar.loaded
             [Sidecar.CallStart; Sidecar.CallStop; Sidecar.CallStart;
              Sidecar.Close 0%nat None] in
  length (Sidecar.spawned s) = 2%nat
  ∧ Sidecar.killed s = [(0%nat, "SIGTERM")]
  ∧ Sidecar.isSidecarRunning s = false.
Proof. by repeat split. Qed.

(** C9.  At any time the module tracks at most one process: the module
    variable names no process or the one spawned last, to which no signal
    has been sent.  While a process is tracked, [startPythonSidecar] spawns
    nothing, sends no signal, keeps the tracked process and only hands the
    line "[sidecar] Python backend already running." to [onLog].  After
    [stopPythonSidecar], after the exit of a process and after a spawn
    error, [isSidecarRunning()] is false. *)
Theorem sidecar_tracks_one_process (pf : Sidecar.Platform) (es : list Sidecar.Event) :
  let s := Sidecar.run pf Sidecar.loaded es in
  (∀ p, Sidecar.pythonProcess s = Some p →
        S p = length (Sidecar.spawned s) ∧ p ∉ (Sidecar.killed s).*1)
  ∧ (Sidecar.isSidecarRunning s = true →
       let s' := Sidecar.startPythonSidecar pf s in
       Sidecar.pythonProcess s' = Sidecar.pythonProcess s
       ∧ Sidecar.spawned s' = Sidecar.spawned s
       ∧ Sidecar.killed s' = Sidecar.killed s
       ∧ Sidecar.output s' =
           Sidecar.output s
           ++ [Sidecar.OnLog "[sidecar] Python backend already running."]
       ∧ Sidecar.isSidecarRunning s' = true)
  ∧ Sidecar.isSidecarRunning (Sidecar.stopPythonSidecar s) = false
  ∧ (∀ p code, Sidecar.hasListeners s p = true →
       Sidecar.isSidecarRunning (Sidecar.step pf s (Sidecar.Close p code)) = false)
  ∧ (∀ p message, Sidecar.hasListeners s p = true →
       Sidecar.isSidecarRunning (Sidecar.step pf s (Sidecar.SpawnError p message)) = false).
Proof.
  intros s. pose proof (trackedFresh_run pf es) as Hfresh.
  fold s in Hfresh. clearbody s. split; [|split; [|split; [|split]]].
  - apply Hfresh.
  - unfold Sidecar.isSidecarRunning, Sidecar.startPythonSidecar.
    destruct (Sidecar.pythonProcess s) as [p|] eqn:Htracked; [|discriminate].
    intros _. cbn. by repeat split.
  - unfold Sidecar.isSidecarRunning, Sidecar.stopPythonSidecar.
    destruct (Sidecar.pythonProcess s) as [p|] eqn:Htracked; [done|].
    by rewrite Htracked.
  - intros p code Hp. cbn [Sidecar.step]. by rewrite Hp.
  - intros p message Hp. cbn [Sidecar.step]. by rewrite Hp.
Qed.

(** X16.  The status entry point returns an object with the single field
    [sidecarRunning], a boolean, which is true exactly when
    [startPythonSidecar] has been called and since that call there has been
    no call of [stopPythonSidecar] and no exit and no failure to spawn of
    any process the module has spawned, the one started last or an earlier
    one. *)
Theorem status_reports_sidecar (pf : Sidecar.Platform) (es : list Sidecar.Event) :
  Sidecar.wellFormed pf Sidecar.loaded es = true →
  ∃ b : bool,
    Backend.getStatus (Sidecar.run pf Sidecar.loaded es) =
      VObj {[ "sidecarRunning" := VBool b ]}
    ∧ (b = true ↔
       ∃ pre post, es = pre ++ Sidecar.CallStart :: post
                   ∧ Forall (λ e, Sidecar.ends e = false) post).
Proof.
  intros Hwf. exists (Sidecar.isSidecarRunning (Sidecar.run pf Sidecar.loaded es)).
  split; [reflexivity|].
  rewrite (isSidecarRunning_run pf es Hwf). apply startedLast_split.
Qed.

Lemma sidecar_tracks_one_process_witness :
  let s := Sidecar.run Examples.linuxDev Sidecar.loaded [Sidecar.CallStart] in
  Sidecar.pythonProcess (Sidecar.startPythonSidecar Examples.linuxDev s) = Some 0%nat
  ∧ Sidecar.spawned (Sidecar.startPythonSidecar Examples.linuxDev s) = Sidecar.spawned s
  ∧ Sidecar.isSidecarRunning
      (Sidecar.step Examples.linuxDev s (Sidecar.Close 0%nat (Some 1))) = false.
Proof.
  intros s.
  pose proof (sidecar_tracks_one_process Examples.linuxDev [Sidecar.CallStart])
    as (_ & Hstart & _ & Hclose & _).
  destruct (Hstart eq_refl) as (Htracked & Hspawned & _).
  split; [exact Htracked|]. split; [exact Hspawned|].
  exact (Hclose 0%nat (Some 1) eq_refl).
Defined.

Lemma status_reports_sidecar_witness :
  ∃ b : bool,
    Backend.getStatus
      (Sidecar.run Examples.linuxDev Sidecar.loaded
         [Sidecar.CallStart; Sidecar.Stdout 0%nat "INFO: started"]) =
      VObj {[ "sidecarRunning" := VBool b ]}
    ∧ (b = true ↔
       ∃ pre post,
         [Sidecar.CallStart; Sidecar.Stdout 0%nat "INFO: started"] =
           pre ++ Sidecar.CallStart :: post
         ∧ Forall (λ e, Sidecar.ends e = false) post).
Proof.
  exact (status_reports_sidecar Examples.linuxDev
           [Sidecar.CallStart; Sidecar.Stdout 0%nat "INFO: started"] eq_refl).
Defined.


(** ** The request-delay gate *)

Section GateProperties.

Import Backend.

Lemma issue_after_last rs : ∀ (gate : gmap string Z) j r t last,
  issue gate rs !! j = Some (r, t) →
  gate !! origin r = Some last →
  last + minDelayMs ≤ t.
Proof.
  induction rs as [|r0 rest IH]; intros gate j r t last Hj Hlast; [done|].
  destruct j as [|j]; cbn in Hj.
  - injection Hj as -> <-. unfold issueTime. rewrite Hlast. lia.
  - destruct (decide (origin r0 = origin r)) as [Heq|Hne].
    + assert (Hgate : pass gate r0 !! origin r = Some (issueTime gate r0)).
      { unfold pass. rewrite Heq. apply lookup_insert_eq. }
      specialize (IH _ _ _ _ _ Hj Hgate).
      unfold issueTime in IH at 1. rewrite Heq, Hlast in IH.
      unfold minDelayMs in *. lia.
    + assert (Hgate : pass gate r0 !! origin r = Some last).
      { unfold pass. by rewrite lookup_insert_ne. }
      exact (IH _ _ _ _ _ Hj Hgate).
Qed.

Lemma issue_spaced rs : ∀ (gate : gmap string Z) i j r1 t1 r2 t2,
  (i < j)%nat →
  issue gate rs !! i = Some (r1, t1) →
  issue gate rs !! j = Some (r2, t2) →
  origin r1 = origin r2 →
  t1 + minDelayMs ≤ t2.
Proof.
  induction rs as [|r0 rest IH]; intros gate i j r1 t1 r2 t2 Hij Hi Hj Ho; [done|].
  destruct j as [|j]; [lia|]. cbn in Hj.
  destruct i as [|i]; cbn in Hi.
  - injection Hi as -> <-.
    apply (issue_after_last rest (pass gate r1) j r2 t2); [done|].
    unfold pass. rewrite Ho. apply lookup_insert_eq.
  - apply (IH (pass gate r0) i j r1 t1 r2 t2); [lia|done..].
Qed.

End GateProperties.

(** C8.  Whatever requests the running crawls hand to the gate, of whatever
    galleries and jobs and in whatever order, any two of them to the same
    origin are sent at least one second (1000 ms) apart. *)
Theorem crawl_requests_one_second_apart
    (rs : list Backend.Outbound) (i j : nat)
    (r1 r2 : Backend.Outbound) (t1 t2 : Z) :
  i ≠ j →
  Backend.issue ∅ rs !! i = Some (r1, t1) →
  Backend.issue ∅ rs !! j = Some (r2, t2) →
  Backend.origin r1 = Backend.origin r2 →
  1000 ≤ Z.abs (t2 - t1).
Proof.
  intros Hij Hi Hj Ho.
  destruct (decide (i < j)%nat) as [Hlt|Hge].
  - pose proof (issue_spaced rs ∅ i j r1 t1 r2 t2 Hlt Hi Hj Ho) as H.
    unfold Backend.minDelayMs in H. lia.
  - assert (Hlt : (j < i)%nat) by lia.
    pose proof (issue_spaced rs ∅ j i r2 t2 r1 t1 Hlt Hj Hi (eq_sym Ho)) as H.
    unfold Backend.minDelayMs in H. lia.
Qed.

Lemma crawl_requests_one_second_apart_witness :
  1000 ≤ Z.abs (1000 - 0).
Proof.
  exact (crawl_requests_one_second_apart Examples.twoCrawls 0 1
           {| Backend.job := 0; Backend.gallery := "programming";
              Backend.origin := "https://gall.dcinside.com"; Backend.readyAt := 0 |}
           {| Backend.job := 1; Backend.gallery := "eldenring";
              Backend.origin := "https://gall.dcinside.com"; Backend.readyAt := 10 |}
           0 1000 ltac:(discriminate) eq_refl eq_refl eq_refl).
Defined.

(** ** Personas *)

Section PersonaProperties.

Import DCComment.

Lemma allPersonas_complete (p : Persona) : p ∈ allPersonas.
Proof. destruct p; unfold allPersonas; set_solver. Qed.

Lemma allPersonas_NoDup : NoDup allPersonas.
Proof. compute_done. Qed.

Lemma personaOfId_personaId (p : Persona) : personaOfId (personaId p) = Some p.
Proof. by destruct p. Qed.

Lemma personaOfId_Some s p : personaOfId s = Some p → personaId p = s.
Proof.
  unfold personaOfId. intros H. apply fmap_Some in H as ([i q] & Hfind & ->).
  by apply list_find_Some in Hfind as (_ & Hq & _).
Qed.

Lemma personaId_inj p q : personaId p = personaId q → p = q.
Proof.
  intros H. apply (f_equal personaOfId) in H.
  rewrite !personaOfId_personaId in H. by injection H.
Qed.

Lemma PERSONA_META_inj p q : PERSONA_META p = PERSONA_META q → p = q.
Proof. by destruct p, q. Qed.

End PersonaProperties.

(** C2.  [Persona] has exactly the four members [aggressive_helper],
    [fact_checker], [meme_lord] and [helpful_sunbae], told apart by their
    identifiers, and [PERSONA_META] gives each its own entry; no other string
    names a persona.  The persona of a synthesized result is one of the
    four: the requested one, or [helpful_sunbae] when none was requested,
    also when generation failed or there were no hits; and that identifier
    is what the web client stores as the [persona] of its result. *)
Theorem persona_is_one_of_four {Hit : Type}
    (generate : string → list Hit → DCComment.Persona → option string)
    (query : string) (hits : list Hit) (requested : option DCComment.Persona) :
  (∀ p : DCComment.Persona, p ∈ DCComment.allPersonas)
  ∧ NoDup DCComment.allPersonas
  ∧ length DCComment.allPersonas = 4%nat
  ∧ (∀ s, is_Some (DCComment.personaOfId s) ↔
          s ∈ ["aggressive_helper"; "fact_checker"; "meme_lord"; "helpful_sunbae"])
  ∧ (∀ p q, DCComment.PERSONA_META p = DCComment.PERSONA_META q → p = q)
  ∧ (∃ p, Backend.synthesisFields generate query hits requested !! "persona"
            = Some (VStr (DCComment.personaId p))
          ∧ p = default DCComment.helpful_sunbae requested
          ∧ DCComment.personaId p ∈
              ["aggressive_helper"; "fact_checker"; "meme_lord"; "helpful_sunbae"]
          ∧ ∀ eng (wire : gmap string JsValue) d,
              wire !! "persona" =
                Backend.synthesisFields generate query hits requested !! "persona" →
              UseSearch.fromWire eng (VObj wire) = Normal d →
              getPropOpt d "persona" = VStr (DCComment.personaId p)).
Proof.
  split; [exact allPersonas_complete|]. split; [exact allPersonas_NoDup|].
  split; [reflexivity|]. split; [|split; [exact PERSONA_META_inj|]].
  - intros s. split.
    + intros [p Hp]. apply personaOfId_Some in Hp as <-.
      destruct p; cbn; set_solver.
    + intros Hs. repeat (apply elem_of_cons in Hs as [->|Hs]; [by eexists|]).
      by apply elem_of_nil in Hs.
  - exists (default DCComment.helpful_sunbae requested).
    assert (Hfield :
      Backend.synthesisFields generate query hits requested !! "persona" =
      Some (VStr (DCComment.personaId (default DCComment.helpful_sunbae requested)))).
    { unfold Backend.synthesisFields, Backend.synthesize, Backend.defaultPersona.
      destruct hits as [|hit hits];
        [|destruct (generate query (hit :: hits) _)]; cbn [Backend.persona];
        by rewrite lookup_insert_ne, lookup_insert_eq. }
    split; [exact Hfield|]. split; [reflexivity|]. split.
    + destruct (default DCComment.helpful_sunbae requested); cbn; set_solver.
    + intros eng wire d Hwire. rewrite Hfield in Hwire.
      unfold UseSearch.fromWire. cbn. rewrite Hwire. cbn.
      intros [= <-]. cbn. by rewrite lookup_insert_ne, lookup_insert_ne, lookup_insert_eq.
Qed.

Lemma persona_is_one_of_four_witness :
  ∃ p, Backend.synthesisFields (Hit := JsValue) (λ _ _ _, None) "엘든링 현재 메타" [] None
         !! "persona" = Some (VStr (DCComment.personaId p))
       ∧ p = DCComment.helpful_sunbae.
Proof.
  destruct (persona_is_one_of_four (Hit := JsValue) (λ _ _ _, None)
              "엘든링 현재 메타" [] None)
    as (_ & _ & _ & _ & _ & p & Hfield & Hp & _).
  exists p. split; [exact Hfield | exact Hp].
Defined.

(** ** The two hooks *)

Section HookProperties.

Lemma getProp_not_nullish eng v k :
  isNullish v = false → getProp eng v k = Normal (getPropOpt v k).
Proof. by destruct v. Qed.

Lemma getProp_nullish eng v k :
  isNullish v = true → getProp eng v k = Throw (ErrorObj (typeErrorMessage eng v k)).
Proof. by destruct v. Qed.

(** The object [fromWire] builds, field by field. *)
Lemma fromWire_not_nullish eng json :
  isNullish json = false →
  UseSearch.fromWire eng json =
    Normal (VObj (
      <["posts" := getPropOpt json "posts"]> (
      <["synthesizedAnswer" := getPropOpt json "synthesized_answer"]> (
      <["persona" := getPropOpt json "persona"]> (
      <["queryTime" := getPropOpt json "query_time"]> (
      <["discoveredGalls" := nullish (getPropOpt json "discovered_galls") (VArr [])]> (
      <["postsCrawled" := nullish (getPropOpt json "posts_crawled") (VNum 0)]> ∅))))))).
Proof.
  intros Hjson. unfold UseSearch.fromWire.
  by rewrite !(getProp_not_nullish _ _ _ Hjson).
Qed.

Lemma fromWire_nullish eng json :
  isNullish json = true →
  UseSearch.fromWire eng json = Throw (ErrorObj (typeErrorMessage eng json "posts")).
Proof.
  by destruct json.
Qed.

Lemma fromWire_lookups (a b c d e f : JsValue) :
  let m : gmap string JsValue :=
    <["posts" := a]> (<["synthesizedAnswer" := b]> (<["persona" := c]> (
    <["queryTime" := d]> (<["discoveredGalls" := e]> (<["postsCrawled" := f]> ∅))))) in
  m !! "posts" = Some a ∧ m !! "synthesizedAnswer" = Some b
  ∧ m !! "persona" = Some c ∧ m !! "queryTime" = Some d
  ∧ m !! "discoveredGalls" = Some e ∧ m !! "postsCrawled" = Some f
  ∧ dom m = ({[ "posts"; "synthesizedAnswer"; "persona"; "queryTime";
                "discoveredGalls"; "postsCrawled" ]} : gset string).
Proof. cbv zeta. by repeat split. Qed.

Lemma nullish_not_nullish v d : isNullish d = false → isNullish (nullish v d) = false.
Proof. by destruct v. Qed.

(** What [startCrawl] sets last is [done] exactly when the call delivered
    a result, and [error] otherwise. *)
Lemma startCrawl_finish_status h c r s :
  UseCrawl.startCrawl_finish h c r = Some s →
  UseCrawl.status s =
    if UseCrawl.delivered r then UseCrawl.done else UseCrawl.error.
Proof.
  unfold UseCrawl.startCrawl_finish.
  destruct c as [g m|q t|req], r as [[result|e]|[response|e]];
    try discriminate; intros [= <-]; try reflexivity.
  - unfold UseCrawl.afterBridge, UseCrawl.delivered. cbn.
    by destruct result.
  - unfold UseCrawl.afterFetch, UseCrawl.delivered. cbn.
    destruct (ok response); cbn.
    + destruct (json response) as [j|e]; [|done]. cbn. by destruct j.
    + by destruct (text response).
Qed.

Lemma startCrawl_finish_fits h c r :
  UseCrawl.fits c r = true → Host.isHttp c = true ∨ (∃ g m, c = BridgeCrawl g m) →
  is_Some (UseCrawl.startCrawl_finish h c r).
Proof.
  destruct c as [g m|q t|req], r as [result|response]; try discriminate;
    intros _ [Hc|(g' & m' & Hc)]; try discriminate; by eexists.
Qed.

End HookProperties.

(** C1.  Every request [useSearch] sends over HTTP is
    [POST {apiBase}/smart-search] with a JSON body that has precisely the
    fields [query], [top_k], [google_results] and [gallery_pages], and it
    sends one for every search of a non-blank query in the web build.  From
    a successful response it stores a record with precisely the fields
    [posts], [synthesizedAnswer], [persona], [queryTime], [discoveredGalls]
    and [postsCrawled], read from [posts], [synthesized_answer], [persona],
    [query_time], [discovered_galls] and [posts_crawled] of the response.
    Every request [useCrawl] sends over HTTP is [POST {apiBase}/crawl] with
    precisely the body fields [gall_id] and [max_pages], one for every crawl
    of a non-blank gallery id in the web build, and from a successful
    response it stores [posts_indexed] and [message]. *)
Theorem web_transport_field_names
    (h : Host) (apiBase : option string) (w : World)
    (query gallId : string) (topK maxPages : option Z) :
  (∀ req, HttpFetch req ∈ fst (UseSearch.search h apiBase query topK w) →
      url req = default "/api" apiBase +:+ "/smart-search"
      ∧ method req = "POST"
      ∧ dom (body req) =
          ({[ "query"; "top_k"; "google_results"; "gallery_pages" ]} : gset string)
      ∧ body req !! "query" = Some (VStr query)
      ∧ body req !! "top_k" = Some (VNum (default 5 topK))
      ∧ body req !! "google_results" = Some (VNum 10)
      ∧ body req !! "gallery_pages" = Some (VNum 2))
  ∧ (hasBridge h = false → isBlank query = false →
       ∃ req, fst (UseSearch.search h apiBase query topK w) = [HttpFetch req])
  ∧ (∀ req code txt (wire : gmap string JsValue),
       ∃ d : gmap string JsValue,
         UseSearch.search_finish h (HttpFetch req)
           (HttpReply (Normal {| ok := true; status := code; text := txt;
                                 json := Normal (VObj wire) |}))
         = Some {| UseSearch.data := VObj d; UseSearch.isLoading := false;
                   UseSearch.error := None |}
         ∧ dom d = ({[ "posts"; "synthesizedAnswer"; "persona"; "queryTime";
                       "discoveredGalls"; "postsCrawled" ]} : gset string)
         ∧ d !! "posts" = Some (default VUndefined (wire !! "posts"))
         ∧ d !! "synthesizedAnswer" =
             Some (default VUndefined (wire !! "synthesized_answer"))
         ∧ d !! "persona" = Some (default VUndefined (wire !! "persona"))
         ∧ d !! "queryTime" = Some (default VUndefined (wire !! "query_time"))
         ∧ d !! "discoveredGalls" =
             Some (nullish (default VUndefined (wire !! "discovered_galls")) (VArr []))
         ∧ d !! "postsCrawled" =
             Some (nullish (default VUndefined (wire !! "posts_crawled")) (VNum 0)))
  ∧ (∀ req, HttpFetch req ∈ fst (UseCrawl.startCrawl h apiBase gallId maxPages w) →
      url req = default "/api" apiBase +:+ "/crawl"
      ∧ method req = "POST"
      ∧ dom (body req) = ({[ "gall_id"; "max_pages" ]} : gset string)
      ∧ body req !! "gall_id" = Some (VStr gallId)
      ∧ body req !! "max_pages" = Some (VNum (default 5 maxPages)))
  ∧ (hasBridge h = false → isBlank gallId = false →
       ∃ req, fst (UseCrawl.startCrawl h apiBase gallId maxPages w) = [HttpFetch req])
  ∧ (∀ req code txt (wire : gmap string JsValue),
       UseCrawl.startCrawl_finish h (HttpFetch req)
         (HttpReply (Normal {| ok := true; status := code; text := txt;
                               json := Normal (VObj wire) |}))
       = Some {| UseCrawl.status := UseCrawl.done;
                 UseCrawl.message := default VUndefined (wire !! "message");
                 UseCrawl.postsIndexed := default VUndefined (wire !! "posts_indexed");
                 UseCrawl.err := None |}).
Proof.
  split; [|split; [|split; [|split; [|split]]]].
  - intros req. unfold UseSearch.search, UseSearch.search_begin.
    destruct (isBlank query); [intros Hin; by apply elem_of_nil in Hin|].
    cbn [fst]. rewrite list_elem_of_singleton.
    destruct (hasBridge h); [discriminate|]. intros [= ->].
    do 2 (split; [reflexivity|]).
    split; [cbn; unfold UseSearch.requestBody; set_solver|].
    by repeat split.
  - intros Hweb Hquery. unfold UseSearch.search, UseSearch.search_begin.
    rewrite Hquery, Hweb. by eexists.
  - intros req code txt wire. eexists. split; [reflexivity|].
    match goal with
    | |- dom (<[_ := ?a]> (<[_ := ?b]> (<[_ := ?c]> (<[_ := ?d]>
             (<[_ := ?e]> (<[_ := ?f]> ∅)))))) = _ ∧ _ =>
        destruct (fromWire_lookups a b c d e f)
          as (Hposts & Hanswer & Hpersona & Htime & Hgalls & Hcrawled & Hdom)
    end.
    by repeat split.
  - intros req. unfold UseCrawl.startCrawl, UseCrawl.startCrawl_begin.
    destruct (isBlank gallId); [intros Hin; by apply elem_of_nil in Hin|].
    cbn [fst]. rewrite list_elem_of_singleton.
    destruct (hasBridge h); [discriminate|]. intros [= ->].
    do 2 (split; [reflexivity|]).
    split; [cbn; unfold UseCrawl.requestBody; set_solver|].
    by repeat split.
  - intros Hweb Hgall. unfold UseCrawl.startCrawl, UseCrawl.startCrawl_begin.
    rewrite Hgall, Hweb. by eexists.
  - reflexivity.
Qed.

Lemma web_transport_field_names_witness :
  ∃ req,
    fst (UseSearch.search Examples.browser None "엘든링 현재 메타" None
           (Examples.answering (VObj Examples.nothingFound))) = [HttpFetch req]
    ∧ url req = "/api/smart-search"
    ∧ dom (body req) =
        ({[ "query"; "top_k"; "google_results"; "gallery_pages" ]} : gset string).
Proof.
  destruct (web_transport_field_names Examples.browser None
              (Examples.answering (VObj Examples.nothingFound))
              "엘든링 현재 메타" "programming" None None)
    as (Hsent & Hone & _).
  destruct (Hone eq_refl eq_refl) as [req Hreq].
  exists req. split; [exact Hreq|].
  destruct (Hsent req) as (Hurl & _ & Hdom & _).
  { rewrite Hreq. apply list_elem_of_singleton. reflexivity. }
  split; [exact Hurl | exact Hdom].
Defined.

(** C3 as stated fails for an invocation with a blank gallery id, which the
    guard at the top of [startCrawl] ends at once: nothing is sent and no
    state is set, so the status stays [idle].  The crawl button of the page
    does this when the gallery field has been emptied. *)
Lemma blank_startCrawl_changes_nothing :
  UseCrawl.startCrawl Examples.browser None "   " None
    (Examples.answering VNull) = ([], [])
  ∧ UseCrawl.step Examples.browser None UseCrawl.mounted
      (UseCrawl.Start "   " None) = UseCrawl.mounted
  ∧ UseCrawl.status (UseCrawl.state UseCrawl.mounted) = UseCrawl.idle
  ∧ UseCrawl.status
      (UseCrawl.state
         (App.hook (App.run Examples.browser App.panelMounted
                      [App.TypeGallId ""; App.ClickCrawl]))) = UseCrawl.idle.
Proof. by repeat split. Qed.

(** C3, amended.  The crawl status takes the four values [idle],
    [running], [done] and [error] and starts as [idle].  An invocation of
    [startCrawl] with a blank gallery id changes nothing: it issues no call
    and sets no state, whatever the state of the hook.  An invocation for a
    non-blank gallery id, whatever the state before it (so from [idle]
    too), first sets the status to [running] and issues one call; when that
    call settles it sets [done] if the call delivered a result, whatever
    the result reports, and [error] if and only if the call as a whole
    failed.  [reset] sets the status to [idle]. *)
Theorem crawl_status_machine
    (h : Host) (apiBase : option string) (w : World)
    (gallId : string) (maxPages : option Z) (k : UseCrawl.Hook) :
  (∀ s : UseCrawl.CrawlStatus,
      s ∈ [UseCrawl.idle; UseCrawl.running; UseCrawl.done; UseCrawl.error])
  ∧ UseCrawl.status (UseCrawl.state UseCrawl.mounted) = UseCrawl.idle
  ∧ (isBlank gallId = true →
       UseCrawl.startCrawl h apiBase gallId maxPages w = ([], [])
       ∧ UseCrawl.step h apiBase k (UseCrawl.Start gallId maxPages) = k)
  ∧ (isBlank gallId = false →
       (∃ c s1,
          UseCrawl.startCrawl h apiBase gallId maxPages w
            = ([c], [UseCrawl.started; s1])
          ∧ UseCrawl.status UseCrawl.started = UseCrawl.running
          ∧ UseCrawl.status s1 =
              if UseCrawl.delivered (reply w c) then UseCrawl.done
              else UseCrawl.error)
       ∧ (let k1 := UseCrawl.step h apiBase k (UseCrawl.Start gallId maxPages) in
          UseCrawl.status (UseCrawl.state k1) = UseCrawl.running
          ∧ ∃ c, UseCrawl.inflight k1 = UseCrawl.inflight k ++ [c]
               ∧ ∀ r, UseCrawl.fits c r = true →
                   let k2 := UseCrawl.step h apiBase k1
                               (UseCrawl.Settle (length (UseCrawl.inflight k)) r) in
                   UseCrawl.inflight k2 = UseCrawl.inflight k
                   ∧ UseCrawl.status (UseCrawl.state k2) =
                       if UseCrawl.delivered r then UseCrawl.done
                       else UseCrawl.error))
  ∧ UseCrawl.status (UseCrawl.state (UseCrawl.step h apiBase k UseCrawl.Reset))
      = UseCrawl.idle.
Proof.
  split; [intros []; set_solver|]. split; [reflexivity|].
  split; [|split; [|reflexivity]].
  { intros Hblank. unfold UseCrawl.startCrawl. cbn [UseCrawl.step].
    unfold UseCrawl.startCrawl_begin. by rewrite Hblank. }
  intros Hgall.
  assert (Hbegin : ∃ c, UseCrawl.startCrawl_begin h apiBase gallId maxPages
                          = Some (UseCrawl.started, c)
                        ∧ (Host.isHttp c = true ∨ ∃ g m, c = BridgeCrawl g m)).
  { unfold UseCrawl.startCrawl_begin. rewrite Hgall.
    destruct (hasBridge h); eexists; (split; [reflexivity|]); [right|left]; eauto. }
  destruct Hbegin as (c & Hbegin & Hkind).
  assert (Hfinish : ∀ r, UseCrawl.fits c r = true →
            ∃ s, UseCrawl.startCrawl_finish h c r = Some s
                 ∧ UseCrawl.status s =
                     if UseCrawl.delivered r then UseCrawl.done else UseCrawl.error).
  { intros r Hr. destruct (startCrawl_finish_fits h c r Hr Hkind) as [s Hs].
    exists s. split; [exact Hs|]. by apply (startCrawl_finish_status h c r). }
  split.
  - assert (Hfits : UseCrawl.fits c (reply w c) = true).
    { destruct Hkind as [Hc|(g & m & ->)]; [by destruct c|done]. }
    destruct (Hfinish _ Hfits) as (s1 & Hs1 & Hstatus).
    exists c, s1. unfold UseCrawl.startCrawl. rewrite Hbegin, Hs1. by repeat split.
  - cbn [UseCrawl.step]. rewrite Hbegin. cbn [UseCrawl.state UseCrawl.inflight].
    split; [reflexivity|]. exists c. split; [reflexivity|].
    intros r Hr. destruct (Hfinish r Hr) as (s & Hs & Hstatus).
    cbn [UseCrawl.step UseCrawl.inflight].
    rewrite lookup_app_r, Nat.sub_diag by lia. cbn [lookup list_lookup].
    rewrite Hs. cbn [UseCrawl.state UseCrawl.inflight]. split; [|exact Hstatus].
    rewrite delete_middle. apply app_nil_r.
Qed.

Lemma crawl_status_machine_witness :
  (∃ c s1,
     UseCrawl.startCrawl Examples.browser None "programming" None
       (Examples.answering (VObj (<["posts_indexed" := VNum 0]>
                                  (<["message" := VStr "no new posts"]> ∅))))
     = ([c], [UseCrawl.started; s1])
     ∧ UseCrawl.status s1 = UseCrawl.done)
  ∧ UseCrawl.step Examples.electron None
      {| UseCrawl.state := UseCrawl.started;
         UseCrawl.inflight := [BridgeCrawl "programming" 5] |}
      (UseCrawl.Start (String (ascii_of_N 9) " ") None)
    = {| UseCrawl.state := UseCrawl.started;
         UseCrawl.inflight := [BridgeCrawl "programming" 5] |}.
Proof.
  split.
  - destruct (crawl_status_machine Examples.browser None
                (Examples.answering (VObj (<["posts_indexed" := VNum 0]>
                                           (<["message" := VStr "no new posts"]> ∅))))
                "programming" None UseCrawl.mounted)
      as (_ & _ & _ & Hrun & _).
    destruct (Hrun eq_refl) as [(c & s1 & Hrun' & _ & Hstatus) _].
    exists c, s1. split; [exact Hrun'|].
    unfold UseCrawl.startCrawl in Hrun'. cbn in Hrun'.
    injection Hrun' as <- _. exact Hstatus.
  - destruct (crawl_status_machine Examples.electron None
                (Examples.answering VNull) (String (ascii_of_N 9) " ") None
                {| UseCrawl.state := UseCrawl.started;
                   UseCrawl.inflight := [BridgeCrawl "programming" 5] |})
      as (_ & _ & Hblank & _).
    exact (proj2 (Hblank eq_refl)).
Defined.

(** ** A second crawl while one is running *)

Section CrawlGate.

Variable h : Host.

Lemma oneInFlight_settle k i r :
  App.oneInFlight k → App.oneInFlight (UseCrawl.step h None k (UseCrawl.Settle i r)).
Proof.
  intros Hk. cbn [UseCrawl.step].
  destruct (UseCrawl.inflight k !! i) as [c|] eqn:Hc; [|exact Hk].
  destruct (UseCrawl.startCrawl_finish h c r) as [s|] eqn:Hs; [|exact Hk].
  destruct Hk as [[_ Hlen]|[_ Hnil]]; [|by rewrite Hnil in Hc].
  right. cbn [UseCrawl.state UseCrawl.inflight]. split.
  - rewrite (startCrawl_finish_status h c r s Hs).
    by destruct (UseCrawl.delivered r).
  - destruct (UseCrawl.inflight k) as [|c0 [|c1 rest]]; try discriminate Hlen.
    destruct i as [|i]; [reflexivity|discriminate Hc].
Qed.

Lemma oneInFlight_click p :
  App.oneInFlight (App.hook p) → App.oneInFlight (App.hook (App.step h p App.ClickCrawl)).
Proof.
  intros Hk. cbn [App.step]. unfold App.renderCrawlPanel, App.crawlDisabled, App.isRunning.
  case_bool_decide as Hrun; [exact Hk|].
  destruct Hk as [[Hrunning _]|[_ Hnil]]; [done|].
  unfold App.onClickCrawl, UseCrawl.run. cbn [App.hook foldl UseCrawl.step].
  rewrite Hnil.
  destruct (UseCrawl.startCrawl_begin h None (App.panelGallId p) None)
    as [[s c]|] eqn:Hbegin.
  - left. cbn. split; [|reflexivity].
    unfold UseCrawl.startCrawl_begin in Hbegin.
    destruct (isBlank (App.panelGallId p)); [discriminate|].
    by injection Hbegin as <- _.
  - right. by cbn.
Qed.

Lemma oneInFlight_run es : App.oneInFlight (App.hook (App.run h App.panelMounted es)).
Proof.
  induction es as [|e es IH] using rev_ind.
  - right. by cbn.
  - unfold App.run. rewrite foldl_app. cbn [foldl].
    fold (App.run h App.panelMounted es).
    destruct e as [v| |i r].
    + exact IH.
    + by apply oneInFlight_click.
    + cbn [App.step App.hook]. by apply oneInFlight_settle.
Qed.

End CrawlGate.

(** C4 as stated fails on the hook: [startCrawl] does not look at the
    status.  Called for "programming" while the crawl of "programming" is
    running, it sends the request a second time; and when that second
    request is refused by the server, the hook shows [error] although the
    first crawl is still in flight. *)
Lemma second_startCrawl_not_rejected :
  let first := HttpFetch (UseCrawl.request "/api" "programming" 5) in
  let k1 := UseCrawl.step Examples.browser None UseCrawl.mounted
              (UseCrawl.Start "programming" None) in
  let k2 := UseCrawl.step Examples.browser None k1
              (UseCrawl.Start "programming" None) in
  let k3 := UseCrawl.step Examples.browser None k2
              (UseCrawl.Settle 1
                 (HttpReply (Normal {| ok := false; status := 409;
                                       text := Normal "CrawlAlreadyRunning";
                                       json := Normal VNull |}))) in
  UseCrawl.status (UseCrawl.state k1) = UseCrawl.running
  ∧ UseCrawl.inflight k1 = [first]
  ∧ UseCrawl.inflight k2 = [first; first]
  ∧ k2 ≠ k1
  ∧ UseCrawl.inflight k3 = [first]
  ∧ UseCrawl.status (UseCrawl.state k3) = UseCrawl.error.
Proof.
  cbv zeta. split; [reflexivity|]. split; [reflexivity|]. split; [reflexivity|].
  split; [|split; reflexivity].
  intros Heq. apply (f_equal (λ k, length (UseCrawl.inflight k))) in Heq.
  discriminate Heq.
Qed.

(** C4, amended.  In the crawl panel of the page at most one crawl call is
    in flight, and one is exactly while the status is [running]; while it
    is, the crawl button is disabled and a click on it changes nothing: no
    call is issued or queued and the state is not overwritten. *)
Theorem crawl_button_gate (h : Host) (es : list App.Event) :
  let p := App.run h App.panelMounted es in
  (length (UseCrawl.inflight (App.hook p)) ≤ 1)%nat
  ∧ (UseCrawl.status (UseCrawl.state (App.hook p)) = UseCrawl.running
     ↔ length (UseCrawl.inflight (App.hook p)) = 1%nat)
  ∧ (UseCrawl.status (UseCrawl.state (App.hook p)) = UseCrawl.running →
       App.crawlDisabled (App.renderCrawlPanel (UseCrawl.state (App.hook p))) = true
       ∧ App.step h p App.ClickCrawl = p).
Proof.
  intros p. pose proof (oneInFlight_run h es) as Hinv. fold p in Hinv. clearbody p.
  split; [|split].
  - destruct Hinv as [[_ ->]|[_ ->]]; cbn; lia.
  - destruct Hinv as [[Hrun Hlen]|[Hrun Hnil]]; [done|].
    rewrite Hnil. split; [done|discriminate].
  - intros Hrun. cbn [App.step].
    unfold App.renderCrawlPanel, App.crawlDisabled, App.isRunning.
    by rewrite bool_decide_eq_true_2.
Qed.

Lemma crawl_button_gate_witness :
  let p := App.run Examples.browser App.panelMounted [App.ClickCrawl] in
  UseCrawl.status (UseCrawl.state (App.hook p)) = UseCrawl.running
  ∧ App.step Examples.browser p App.ClickCrawl = p.
Proof.
  intros p. split; [reflexivity|].
  exact (proj2 (proj2 (proj2 (crawl_button_gate Examples.browser [App.ClickCrawl]))
                  eq_refl)).
Defined.

(** ** The shape of a search result *)

Section ResultShape.

Lemma mapChildren_strings eng xs :
  forallb isString xs = true → ∃ bs, App.mapChildren eng xs = Normal bs.
Proof.
  induction xs as [|x xs IH]; [by eexists|].
  cbn [forallb]. rewrite andb_true_iff. intros [Hx Hxs].
  destruct (IH Hxs) as [bs Hbs]. destruct x; try discriminate Hx.
  cbn. rewrite Hbs. by eexists.
Qed.

Lemma reactChild_number_or_nullish eng v :
  isNumber v || isNullish v = true → ∃ t, reactChild eng v = Normal t.
Proof. destruct v; try discriminate; by eexists. Qed.

Lemma galleryStrip_typed eng (m : gmap string JsValue) :
  UseSearch.allStrings (default VUndefined (m !! "discoveredGalls"))
  || isNullish (default VUndefined (m !! "discoveredGalls")) = true →
  isNumber (default VUndefined (m !! "postsCrawled"))
  || isNullish (default VUndefined (m !! "postsCrawled")) = true →
  isNumber (default VUndefined (m !! "queryTime"))
  || isNullish (default VUndefined (m !! "queryTime")) = true →
  ∃ elements strip,
    App.galleryElements eng (VObj m) = Normal elements
    ∧ App.mountGalleryStrip eng (VObj m) elements = Normal strip.
Proof.
  intros Hgalls Hcrawled Htime. unfold App.galleryElements.
  cbn [getPropOpt truthy andb].
  destruct (default VUndefined (m !! "discoveredGalls")) as [| | | | |xs|] eqn:Hg;
    try discriminate Hgalls; try (by eexists _, _).
  cbn [truthy lengthOf gtZero].
  destruct (0 <? Z.of_nat (length xs)); [|by eexists _, _].
  cbn [UseSearch.allStrings isNullish] in Hgalls. rewrite orb_false_r in Hgalls.
  destruct (mapChildren_strings eng xs Hgalls) as [bs Hbs].
  destruct (reactChild_number_or_nullish eng _ Hcrawled) as [c Hc].
  destruct (reactChild_number_or_nullish eng _ Htime) as [t Ht].
  eexists _, _. split; [reflexivity|].
  cbn [App.mountGalleryStrip getPropOpt]. by rewrite Hbs, Hc, Ht.
Qed.

Lemma renderGalleryStrip_typed eng (m : gmap string JsValue) :
  UseSearch.allStrings (default VUndefined (m !! "discoveredGalls"))
  || isNullish (default VUndefined (m !! "discoveredGalls")) = true →
  isNumber (default VUndefined (m !! "postsCrawled"))
  || isNullish (default VUndefined (m !! "postsCrawled")) = true →
  isNumber (default VUndefined (m !! "queryTime"))
  || isNullish (default VUndefined (m !! "queryTime")) = true →
  ∃ strip, App.renderGalleryStrip eng (VObj m) = Normal strip.
Proof.
  intros Hgalls Hcrawled Htime. unfold App.renderGalleryStrip.
  destruct (galleryStrip_typed eng m Hgalls Hcrawled Htime)
    as (elements & strip & -> & Hstrip).
  by exists strip.
Qed.

(** A stored empty result is shown as the empty state, with no answer box,
    when the crawl panel can be mounted; the error box shows the error of
    the state, if any. *)
Lemma render_emptyResult eng fmt (st : App.State) message :
  App.emptyResult (UseSearch.data (App.searchState st)) = true →
  UseSearch.isLoading (App.searchState st) = false →
  App.mountCrawlMessage eng
    (App.crawlPanelOf (App.showCrawlPanel st) (App.crawlState st)) = Normal message →
  ∃ v, App.render eng fmt st = Normal v
       ∧ App.crawlMessageText v = message
       ∧ App.answerBox v = None
       ∧ DCBoard.body (App.board v) = DCBoard.EmptyState (App.query st)
       ∧ (UseSearch.error (App.searchState st) = None → App.errorBox v = None).
Proof.
  unfold App.emptyResult, App.render.
  destruct (UseSearch.data (App.searchState st)) as [| | | | | |m]; try discriminate.
  cbv zeta. rewrite !andb_true_iff.
  intros ((((Hposts & Hanswer) & Hgalls) & Hcrawled) & Htime) -> ->.
  destruct (galleryStrip_typed eng m Hgalls Hcrawled Htime)
    as (elements & strip & -> & Hstrip).
  cbn [mbind Completion_bind bind]. rewrite Hstrip.
  unfold App.renderAnswerBox. cbn [getPropOpt].
  destruct (default VUndefined (m !! "synthesizedAnswer")); try discriminate Hanswer.
  destruct (default VUndefined (m !! "posts")) as [| | | | |[|x xs]|];
    try discriminate Hposts.
  cbn [truthy nullish]. unfold DCBoard.render, DCBoard.postElements.
  cbn [isNullish lengthOf length isZero].
  destruct (String.eqb (App.query st) ""); cbn; eexists;
    (split; [reflexivity|]); cbn; (split; [reflexivity|]);
    (split; [reflexivity|]); (split; [reflexivity|]); by intros ->.
Qed.

End ResultShape.

(** C5 as stated fails, on both transports.  In the web build a successful
    response without [posts] is stored with [posts] undefined; in the
    Electron build the value [fingerPrince.search] resolves with is stored
    as it is, so a [RAGResult] leaves [discoveredGalls] and [postsCrawled]
    undefined.  Neither search ends in the error state. *)
Lemma search_result_not_fully_typed :
  (∃ s0 s,
     snd (UseSearch.search Examples.browser None "엘든링 현재 메타" None
            (Examples.answering (VObj Examples.withoutPosts))) = [s0; s]
     ∧ UseSearch.error s = None
     ∧ getPropOpt (UseSearch.data s) "posts" = VUndefined
     ∧ UseSearch.isSmartSearchResult (UseSearch.data s) = false)
  ∧ (∃ s0 s,
     snd (UseSearch.search Examples.electron None "엘든링 현재 메타" None
            (Examples.answering (VObj Examples.ragResult))) = [s0; s]
     ∧ UseSearch.error s = None
     ∧ getPropOpt (UseSearch.data s) "discoveredGalls" = VUndefined
     ∧ getPropOpt (UseSearch.data s) "postsCrawled" = VUndefined
     ∧ UseSearch.isSmartSearchResult (UseSearch.data s) = false).
Proof.
  split; eexists _, _; (split; [reflexivity|]); by repeat split.
Qed.

(** C5, amended.  For every search that the web transport completes
    without an error, the stored result is a record with exactly the six
    fields of [SmartSearchResult]; [discoveredGalls] and [postsCrawled] are
    never [null] or [undefined], being the empty list and 0 when the
    response has them missing or [null]; [posts], [synthesizedAnswer],
    [persona] and [queryTime] are what the response carries, so that for a
    response that follows the boundary contract the result has the type
    [SmartSearchResult] and [synthesizedAnswer] is its only field that can
    be [null]. *)
Theorem web_result_shape (h : Host) (req : Request) (r : Reply)
    (s : UseSearch.SearchState) :
  UseSearch.search_finish h (HttpFetch req) r = Some s →
  UseSearch.error s = None →
  ∃ (response : Response) (json : JsValue) (m : gmap string JsValue),
    r = HttpReply (Normal response)
    ∧ ok response = true
    ∧ Host.json response = Normal json
    ∧ s = UseSearch.succeeded (VObj m)
    ∧ dom m = ({[ "posts"; "synthesizedAnswer"; "persona"; "queryTime";
                  "discoveredGalls"; "postsCrawled" ]} : gset string)
    ∧ (∃ galls, m !! "discoveredGalls" = Some galls ∧ isNullish galls = false
         ∧ (isNullish (getPropOpt json "discovered_galls") = true → galls = VArr [])
         ∧ (isNullish (getPropOpt json "discovered_galls") = false →
              galls = getPropOpt json "discovered_galls"))
    ∧ (∃ crawled, m !! "postsCrawled" = Some crawled ∧ isNullish crawled = false
         ∧ (isNullish (getPropOpt json "posts_crawled") = true → crawled = VNum 0)
         ∧ (isNullish (getPropOpt json "posts_crawled") = false →
              crawled = getPropOpt json "posts_crawled"))
    ∧ m !! "posts" = Some (getPropOpt json "posts")
    ∧ m !! "synthesizedAnswer" = Some (getPropOpt json "synthesized_answer")
    ∧ m !! "persona" = Some (getPropOpt json "persona")
    ∧ m !! "queryTime" = Some (getPropOpt json "query_time")
    ∧ (∀ wire, json = VObj wire → UseSearch.conforms wire = true →
         UseSearch.isSmartSearchResult (VObj m) = true
         ∧ ∀ k v, m !! k = Some v → isNullish v = true →
             k = "synthesizedAnswer" ∧ v = VNull).
Proof.
  unfold UseSearch.search_finish.
  destruct r as [result|[response|e]]; [discriminate| |intros [= <-]; discriminate].
  unfold UseSearch.afterFetch. cbn.
  destruct (ok response) eqn:Hok; cbn;
    [|destruct (text response); intros [= <-]; discriminate].
  destruct (json response) as [json|e] eqn:Hjson; cbn;
    [|intros [= <-]; discriminate].
  destruct (isNullish json) eqn:Hnull.
  { rewrite (fromWire_nullish _ _ Hnull). intros [= <-]. discriminate. }
  rewrite (fromWire_not_nullish _ _ Hnull). cbn. intros [= <-] _.
  eexists response, json, _. split; [reflexivity|].
  split; [exact Hok|]. split; [exact Hjson|]. split; [reflexivity|].
  match goal with
  | |- dom (<[_ := ?a]> (<[_ := ?b]> (<[_ := ?c]> (<[_ := ?d]>
           (<[_ := ?e]> (<[_ := ?f]> ∅)))))) = _ ∧ _ =>
      destruct (fromWire_lookups a b c d e f)
        as (Hposts & Hanswer & Hpersona & Htime & Hgalls & Hcrawled & Hdom)
  end.
  split; [exact Hdom|].
  split.
  { eexists. split; [exact Hgalls|].
    destruct (getPropOpt json "discovered_galls"); by repeat split. }
  split.
  { eexists. split; [exact Hcrawled|].
    destruct (getPropOpt json "posts_crawled"); by repeat split. }
  do 4 (split; [assumption|]).
  intros wire -> Hconf. cbn [getPropOpt] in *.
  unfold UseSearch.conforms in Hconf. cbv zeta in Hconf.
  rewrite !andb_true_iff in Hconf.
  destruct Hconf as (((((Hp & Ha) & Hpe) & Hq) & Hg) & Hc).
  split.
  - unfold UseSearch.isSmartSearchResult. cbv zeta.
    rewrite Hposts, Hanswer, Hpersona, Htime, Hgalls, Hcrawled.
    cbn [from_option].
    repeat match goal with |- context [id ?x] => change (id x) with x end.
    rewrite Hp, Ha, Hpe, Hq. cbn [andb].
    destruct (default VUndefined (wire !! "discovered_galls")); try discriminate Hg;
    destruct (default VUndefined (wire !! "posts_crawled")); try discriminate Hc;
    reflexivity.
  - intros k v Hk Hv.
    assert (Hin : k ∈ dom (<["posts" := default VUndefined (wire !! "posts")]> (
        <["synthesizedAnswer" := default VUndefined (wire !! "synthesized_answer")]> (
        <["persona" := default VUndefined (wire !! "persona")]> (
        <["queryTime" := default VUndefined (wire !! "query_time")]> (
        <["discoveredGalls" :=
            nullish (default VUndefined (wire !! "discovered_galls")) (VArr [])]> (
        <["postsCrawled" :=
            nullish (default VUndefined (wire !! "posts_crawled")) (VNum 0)]>
          (∅ : gmap string JsValue)))))))).
    { apply elem_of_dom. by eexists. }
    rewrite Hdom in Hin.
    repeat (apply elem_of_union in Hin as [Hin|Hin]);
      apply elem_of_singleton in Hin as ->;
      match goal with
      | H1 : ?m !! ?key = Some v, H2 : ?m !! ?key = Some _ |- _ =>
          rewrite H1 in H2; injection H2 as ->
      end.
    + by destruct (default VUndefined (wire !! "posts")).
    + split; [reflexivity|].
      by destruct (default VUndefined (wire !! "synthesized_answer")).
    + by destruct (default VUndefined (wire !! "persona")).
    + by destruct (default VUndefined (wire !! "query_time")).
    + by destruct (default VUndefined (wire !! "discovered_galls")).
    + by destruct (default VUndefined (wire !! "posts_crawled")).
Qed.

Lemma web_result_shape_witness :
  ∃ m : gmap string JsValue,
    UseSearch.search_finish Examples.browser
      (HttpFetch (UseSearch.request "/api" "엘든링 현재 메타" 5))
      (HttpReply (Normal {| ok := true; status := 200; text := Normal "";
                            json := Normal (VObj Examples.nothingFound) |}))
    = Some (UseSearch.succeeded (VObj m))
    ∧ UseSearch.isSmartSearchResult (VObj m) = true.
Proof.
  destruct (web_result_shape Examples.browser
              (UseSearch.request "/api" "엘든링 현재 메타" 5)
              (HttpReply (Normal {| ok := true; status := 200; text := Normal "";
                                    json := Normal (VObj Examples.nothingFound) |}))
              _ eq_refl eq_refl)
    as (response & json & m & Hr & _ & Hjson & Hs & _ & _ & _ & _ & _ & _ & _ & Hshape).
  exists m. split.
  - cbn [UseSearch.search_finish]. f_equal. exact Hs.
  - injection Hr as <-. injection Hjson as <-.
    exact (proj1 (Hshape Examples.nothingFound eq_refl eq_refl)).
Defined.

(** C6.  When the search of a query that matches nothing is answered with a
    normal result, [posts = []] and [synthesized_answer = null], the hook
    ends with that result stored and its error [null], and the page,
    whatever else its state is, shows the empty state of the board and
    neither the error box nor an answer box; the crawl panel, which does
    not depend on the search, is taken to be closed or to hold a message
    React can show.  The same holds in the Electron build for a stored
    result with [posts = []] and [synthesizedAnswer = null]. *)
Theorem nothing_found_is_not_an_error
    (h : Host) (req : Request) (code : Z) (txt : Completion string)
    (wire : gmap string JsValue) :
  UseSearch.conforms wire = true →
  wire !! "posts" = Some (VArr []) →
  wire !! "synthesized_answer" = Some VNull →
  (∃ s,
     UseSearch.search_finish h (HttpFetch req)
       (HttpReply (Normal {| ok := true; status := code; text := txt;
                             json := Normal (VObj wire) |})) = Some s
     ∧ UseSearch.error s = None
     ∧ UseSearch.isLoading s = false
     ∧ getPropOpt (UseSearch.data s) "posts" = VArr []
     ∧ getPropOpt (UseSearch.data s) "synthesizedAnswer" = VNull
     ∧ ∀ fmt st message,
         App.searchState st = s →
         App.mountCrawlMessage (engine h)
           (App.crawlPanelOf (App.showCrawlPanel st) (App.crawlState st))
         = Normal message →
         ∃ v, App.render (engine h) fmt st = Normal v
              ∧ App.errorBox v = None
              ∧ App.answerBox v = None
              ∧ DCBoard.body (App.board v) = DCBoard.EmptyState (App.query st))
  ∧ (∀ q k result, App.emptyResult result = true →
       ∃ s,
         UseSearch.search_finish h (BridgeSearch q k) (BridgeReply (Normal result))
           = Some s
         ∧ UseSearch.error s = None
         ∧ UseSearch.data s = result
         ∧ ∀ fmt st message,
             App.searchState st = s →
             App.mountCrawlMessage (engine h)
           (App.crawlPanelOf (App.showCrawlPanel st) (App.crawlState st))
         = Normal message →
             ∃ v, App.render (engine h) fmt st = Normal v
                  ∧ App.errorBox v = None
                  ∧ App.answerBox v = None
                  ∧ DCBoard.body (App.board v) = DCBoard.EmptyState (App.query st)).
Proof.
  intros Hconf Hposts Hanswer. split.
  - cbn [UseSearch.search_finish]. unfold UseSearch.afterFetch. cbn.
    unfold UseSearch.conforms in Hconf. cbv zeta in Hconf.
    rewrite !andb_true_iff in Hconf.
    destruct Hconf as (((((_ & _) & _) & Hq) & Hg) & Hc).
    rewrite Hposts, Hanswer. cbn [from_option]. 
    repeat match goal with |- context [id ?x] => change (id x) with x end.
    match goal with
    | |- ∃ s, Some (UseSearch.succeeded (VObj (
           <[_ := ?a]> (<[_ := ?b]> (<[_ := ?c]> (<[_ := ?d]>
           (<[_ := ?e]> (<[_ := ?f]> ∅)))))))) = Some s ∧ _ =>
        destruct (fromWire_lookups a b c d e f)
          as (Hp' & Ha' & _ & Ht' & Hg' & Hc' & _)
    end.
    match goal with
    | |- ∃ s, Some (UseSearch.succeeded (VObj ?m0)) = Some s ∧ _ =>
        set (m := m0) in *
    end.
    exists (UseSearch.succeeded (VObj m)).
    split; [reflexivity|]. split; [reflexivity|]. split; [reflexivity|].
    cbn [UseSearch.succeeded UseSearch.data getPropOpt].
    rewrite Hp', Ha'. split; [reflexivity|]. split; [reflexivity|].
    intros fmt st message Hst Hmessage.
    destruct (render_emptyResult (engine h) fmt st message)
      as (v & Hv & _ & Hbox & Hboard & Herr); [|by rewrite Hst|exact Hmessage|].
    + rewrite Hst.
      cbn [UseSearch.succeeded UseSearch.data App.emptyResult].
      cbv zeta. rewrite Hp', Ha', Ht', Hg', Hc'. cbn [from_option].
      repeat match goal with |- context [id ?x] => change (id x) with x end.
      cbn [isNull andb]. rewrite Hq. cbn [orb andb]. rewrite andb_true_r.
      apply andb_true_iff. split.
      * destruct (default VUndefined (wire !! "discovered_galls"));
          try discriminate Hg; try reflexivity.
        cbn [nullish]. exact Hg.
      * destruct (default VUndefined (wire !! "posts_crawled"));
          try discriminate Hc; reflexivity.
    + exists v. split; [exact Hv|]. split; [apply Herr; by rewrite Hst|]. by split.
  - intros q k result Hempty. cbn [UseSearch.search_finish UseSearch.settle].
    eexists. split; [reflexivity|]. split; [reflexivity|]. split; [reflexivity|].
    intros fmt st message Hst Hmessage.
    destruct (render_emptyResult (engine h) fmt st message)
      as (v & Hv & _ & Hbox & Hboard & Herr);
      [by rewrite Hst|by rewrite Hst|exact Hmessage|].
    exists v. split; [exact Hv|]. split; [apply Herr; by rewrite Hst|]. by split.
Qed.

Lemma nothing_found_is_not_an_error_witness :
  ∃ s v,
    UseSearch.search_finish Examples.browser
      (HttpFetch (UseSearch.request "/api" "엘든링 현재 메타" 5))
      (HttpReply (Normal {| ok := true; status := 200; text := Normal "";
                            json := Normal (VObj Examples.nothingFound) |}))
    = Some s
    ∧ UseSearch.error s = None
    ∧ App.render Examples.v8 Examples.formats
        {| App.query := "엘든링 현재 메타"; App.gallId := "programming";
           App.showCrawlPanel := true; App.searchState := s;
           App.crawlState := UseCrawl.started;
           App.boardExpanded := λ _, false |} = Normal v
    ∧ App.errorBox v = None
    ∧ DCBoard.body (App.board v) = DCBoard.EmptyState "엘든링 현재 메타".
Proof.
  destruct (nothing_found_is_not_an_error Examples.browser
              (UseSearch.request "/api" "엘든링 현재 메타" 5) 200 (Normal "")
              Examples.nothingFound eq_refl eq_refl eq_refl)
    as [(s & Hs & Herr & _ & _ & _ & Hrender) _].
  destruct (Hrender Examples.formats
              {| App.query := "엘든링 현재 메타"; App.gallId := "programming";
                 App.showCrawlPanel := true; App.searchState := s;
                 App.crawlState := UseCrawl.started;
                 App.boardExpanded := λ _, false |}
              (Some "크롤링 시작...") eq_refl eq_refl)
    as (v & Hv & Hbox & _ & Hboard).
  exists s, v. by repeat split.
Defined.

(* ===================================================================== *)
(** * Further properties of the sources                                   *)
(* ===================================================================== *)

(** ** The search hook and the search form *)

Section SearchHookProperties.

Variable h : Host.

Lemma search_begin_coherent apiBase query topK s c :
  UseSearch.search_begin h apiBase query topK = Some (s, c) →
  SearchHook.coherent s ∧ UseSearch.isLoading s = true.
Proof.
  unfold UseSearch.search_begin. destruct (isBlank query); [discriminate|].
  intros [= <- _]. split; [|reflexivity]. split; cbn.
  - by intros _.
  - intros [e He]. discriminate He.
Qed.

Lemma search_finish_coherent c r s :
  UseSearch.search_finish h c r = Some s →
  SearchHook.coherent s ∧ UseSearch.isLoading s = false.
Proof.
  assert (Hsettle : ∀ x, SearchHook.coherent (UseSearch.settle x)
                         ∧ UseSearch.isLoading (UseSearch.settle x) = false).
  { intros [d|e]; (split; [split|reflexivity]); cbn; try discriminate.
    - intros [e He]. discriminate He.
    - by intros _. }
  unfold UseSearch.search_finish.
  destruct c as [g m|q t|req], r as [result|response]; try discriminate;
    intros [= <-]; apply Hsettle.
Qed.

Lemma reset_coherent : SearchHook.coherent UseSearch.reset.
Proof. split; cbn; [discriminate|]. intros [e He]. discriminate He. Qed.

Lemma coherent_step apiBase k e :
  SearchHook.coherent (SearchHook.state k) →
  SearchHook.coherent (SearchHook.state (SearchHook.step h apiBase k e)).
Proof.
  intros Hk. destruct e as [query topK| |i r]; cbn [SearchHook.step].
  - destruct (UseSearch.search_begin h apiBase query topK) as [[s c]|] eqn:Hb;
      [|exact Hk]. exact (proj1 (search_begin_coherent _ _ _ _ _ Hb)).
  - exact reset_coherent.
  - destruct (SearchHook.inflight k !! i) as [c|]; [|exact Hk].
    destruct (UseSearch.search_finish h c r) as [s|] eqn:Hf; [|exact Hk].
    exact (proj1 (search_finish_coherent _ _ _ Hf)).
Qed.

Lemma coherent_run apiBase es :
  SearchHook.coherent
    (SearchHook.state (SearchHook.run h apiBase SearchHook.mounted es)).
Proof.
  induction es as [|e es IH] using rev_ind.
  - exact reset_coherent.
  - unfold SearchHook.run. rewrite foldl_app. by apply coherent_step.
Qed.

Lemma form_step_invariant f e :
  SearchHook.coherent (SearchHook.state (SearchHook.hook f)) →
  SearchHook.loadingIffInFlight (SearchHook.hook f) →
  SearchHook.coherent
    (SearchHook.state (SearchHook.hook (SearchHook.formStep h f e)))
  ∧ SearchHook.loadingIffInFlight (SearchHook.hook (SearchHook.formStep h f e)).
Proof.
  intros Hc Hl. destruct e as [v| | |i r]; cbn [SearchHook.formStep].
  - by split.
  - destruct (UseSearch.isLoading (SearchHook.state (SearchHook.hook f))) eqn:Hload;
      [by split|].
    unfold SearchHook.handleSearch.
    destruct (isBlank (SearchHook.query f)); cbn [negb]; [by split|].
    cbn [SearchHook.hook]. split; [by apply coherent_step|].
    destruct Hl as [[Hl _]|[_ Hnil]]; [congruence|].
    cbn [SearchHook.step].
    destruct (UseSearch.search_begin h None (SearchHook.query f) None)
      as [[s c]|] eqn:Hb.
    + left. cbn. rewrite Hnil. split; [|reflexivity].
      exact (proj2 (search_begin_coherent _ _ _ _ _ Hb)).
    + right. by split.
  - destruct (truthy (UseSearch.data (SearchHook.state (SearchHook.hook f))))
      eqn:Hdata; [|by split].
    cbn [SearchHook.hook SearchHook.step]. split; [exact reset_coherent|].
    destruct Hl as [[Hload _]|[_ Hnil]].
    + destruct Hc as [Hc _]. destruct (Hc Hload) as [Hnull _].
      rewrite Hnull in Hdata. discriminate Hdata.
    + right. by split.
  - cbn [SearchHook.hook]. split; [by apply coherent_step|].
    cbn [SearchHook.step].
    destruct (SearchHook.inflight (SearchHook.hook f) !! i) as [c|] eqn:Hi;
      [|exact Hl].
    destruct (UseSearch.search_finish h c r) as [s|] eqn:Hf; [|exact Hl].
    destruct Hl as [[_ Hlen]|[_ Hnil]]; [|by rewrite Hnil in Hi].
    right. cbn [SearchHook.state SearchHook.inflight]. split.
    + exact (proj2 (search_finish_coherent _ _ _ Hf)).
    + destruct (SearchHook.inflight (SearchHook.hook f)) as [|c0 [|c1 rest]];
        try discriminate Hlen.
      destruct i as [|i]; [reflexivity|discriminate Hi].
Qed.

Lemma form_run_invariant es :
  SearchHook.coherent
    (SearchHook.state (SearchHook.hook (SearchHook.formRun h SearchHook.formMounted es)))
  ∧ SearchHook.loadingIffInFlight
      (SearchHook.hook (SearchHook.formRun h SearchHook.formMounted es)).
Proof.
  induction es as [|e es IH] using rev_ind.
  - split; [exact reset_coherent|]. right. by split.
  - unfold SearchHook.formRun. rewrite foldl_app. cbn [foldl].
    destruct IH as [Hc Hl]. by apply form_step_invariant.
Qed.

End SearchHookProperties.

(** X1.  Whatever searches are started, reset or settled on the hook, in
    whatever order, its state never holds an error together with a result
    or with the loading flag: while it is loading, [data] and [error] are
    both [null]; when an error is stored, [data] is [null] and loading is
    over; and when [data] is not [null], there is no error and no
    loading. *)
Theorem search_state_never_mixes_error_and_result
    (h : Host) (apiBase : option string) (es : list SearchHook.Event) :
  let s := SearchHook.state (SearchHook.run h apiBase SearchHook.mounted es) in
  (UseSearch.isLoading s = true →
     UseSearch.data s = VNull ∧ UseSearch.error s = None)
  ∧ (is_Some (UseSearch.error s) →
     UseSearch.data s = VNull ∧ UseSearch.isLoading s = false)
  ∧ (isNull (UseSearch.data s) = false →
     UseSearch.error s = None ∧ UseSearch.isLoading s = false).
Proof.
  intros s. destruct (coherent_run h apiBase es) as [Hload Herr].
  fold s in Hload, Herr. clearbody s.
  split; [exact Hload|]. split; [exact Herr|].
  intros Hdata. split.
  - destruct (UseSearch.error s) as [e|] eqn:He; [|reflexivity].
    destruct Herr as [Hnull _]; [by eexists|]. rewrite Hnull in Hdata.
    discriminate Hdata.
  - destruct (UseSearch.isLoading s); [|reflexivity].
    destruct (Hload eq_refl) as [Hnull _]. rewrite Hnull in Hdata.
    discriminate Hdata.
Qed.

Lemma search_state_never_mixes_error_and_result_witness :
  let s := SearchHook.state
             (SearchHook.run Examples.browser None SearchHook.mounted
                [SearchHook.Search "엘든링" None;
                 SearchHook.Settle 0
                   (HttpReply (Throw (ErrorObj "Failed to fetch")))]) in
  UseSearch.error s = Some "Failed to fetch"
  ∧ UseSearch.data s = VNull ∧ UseSearch.isLoading s = false.
Proof.
  intros s. split; [reflexivity|].
  exact (proj1 (proj2
    (search_state_never_mixes_error_and_result Examples.browser None
       [SearchHook.Search "엘든링" None;
        SearchHook.Settle 0 (HttpReply (Throw (ErrorObj "Failed to fetch")))]))
    (ex_intro _ "Failed to fetch" eq_refl)).
Defined.

(** X2.  From the search form of the page at most one search is in flight,
    and one is exactly while the hook is loading; while it is, the submit
    button is disabled and submitting changes nothing.  A blank query is
    never sent. *)
Theorem search_form_one_in_flight (h : Host) (es : list SearchHook.FormEvent) :
  let f := SearchHook.formRun h SearchHook.formMounted es in
  (length (SearchHook.inflight (SearchHook.hook f)) ≤ 1)%nat
  ∧ (UseSearch.isLoading (SearchHook.state (SearchHook.hook f)) = true
     ↔ length (SearchHook.inflight (SearchHook.hook f)) = 1%nat)
  ∧ (UseSearch.isLoading (SearchHook.state (SearchHook.hook f)) = true →
       SearchHook.formStep h f SearchHook.Submit = f)
  ∧ (isBlank (SearchHook.query f) = true →
       SearchHook.formStep h f SearchHook.Submit = f).
Proof.
  intros f. destruct (form_run_invariant h es) as [_ Hl]. fold f in Hl. clearbody f.
  split; [|split; [|split]].
  - destruct Hl as [[_ ->]|[_ ->]]; cbn; lia.
  - destruct Hl as [[Hload Hlen]|[Hload Hnil]]; [done|].
    rewrite Hload, Hnil. split; discriminate.
  - intros Hload. cbn [SearchHook.formStep]. by rewrite Hload.
  - intros Hblank. cbn [SearchHook.formStep]. unfold SearchHook.handleSearch.
    rewrite Hblank. by destruct (UseSearch.isLoading _).
Qed.

Lemma search_form_one_in_flight_witness :
  let f := SearchHook.formRun Examples.browser SearchHook.formMounted
             [SearchHook.TypeQuery "엘든링 현재 메타"; SearchHook.Submit] in
  UseSearch.isLoading (SearchHook.state (SearchHook.hook f)) = true
  ∧ SearchHook.formStep Examples.browser f SearchHook.Submit = f.
Proof.
  intros f. split; [reflexivity|].
  exact (proj1 (proj2 (proj2
    (search_form_one_in_flight Examples.browser
       [SearchHook.TypeQuery "엘든링 현재 메타"; SearchHook.Submit]))) eq_refl).
Defined.

(** ** The crawl hook and the crawl panel *)

Section CrawlHookProperties.

Variable h : Host.

Lemma startCrawl_finish_forms c r s :
  UseCrawl.startCrawl_finish h c r = Some s →
  (UseCrawl.status s = UseCrawl.done ∧ UseCrawl.err s = None)
  ∨ ∃ e, s = UseCrawl.failed e.
Proof.
  assert (Hsettle : ∀ x : Completion UseCrawl.CrawlState,
            (∀ s', x = Normal s' →
               UseCrawl.status s' = UseCrawl.done ∧ UseCrawl.err s' = None) →
            (UseCrawl.status (UseCrawl.settle x) = UseCrawl.done
             ∧ UseCrawl.err (UseCrawl.settle x) = None)
            ∨ ∃ e, UseCrawl.settle x = UseCrawl.failed e).
  { intros [s'|e] Hx; [left; by apply Hx | right; by eexists]. }
  unfold UseCrawl.startCrawl_finish.
  destruct c as [g m|q t|req], r as [result|response]; try discriminate;
    intros [= <-]; apply Hsettle; intros s'.
  - unfold UseCrawl.afterBridge. destruct result as [result|e]; [|discriminate].
    cbn. destruct (getProp (engine h) result "postsIndexed"); [|discriminate].
    cbn. by intros [= <-].
  - unfold UseCrawl.afterFetch. destruct response as [response|e]; [|discriminate].
    cbn. destruct (ok response); cbn.
    + destruct (json response) as [j|e]; [|discriminate]. cbn.
      destruct (getProp (engine h) j "message"); [|discriminate]. cbn.
      destruct (getProp (engine h) j "posts_indexed"); [|discriminate]. cbn.
      by intros [= <-].
    + by destruct (text response).
Qed.

(** The states the hook can be in. *)
Lemma crawl_state_forms apiBase es :
  let s := UseCrawl.state (UseCrawl.run h apiBase UseCrawl.mounted es) in
  s = UseCrawl.reset ∨ s = UseCrawl.started
  ∨ (UseCrawl.status s = UseCrawl.done ∧ UseCrawl.err s = None)
  ∨ ∃ e, s = UseCrawl.failed e.
Proof.
  induction es as [|e es IH] using rev_ind; [by left|].
  unfold UseCrawl.run. rewrite foldl_app. cbn [foldl].
  fold (UseCrawl.run h apiBase UseCrawl.mounted es).
  cbv zeta in IH.
  destruct e as [g m| |i r]; cbn [UseCrawl.step].
  - unfold UseCrawl.startCrawl_begin. destruct (isBlank g); [exact IH|].
    right. by left.
  - by left.
  - destruct (UseCrawl.inflight _ !! i) as [c|]; [|exact IH].
    destruct (UseCrawl.startCrawl_finish h c r) as [s|] eqn:Hf; [|exact IH].
    right. right. exact (startCrawl_finish_forms _ _ _ Hf).
Qed.

End CrawlHookProperties.

(** X3.  Whatever crawls are started, reset or settled on the hook, in
    whatever order: an error text is stored exactly when the status is
    [error], and then the message is empty and the count is 0; in the
    status [running] the state is the one set at the start, in the status
    [idle] the initial one; and the crawl panel of the page never shows a
    message and an error together. *)
Theorem crawl_state_couples_status_and_error
    (h : Host) (apiBase : option string) (es : list UseCrawl.Event) :
  let s := UseCrawl.state (UseCrawl.run h apiBase UseCrawl.mounted es) in
  (UseCrawl.status s = UseCrawl.error ↔ is_Some (UseCrawl.err s))
  ∧ (UseCrawl.status s = UseCrawl.error →
       UseCrawl.message s = VStr "" ∧ UseCrawl.postsIndexed s = VNum 0)
  ∧ (UseCrawl.status s = UseCrawl.running → s = UseCrawl.started)
  ∧ (UseCrawl.status s = UseCrawl.idle → s = UseCrawl.initial)
  ∧ (App.crawlMessage (App.renderCrawlPanel s) = None
     ∨ App.crawlError (App.renderCrawlPanel s) = None).
Proof.
  intros s. pose proof (crawl_state_forms h apiBase es) as Hs.
  cbv zeta in Hs. fold s in Hs. clearbody s.
  destruct Hs as [->|[->|[[Hdone Herr]|[e ->]]]].
  - split; [split; [discriminate|intros [x Hx]; discriminate Hx]|].
    split; [discriminate|]. split; [discriminate|]. split; [done|]. by left.
  - split; [split; [discriminate|intros [x Hx]; discriminate Hx]|].
    split; [discriminate|]. split; [done|]. split; [discriminate|]. by right.
  - rewrite Hdone, Herr.
    split; [split; [discriminate|intros [x Hx]; discriminate Hx]|].
    split; [discriminate|]. split; [discriminate|]. split; [discriminate|].
    right. unfold App.renderCrawlPanel. cbn. by rewrite Herr.
  - split; [split; [by eexists|done]|].
    split; [done|]. split; [discriminate|]. split; [discriminate|]. by left.
Qed.

(** X4.  In the Electron build the state after a crawl is computed from
    [postsIndexed] of the result alone: the message the backend reports is
    not shown, the hook shows "완료: N개 게시물 인덱싱", where N is the text
    the template literal gives for the count, which for a safe integer is
    its digits; two results with the same [postsIndexed] leave the hook in
    the same state.  In the web build the message of the response is shown
    as it is. *)
Theorem bridge_crawl_ignores_message
    (h : Host) (gallId : string) (maxPages : Z)
    (result result' : gmap string JsValue) (req : Request) (code : Z)
    (txt : Completion string) :
  result !! "postsIndexed" = result' !! "postsIndexed" →
  UseCrawl.startCrawl_finish h (BridgeCrawl gallId maxPages)
      (BridgeReply (Normal (VObj result)))
    = UseCrawl.startCrawl_finish h (BridgeCrawl gallId maxPages)
        (BridgeReply (Normal (VObj result')))
  ∧ UseCrawl.startCrawl_finish h (BridgeCrawl gallId maxPages)
        (BridgeReply (Normal (VObj result)))
    = Some {| UseCrawl.status := UseCrawl.done;
              UseCrawl.message :=
                VStr ("완료: "
                      +:+ toString (engine h)
                            (default VUndefined (result !! "postsIndexed"))
                      +:+ "개 게시물 인덱싱");
              UseCrawl.postsIndexed := default VUndefined (result !! "postsIndexed");
              UseCrawl.err := None |}
  ∧ (∀ n, result !! "postsIndexed" = Some (VNum n) →
       isSafeInteger n = true →
       UseCrawl.startCrawl_finish h (BridgeCrawl gallId maxPages)
           (BridgeReply (Normal (VObj result)))
       = Some {| UseCrawl.status := UseCrawl.done;
                 UseCrawl.message :=
                   VStr ("완료: " +:+ pretty n +:+ "개 게시물 인덱싱");
                 UseCrawl.postsIndexed := VNum n;
                 UseCrawl.err := None |})
  ∧ (∃ s, UseCrawl.startCrawl_finish h (HttpFetch req)
            (HttpReply (Normal {| ok := true; status := code; text := txt;
                                  json := Normal (VObj result) |})) = Some s
          ∧ UseCrawl.message s = default VUndefined (result !! "message")).
Proof.
  intros Hsame. split; [|split; [|split]].
  - cbn. by rewrite Hsame.
  - reflexivity.
  - intros n Hn Hsafe. cbn. rewrite Hn. cbn. unfold numberText. by rewrite Hsafe.
  - eexists. split; reflexivity.
Qed.

Lemma bridge_crawl_ignores_message_witness :
  UseCrawl.startCrawl_finish Examples.electron (BridgeCrawl "programming" 5)
    (BridgeReply (Normal (VObj (<["postsIndexed" := VNum 3]>
                                (<["message" := VStr "2 pages failed"]> ∅)))))
  = UseCrawl.startCrawl_finish Examples.electron (BridgeCrawl "programming" 5)
      (BridgeReply (Normal (VObj (<["postsIndexed" := VNum 3]> ∅))))
  ∧ UseCrawl.message
      <$> UseCrawl.startCrawl_finish Examples.electron (BridgeCrawl "programming" 5)
            (BridgeReply (Normal (VObj (<["postsIndexed" := VNum (10 ^ 21)]> ∅))))
    = Some (VStr "완료: 1e+21개 게시물 인덱싱").
Proof.
  split.
  - exact (proj1 (bridge_crawl_ignores_message Examples.electron "programming" 5
      (<["postsIndexed" := VNum 3]> (<["message" := VStr "2 pages failed"]> ∅))
      (<["postsIndexed" := VNum 3]> ∅)
      (UseCrawl.request "/api" "programming" 5) 200 (Normal "") eq_refl)).
  - rewrite (proj1 (proj2 (bridge_crawl_ignores_message Examples.electron
      "programming" 5 (<["postsIndexed" := VNum (10 ^ 21)]> ∅)
      (<["postsIndexed" := VNum (10 ^ 21)]> ∅)
      (UseCrawl.request "/api" "programming" 5) 200 (Normal "") eq_refl))).
    vm_compute. reflexivity.
Defined.

(** ** The Electron transport *)

(** X5.  In the Electron build neither hook calls [fetch].  A search of a
    non-blank query goes through the bridge as an invocation of
    [search:query] whose argument has precisely the fields [query] and
    [topK], and a crawl of a non-blank gallery id as an invocation of
    [crawl:start] with precisely [gallId] and [maxPages]; they carry the
    values the web build puts under [query], [top_k], [gall_id] and
    [max_pages], and neither [google_results] nor [gallery_pages]. *)
Theorem electron_transport_field_names
    (h : Host) (apiBase : option string) (w : World)
    (query gallId : string) (topK maxPages : option Z) :
  hasBridge h = true →
  (∀ req, (HttpFetch req ∉ fst (UseSearch.search h apiBase query topK w))
          ∧ (HttpFetch req ∉ fst (UseCrawl.startCrawl h apiBase gallId maxPages w)))
  ∧ (isBlank query = false →
       ∃ c inv (a : gmap string JsValue),
         fst (UseSearch.search h apiBase query topK w) = [c]
         ∧ Preload.ofCall c = Some inv
         ∧ Preload.channel inv = "search:query"
         ∧ Preload.arg inv = Some a
         ∧ dom a = ({[ "query"; "topK" ]} : gset string)
         ∧ a !! "query" = UseSearch.requestBody query (default 5 topK) !! "query"
         ∧ a !! "topK" = UseSearch.requestBody query (default 5 topK) !! "top_k")
  ∧ (isBlank gallId = false →
       ∃ c inv (a : gmap string JsValue),
         fst (UseCrawl.startCrawl h apiBase gallId maxPages w) = [c]
         ∧ Preload.ofCall c = Some inv
         ∧ Preload.channel inv = "crawl:start"
         ∧ Preload.arg inv = Some a
         ∧ dom a = ({[ "gallId"; "maxPages" ]} : gset string)
         ∧ a !! "gallId" = UseCrawl.requestBody gallId (default 5 maxPages) !! "gall_id"
         ∧ a !! "maxPages"
             = UseCrawl.requestBody gallId (default 5 maxPages) !! "max_pages").
Proof.
  intros Hbridge. split; [|split].
  - intros req. unfold UseSearch.search, UseSearch.search_begin,
      UseCrawl.startCrawl, UseCrawl.startCrawl_begin. rewrite Hbridge.
    split.
    + destruct (isBlank query); cbn [fst]; [apply not_elem_of_nil|].
      rewrite list_elem_of_singleton. discriminate.
    + destruct (isBlank gallId); cbn [fst]; [apply not_elem_of_nil|].
      rewrite list_elem_of_singleton. discriminate.
  - intros Hquery. unfold UseSearch.search, UseSearch.search_begin.
    rewrite Hquery, Hbridge. eexists _, _, _. split; [reflexivity|].
    split; [reflexivity|]. split; [reflexivity|]. split; [reflexivity|].
    split; [set_solver|]. by split.
  - intros Hgall. unfold UseCrawl.startCrawl, UseCrawl.startCrawl_begin.
    rewrite Hgall, Hbridge. eexists _, _, _. split; [reflexivity|].
    split; [reflexivity|]. split; [reflexivity|]. split; [reflexivity|].
    split; [set_solver|]. by split.
Qed.

Lemma electron_transport_field_names_witness :
  ∃ c inv,
    fst (UseSearch.search Examples.electron None "엘든링 현재 메타" None
           (Examples.answering (VObj Examples.ragResult))) = [c]
    ∧ Preload.ofCall c = Some inv
    ∧ Preload.channel inv = "search:query".
Proof.
  destruct (electron_transport_field_names Examples.electron None
              (Examples.answering (VObj Examples.ragResult))
              "엘든링 현재 메타" "programming" None None eq_refl)
    as (_ & Hsearch & _).
  destruct (Hsearch eq_refl) as (c & inv & a & Hc & Hinv & Hchannel & _).
  exists c, inv. by repeat split.
Defined.

(** ** Subscriptions to the backend log *)

Section BackendLogProperties.

Import Preload.

Lemma elem_of_removeFirst i x l : x ∈ removeFirst i l → x ∈ l.
Proof.
  induction l as [|y l IH]; cbn; [done|].
  case_decide; [by right|].
  intros [->|Hx]%elem_of_cons; [by left|right; by apply IH].
Qed.

Lemma elem_of_removeFirst_ne i x l : x ≠ i → x ∈ l → x ∈ removeFirst i l.
Proof.
  intros Hne. induction l as [|y l IH]; cbn; [done|].
  intros [->|Hx]%elem_of_cons.
  - case_decide; [done|by left].
  - case_decide; [done|]. right. by apply IH.
Qed.

Lemma NoDup_removeFirst i l :
  NoDup l → NoDup (removeFirst i l) ∧ (i ∉ removeFirst i l).
Proof.
  induction 1 as [|y l Hy Hl IH]; cbn; [split; [constructor|apply not_elem_of_nil]|].
  case_decide as Hyi.
  - subst. by split.
  - destruct IH as [IH1 IH2]. split.
    + constructor; [|done]. intros Hin. by apply Hy, (elem_of_removeFirst i).
    + intros [->|Hin]%elem_of_cons; [done|by apply IH2].
Qed.

Lemma removeListener_spec i l :
  NoDup l →
  NoDup (removeListener i l) ∧ (i ∉ removeListener i l)
  ∧ ∀ x, x ∈ removeListener i l ↔ x ∈ l ∧ x ≠ i.
Proof.
  intros Hl. unfold removeListener.
  assert (Hrev : NoDup (reverse l)) by by rewrite reverse_Permutation.
  destruct (NoDup_removeFirst i _ Hrev) as [H1 H2].
  split; [by rewrite reverse_Permutation|].
  split; [by rewrite elem_of_reverse|].
  intros x. rewrite elem_of_reverse. split.
  - intros Hx. split.
    + apply elem_of_reverse. by apply (elem_of_removeFirst i).
    + intros ->. by apply H2.
  - intros [Hx Hne]. apply elem_of_removeFirst_ne; [done|by apply elem_of_reverse].
Qed.

Lemma filter_listener_line i line (l : list nat) :
  NoDup l →
  filter (λ d : nat * string, d.1 = i) ((λ j, (j, line)) <$> l)
  = (if decide (i ∈ l) then [(i, line)] else []).
Proof.
  induction 1 as [|y l Hy Hl IH]; [done|].
  cbn [fmap list_fmap]. rewrite filter_cons. cbn [fst]. rewrite IH.
  destruct (decide (y = i)) as [->|Hne].
  - destruct (decide (i ∈ l)) as [Hin|_]; [done|].
    destruct (decide (i ∈ i :: l)) as [_|Hout]; [done|].
    exfalso. apply Hout. by left.
  - destruct (decide (i ∈ l)) as [Hin|Hout].
    + destruct (decide (i ∈ y :: l)) as [_|Hout]; [done|].
      exfalso. apply Hout. by right.
    + destruct (decide (i ∈ y :: l)) as [[Heq|Hin]%elem_of_cons|_]; [..|done].
      * congruence.
      * done.
Qed.

Lemma tidy_step c e : tidy c → tidy (step c e).
Proof.
  intros (Hnd & Hl & Hd). destruct e as [|i|line]; cbn [step].
  - split; [|split]; cbn.
    + apply NoDup_app. split; [done|]. split; [|apply NoDup_singleton].
      intros x Hx ->%list_elem_of_singleton. specialize (Hl _ Hx). lia.
    + intros i [Hi| ->%list_elem_of_singleton]%elem_of_app; [|lia].
      specialize (Hl _ Hi). lia.
    + intros d Hin. specialize (Hd _ Hin). lia.
  - destruct (removeListener_spec i _ Hnd) as (H1 & _ & H3).
    split; [done|]. split; [|done]. cbn. intros x Hx. apply Hl. by apply H3.
  - split; [done|]. split; [done|]. cbn.
    intros d [Hin|Hin]%elem_of_app; [by apply Hd|].
    apply list_elem_of_fmap in Hin as (j & -> & Hj). by apply Hl.
Qed.

Lemma tidy_run c es : tidy c → tidy (run c es).
Proof.
  revert c. induction es as [|e es IH]; intros c Hc; [done|].
  cbn. apply IH. by apply tidy_step.
Qed.

Lemma subscribed_run c es :
  subscribed (run c es) = (subscribed c + subscriptions es)%nat.
Proof.
  revert c. induction es as [|e es IH]; intros c; [cbn; lia|].
  change (run c (e :: es)) with (run (step c e) es). rewrite IH.
  unfold subscriptions. destruct e; cbn; lia.
Qed.

Lemma receivedBy_not_yet i c :
  tidy c → (subscribed c ≤ i)%nat → receivedBy i c = [].
Proof.
  intros (_ & _ & Hd) Hi. unfold receivedBy.
  induction (delivered c) as [|d ds IH]; [done|].
  rewrite filter_cons. rewrite decide_False.
  - apply IH. intros d' Hin. apply Hd. by right.
  - intros Heq. specialize (Hd d (list_elem_of_here _ _)). lia.
Qed.

(** While the handler stays registered, it gets every line. *)
Lemma receivedBy_while_subscribed i es : ∀ c,
  tidy c → i ∈ listeners c →
  Forall (λ e, isUnsubscribe i e = false) es →
  i ∈ listeners (run c es)
  ∧ receivedBy i (run c es) = receivedBy i c ++ lines es.
Proof.
  induction es as [|e es IH]; intros c Hc Hi Hes.
  - split; [done|]. cbn. by rewrite app_nil_r.
  - apply Forall_cons in Hes as [He Hes].
    change (run c (e :: es)) with (run (step c e) es).
    destruct (IH (step c e)) as [IH1 IH2]; [by apply tidy_step| |done|].
    + destruct e as [|j|line]; cbn [step listeners].
      * apply elem_of_app. by left.
      * destruct Hc as (Hnd & _). apply (removeListener_spec j _ Hnd).
        split; [done|]. cbn in He. apply bool_decide_eq_false in He. congruence.
      * done.
    + split; [done|]. rewrite IH2.
      destruct e as [|j|line]; cbn [step lines omap list_omap]; try done.
      unfold receivedBy at 1. cbn [delivered].
      rewrite filter_app, fmap_app.
      destruct Hc as (Hnd & _). rewrite (filter_listener_line _ _ _ Hnd).
      rewrite decide_True by done. cbn. unfold receivedBy.
      by rewrite <- app_assoc.
Qed.

(** Once the handler is removed, it gets nothing more. *)
Lemma receivedBy_after_unsubscribe i es : ∀ c,
  tidy c → i ∉ listeners c → (i < subscribed c)%nat →
  receivedBy i (run c es) = receivedBy i c.
Proof.
  induction es as [|e es IH]; intros c Hc Hi Hlt; [done|].
  change (run c (e :: es)) with (run (step c e) es).
  rewrite IH.
  - destruct e as [|j|line]; cbn [step]; try done.
    unfold receivedBy. cbn [delivered]. rewrite filter_app, fmap_app.
    destruct Hc as (Hnd & _). rewrite (filter_listener_line _ _ _ Hnd).
    rewrite decide_False by done. by rewrite app_nil_r.
  - by apply tidy_step.
  - destruct e as [|j|line]; cbn [step listeners]; [| |done].
    + intros [Hin| ->%list_elem_of_singleton]%elem_of_app; [done|lia].
    + destruct Hc as (Hnd & _). intros Hin.
      apply (removeListener_spec j _ Hnd) in Hin as [Hin _]. done.
  - destruct e; cbn [step subscribed]; lia.
Qed.

Lemma tidy_fresh : tidy fresh.
Proof.
  split; [constructor|]. split; intros x Hx; by apply elem_of_nil in Hx.
Qed.

End BackendLogProperties.

(** X6.  A callback registered with [onBackendLog] is handed exactly the
    log lines that arrive between its registration and the call of the
    function [onBackendLog] returned, each once and in order: none that
    came before, none after, and whatever other subscriptions come and go
    meanwhile. *)
Theorem onBackendLog_between_subscribe_and_unsubscribe
    (pre mid post : list Preload.Event) :
  Forall (λ e, Preload.isUnsubscribe (Preload.subscriptions pre) e = false) mid →
  let i := Preload.subscriptions pre in
  Preload.receivedBy i (Preload.run Preload.fresh pre) = []
  ∧ Preload.receivedBy i
      (Preload.run Preload.fresh (pre ++ Preload.OnBackendLog :: mid))
    = Preload.lines mid
  ∧ Preload.receivedBy i
      (Preload.run Preload.fresh
         (pre ++ Preload.OnBackendLog :: mid ++ Preload.Unsubscribe i :: post))
    = Preload.lines mid.
Proof.
  intros Hmid i.
  pose proof (tidy_run _ pre tidy_fresh) as Hpre.
  pose proof (subscribed_run Preload.fresh pre) as Hcount. cbn in Hcount.
  fold i in Hcount.
  set (c0 := Preload.run Preload.fresh pre) in *.
  assert (Hnone : Preload.receivedBy i c0 = []).
  { apply receivedBy_not_yet; [done|lia]. }
  set (c1 := Preload.step c0 Preload.OnBackendLog).
  assert (Hc1 : Preload.tidy c1) by by apply tidy_step.
  assert (Hi1 : i ∈ Preload.listeners c1).
  { cbn. rewrite Hcount. apply elem_of_app. right. by apply list_elem_of_singleton. }
  destruct (receivedBy_while_subscribed i mid c1 Hc1 Hi1 Hmid) as [Hin Hrecv].
  assert (Hsame : Preload.receivedBy i c1 = []) by exact Hnone.
  rewrite Hsame in Hrecv. cbn [app] in Hrecv.
  split; [exact Hnone|]. split.
  - unfold Preload.run. rewrite foldl_app. exact Hrecv.
  - unfold Preload.run. rewrite foldl_app. cbn [foldl]. rewrite foldl_app.
    cbn [foldl]. fold c0. fold c1.
    fold (Preload.run c1 mid).
    set (c2 := Preload.run c1 mid) in *.
    assert (Hc2 : Preload.tidy c2) by by apply tidy_run.
    fold (Preload.run (Preload.step c2 (Preload.Unsubscribe i)) post).
    rewrite receivedBy_after_unsubscribe.
    + exact Hrecv.
    + by apply tidy_step.
    + destruct Hc2 as (Hnd & _). cbn.
      by apply (removeListener_spec i _ Hnd).
    + cbn. destruct Hc2 as (_ & Hl & _). by apply Hl.
Qed.

Lemma onBackendLog_between_subscribe_and_unsubscribe_witness :
  Preload.receivedBy 1
    (Preload.run Preload.fresh
       ([Preload.OnBackendLog; Preload.BackendLog "[backend] booting"]
        ++ Preload.OnBackendLog
        :: [Preload.BackendLog "[backend] ready"; Preload.Unsubscribe 0;
            Preload.BackendLog "[backend] crawl done"]
        ++ Preload.Unsubscribe 1 :: [Preload.BackendLog "[sidecar] exited"]))
  = ["[backend] ready"; "[backend] crawl done"].
Proof.
  exact (proj2 (proj2
    (onBackendLog_between_subscribe_and_unsubscribe
       [Preload.OnBackendLog; Preload.BackendLog "[backend] booting"]
       [Preload.BackendLog "[backend] ready"; Preload.Unsubscribe 0;
        Preload.BackendLog "[backend] crawl done"]
       [Preload.BackendLog "[sidecar] exited"]
       ltac:(repeat constructor)))).
Defined.

(** ** Signals and spawns of the sidecar module *)

Section SidecarSignals.

Variable pf : Sidecar.Platform.

Lemma sidecar_signals_step s e :
  Sidecar.trackedFresh s →
  NoDup (Sidecar.killed s).*1 →
  Forall (λ k, k.2 = "SIGTERM") (Sidecar.killed s) →
  Forall (λ sp, Sidecar.command sp = Sidecar.pythonBin pf
                ∧ Sidecar.args sp = [Sidecar.getBackendPath pf]
                ∧ Sidecar.stdio sp = ["ignore"; "pipe"; "pipe"])
    (Sidecar.spawned s) →
  NoDup (Sidecar.killed (Sidecar.step pf s e)).*1
  ∧ Forall (λ k, k.2 = "SIGTERM") (Sidecar.killed (Sidecar.step pf s e))
  ∧ Forall (λ sp, Sidecar.command sp = Sidecar.pythonBin pf
                  ∧ Sidecar.args sp = [Sidecar.getBackendPath pf]
                  ∧ Sidecar.stdio sp = ["ignore"; "pipe"; "pipe"])
      (Sidecar.spawned (Sidecar.step pf s e)).
Proof.
  intros [_ Htracked] Hnd Hsig Hsp.
  destruct e as [| |p d|p d|p c|p m]; cbn [Sidecar.step].
  - unfold Sidecar.startPythonSidecar.
    destruct (Sidecar.pythonProcess s); cbn; [done|].
    split; [done|]. split; [done|]. apply Forall_app. split; [done|].
    by repeat constructor.
  - unfold Sidecar.stopPythonSidecar.
    destruct (Sidecar.pythonProcess s) as [p|] eqn:Hp; [|done]. cbn.
    destruct (Htracked p eq_refl) as [_ Hfresh].
    split; [|split; [|done]].
    + rewrite fmap_app. apply NoDup_app. split; [done|].
      split; [|apply NoDup_singleton].
      intros x Hx ->%list_elem_of_singleton. done.
    + apply Forall_app. split; [done|]. by repeat constructor.
  - by destruct (Sidecar.hasListeners s p).
  - by destruct (Sidecar.hasListeners s p).
  - by destruct (Sidecar.hasListeners s p).
  - by destruct (Sidecar.hasListeners s p).
Qed.

Lemma sidecar_signals_run es :
  let s := Sidecar.run pf Sidecar.loaded es in
  NoDup (Sidecar.killed s).*1
  ∧ Forall (λ k, k.2 = "SIGTERM") (Sidecar.killed s)
  ∧ Forall (λ sp, Sidecar.command sp = Sidecar.pythonBin pf
                  ∧ Sidecar.args sp = [Sidecar.getBackendPath pf]
                  ∧ Sidecar.stdio sp = ["ignore"; "pipe"; "pipe"])
      (Sidecar.spawned s).
Proof.
  induction es as [|e es IH] using rev_ind.
  - cbn. split; [constructor|]. by split.
  - cbv zeta in *. rewrite run_snoc. destruct IH as (H1 & H2 & H3).
    apply sidecar_signals_step; [apply trackedFresh_run|done..].
Qed.

Lemma length_le_of_bounded (l : list nat) n :
  NoDup l → (∀ x, x ∈ l → (x < n)%nat) → (length l ≤ n)%nat.
Proof.
  intros Hnd Hlt.
  assert (Hsub : l ⊆+ seq 0 n).
  { apply NoDup_submseteq; [done|]. intros x Hx. apply elem_of_seq.
    specialize (Hlt x Hx). lia. }
  apply submseteq_length in Hsub. by rewrite length_seq in Hsub.
Qed.

End SidecarSignals.

(** X7.  Whatever is called and whatever the processes do, the module
    sends no signal but SIGTERM, never two to the same process and only to
    processes it has spawned, so never more signals than spawns; and every
    process is spawned with the Python binary of the platform, the backend
    path as its only argument, and its output piped. *)
Theorem sidecar_signals_once_per_process
    (pf : Sidecar.Platform) (es : list Sidecar.Event) :
  let s := Sidecar.run pf Sidecar.loaded es in
  NoDup (Sidecar.killed s).*1
  ∧ Forall (λ k, (k.1 < length (Sidecar.spawned s))%nat ∧ k.2 = "SIGTERM")
      (Sidecar.killed s)
  ∧ (length (Sidecar.killed s) ≤ length (Sidecar.spawned s))%nat
  ∧ Forall (λ sp, Sidecar.command sp = Sidecar.pythonBin pf
                  ∧ Sidecar.args sp = [Sidecar.getBackendPath pf]
                  ∧ Sidecar.stdio sp = ["ignore"; "pipe"; "pipe"])
      (Sidecar.spawned s).
Proof.
  intros s. destruct (sidecar_signals_run pf es) as (Hnd & Hsig & Hsp).
  destruct (trackedFresh_run pf es) as [Hbound _].
  fold s in Hnd, Hsig, Hsp, Hbound. clearbody s.
  split; [done|]. split; [|split; [|done]].
  - apply Forall_forall. intros k Hk. split.
    + apply Hbound. apply list_elem_of_fmap. by exists k.
    + by apply (proj1 (Forall_forall _ _) Hsig).
  - rewrite <- (length_fmap fst). by apply length_le_of_bounded.
Qed.

(** ** The main process *)

Section MainProperties.

Variable pf : Sidecar.Platform.

Lemma main_run_snoc s es e :
  Main.run pf s (es ++ [e]) = Main.step pf (Main.run pf s es) e.
Proof. unfold Main.run. by rewrite foldl_app. Qed.

Lemma stop_keeps_once (sc : Sidecar.State) :
  length (Sidecar.spawned sc) = 1%nat →
  Sidecar.pythonProcess sc = None ∨ Sidecar.pythonProcess sc = Some 0%nat →
  Sidecar.killed sc = []
  ∨ (Sidecar.killed sc = [(0%nat, "SIGTERM")] ∧ Sidecar.pythonProcess sc = None) →
  length (Sidecar.spawned (Sidecar.stopPythonSidecar sc)) = 1%nat
  ∧ Sidecar.pythonProcess (Sidecar.stopPythonSidecar sc) = None
  ∧ (Sidecar.killed (Sidecar.stopPythonSidecar sc) = []
     ∨ Sidecar.killed (Sidecar.stopPythonSidecar sc) = [(0%nat, "SIGTERM")]).
Proof.
  intros Hlen Htracked Hkilled. unfold Sidecar.stopPythonSidecar.
  destruct Htracked as [Hnone|Hsome].
  - rewrite Hnone. split; [done|]. split; [done|].
    destruct Hkilled as [->|[-> _]]; [by left|by right].
  - rewrite Hsome. cbn. split; [done|]. split; [done|]. right.
    destruct Hkilled as [->|[_ Hnone]]; [done|congruence].
Qed.

Lemma child_keeps_once (sc : Sidecar.State) (e : Sidecar.Event) p :
  Sidecar.processOf e = Some p →
  length (Sidecar.spawned sc) = 1%nat →
  Sidecar.pythonProcess sc = None ∨ Sidecar.pythonProcess sc = Some 0%nat →
  Sidecar.killed sc = []
  ∨ (Sidecar.killed sc = [(0%nat, "SIGTERM")] ∧ Sidecar.pythonProcess sc = None) →
  length (Sidecar.spawned (Sidecar.step pf sc e)) = 1%nat
  ∧ (Sidecar.pythonProcess (Sidecar.step pf sc e) = None
     ∨ Sidecar.pythonProcess (Sidecar.step pf sc e) = Some 0%nat)
  ∧ (Sidecar.killed (Sidecar.step pf sc e) = []
     ∨ (Sidecar.killed (Sidecar.step pf sc e) = [(0%nat, "SIGTERM")]
        ∧ Sidecar.pythonProcess (Sidecar.step pf sc e) = None)).
Proof.
  intros Hp Hlen Htracked Hkilled.
  destruct e as [| |q d|q d|q c|q m]; try discriminate Hp; cbn [Sidecar.step];
    destruct (Sidecar.hasListeners sc q); cbn; try done.
  - split; [done|]. split; [by left|].
    destruct Hkilled as [->|[-> _]]; [by left|by right].
  - split; [done|]. split; [by left|].
    destruct Hkilled as [->|[-> _]]; [by left|by right].
Qed.

Lemma spawnedOnce_step s e : Main.spawnedOnce s → Main.spawnedOnce (Main.step pf s e).
Proof.
  intros [[Hready Hloaded]|(Hready & Hlen & Htracked & Hkilled)].
  - destruct e as [|n| | |e]; cbn [Main.step]; rewrite ?Hready.
    + right. rewrite Hloaded. cbn. split; [done|]. split; [done|].
      split; [by right|by left].
    + by left.
    + left. rewrite Hloaded. by split.
    + left. rewrite Hloaded. by split.
    + destruct (Sidecar.processOf e) as [p|] eqn:Hp; [|by left].
      left. cbn. split; [done|]. rewrite Hloaded.
      destruct e as [| |q d|q d|q c|q m]; try discriminate Hp; reflexivity.
  - destruct e as [|n| | |e]; cbn [Main.step]; rewrite ?Hready.
    + right. by split.
    + cbn [andb]. case_bool_decide; right; by split.
    + destruct (stop_keeps_once _ Hlen Htracked Hkilled) as (H1 & H2 & H3).
      right. cbn. split; [done|]. split; [done|]. split; [by left|].
      destruct H3 as [H3|H3]; [by left|by right].
    + destruct (stop_keeps_once _ Hlen Htracked Hkilled) as (H1 & H2 & H3).
      right. cbn. split; [done|]. split; [done|]. split; [by left|].
      destruct H3 as [H3|H3]; [by left|by right].
    + destruct (Sidecar.processOf e) as [p|] eqn:Hp; [|right; by split].
      destruct (child_keeps_once _ e p Hp Hlen Htracked Hkilled) as (H1 & H2 & H3).
      right. cbn. by split.
Qed.

Lemma spawnedOnce_run es : Main.spawnedOnce (Main.run pf Main.launched es).
Proof.
  induction es as [|e es IH] using rev_ind; [by left|].
  rewrite main_run_snoc. by apply spawnedOnce_step.
Qed.

(** Once the window is ready and nothing is tracked, nothing is tracked
    again and no further signal is sent. *)
Lemma stays_stopped post : ∀ s,
  Main.ready s = true →
  Sidecar.pythonProcess (Main.sidecar s) = None →
  Main.ready (Main.run pf s post) = true
  ∧ Sidecar.pythonProcess (Main.sidecar (Main.run pf s post)) = None
  ∧ Sidecar.killed (Main.sidecar (Main.run pf s post))
      = Sidecar.killed (Main.sidecar s).
Proof.
  induction post as [|e post IH]; intros s Hready Hnone; [done|].
  change (Main.run pf s (e :: post)) with (Main.run pf (Main.step pf s e) post).
  assert (Hstep : Main.ready (Main.step pf s e) = true
                  ∧ Sidecar.pythonProcess (Main.sidecar (Main.step pf s e)) = None
                  ∧ Sidecar.killed (Main.sidecar (Main.step pf s e))
                      = Sidecar.killed (Main.sidecar s)).
  { destruct e as [|n| | |e]; cbn [Main.step]; rewrite ?Hready.
    - done.
    - cbn [andb]. by case_bool_decide.
    - cbn. unfold Sidecar.stopPythonSidecar. by rewrite Hnone.
    - cbn. unfold Sidecar.stopPythonSidecar. by rewrite Hnone.
    - destruct (Sidecar.processOf e) as [p|] eqn:Hp; [|done]. cbn.
      destruct e as [| |q d|q d|q c|q m]; try discriminate Hp; cbn [Sidecar.step];
        by destruct (Sidecar.hasListeners (Main.sidecar s) q). }
  destruct Hstep as (H1 & H2 & H3).
  destruct (IH _ H1 H2) as (I1 & I2 & I3). rewrite I3. done.
Qed.

Lemma quits_run es : ∀ s,
  Main.quits (Main.run pf s es)
  = (Main.quits s
     + if String.eqb (Sidecar.platform pf) "darwin" then 0 else Main.closings es)%nat.
Proof.
  induction es as [|e es IH]; intros s.
  - cbn. destruct (String.eqb _ _); lia.
  - change (Main.run pf s (e :: es)) with (Main.run pf (Main.step pf s e) es).
    rewrite IH. unfold Main.closings.
    destruct e as [|n| | |e]; cbn [Main.step List.filter].
    + destruct (Main.ready s); cbn; lia.
    + destruct (Main.ready s && bool_decide (n = 0%nat)); cbn; lia.
    + cbn. destruct (String.eqb _ _); lia.
    + cbn. lia.
    + destruct (Sidecar.processOf e); cbn; lia.
Qed.

Lemma running_is_first_process es :
  Sidecar.isSidecarRunning (Main.sidecar (Main.run pf Main.launched es)) = true →
  Main.ready (Main.run pf Main.launched es) = true
  ∧ Sidecar.pythonProcess (Main.sidecar (Main.run pf Main.launched es)) = Some 0%nat
  ∧ Sidecar.killed (Main.sidecar (Main.run pf Main.launched es)) = [].
Proof.
  pose proof (spawnedOnce_run es) as Hs.
  destruct Hs as [[Hready Hloaded]|(Hready & Hlen & Htracked & Hkilled)].
  - rewrite Hloaded. discriminate.
  - unfold Sidecar.isSidecarRunning.
    destruct Htracked as [->|Hsome]; [discriminate|]. rewrite Hsome.
    intros _. split; [done|]. split; [done|].
    destruct Hkilled as [->|[_ Hnone]]; [done|congruence].
Qed.

End MainProperties.

(** X8.  The main process spawns the Python backend once, when the
    application has become ready, and never again: at every moment at most
    one process has been spawned, exactly one once ready; only that
    process can be tracked, and then no signal has been sent; at most one
    signal is ever sent. *)
Theorem main_spawns_one_sidecar (pf : Sidecar.Platform) (es : list Main.Event) :
  let s := Main.run pf Main.launched es in
  (length (Sidecar.spawned (Main.sidecar s)) ≤ 1)%nat
  ∧ (Main.ready s = true ↔ length (Sidecar.spawned (Main.sidecar s)) = 1%nat)
  ∧ (Sidecar.isSidecarRunning (Main.sidecar s) = true →
       Main.ready s = true
       ∧ Sidecar.pythonProcess (Main.sidecar s) = Some 0%nat
       ∧ Sidecar.killed (Main.sidecar s) = [])
  ∧ (length (Sidecar.killed (Main.sidecar s)) ≤ 1)%nat.
Proof.
  intros s. pose proof (spawnedOnce_run pf es) as Hs. fold s in Hs. clearbody s.
  destruct Hs as [[Hready Hloaded]|(Hready & Hlen & Htracked & Hkilled)].
  - rewrite Hready, Hloaded. cbn. split; [lia|]. split; [split; discriminate|].
    split; [discriminate|lia].
  - rewrite Hready, Hlen. split; [lia|]. split; [done|]. split.
    + unfold Sidecar.isSidecarRunning.
      destruct Htracked as [->|Hsome]; [discriminate|]. rewrite Hsome.
      intros _. split; [done|]. split; [done|].
      destruct Hkilled as [->|[_ Hnone]]; [done|congruence].
    + destruct Hkilled as [->|[-> _]]; cbn; lia.
Qed.

Lemma main_spawns_one_sidecar_witness :
  let s := Main.run Examples.linuxDev Main.launched
             [Main.Ready; Main.Child (Sidecar.Stdout 0%nat "INFO: started")] in
  Sidecar.pythonProcess (Main.sidecar s) = Some 0%nat
  ∧ Sidecar.killed (Main.sidecar s) = [].
Proof.
  intros s.
  exact (proj2 (proj1 (proj2 (proj2
    (main_spawns_one_sidecar Examples.linuxDev
       [Main.Ready; Main.Child (Sidecar.Stdout 0%nat "INFO: started")]))) eq_refl)).
Defined.

(** X9.  Once the application is ready, a [window-all-closed] or a
    [before-quit] stops the backend for good: from then on no process is
    tracked, whatever happens next, also when a window is created again on
    [activate]; if the backend was running, it has been sent SIGTERM, once.
    [app.quit()] is called on [window-all-closed] everywhere but on
    macOS. *)
Theorem main_backend_stays_stopped
    (pf : Sidecar.Platform) (pre post : list Main.Event) (e : Main.Event) :
  Main.stops e = true →
  Main.ready (Main.run pf Main.launched pre) = true →
  let s := Main.run pf Main.launched (pre ++ e :: post) in
  Sidecar.isSidecarRunning (Main.sidecar s) = false
  ∧ (Sidecar.isSidecarRunning (Main.sidecar (Main.run pf Main.launched pre)) = true →
       Sidecar.killed (Main.sidecar s) = [(0%nat, "SIGTERM")])
  ∧ Main.quits s
    = (if String.eqb (Sidecar.platform pf) "darwin" then 0%nat
       else Main.closings (pre ++ e :: post)).
Proof.
  intros He Hready s. subst s. split; [|split].
  - unfold Main.run. rewrite foldl_app. cbn [foldl].
    fold (Main.run pf Main.launched pre).
    set (s0 := Main.run pf Main.launched pre) in *.
    fold (Main.run pf (Main.step pf s0 e) post).
    assert (Hstop : Main.ready (Main.step pf s0 e) = true
                    ∧ Sidecar.pythonProcess (Main.sidecar (Main.step pf s0 e)) = None).
    { destruct e; try discriminate He; cbn; (split; [done|]);
        unfold Sidecar.stopPythonSidecar;
        destruct (Sidecar.pythonProcess (Main.sidecar s0)) eqn:Hp; by rewrite ?Hp. }
    destruct Hstop as [H1 H2].
    destruct (stays_stopped pf post _ H1 H2) as (_ & Hnone & _).
    unfold Sidecar.isSidecarRunning. by rewrite Hnone.
  - intros Hrunning.
    destruct (running_is_first_process pf pre Hrunning) as (_ & Htracked & Hkilled).
    unfold Main.run. rewrite foldl_app. cbn [foldl].
    fold (Main.run pf Main.launched pre).
    set (s0 := Main.run pf Main.launched pre) in *.
    fold (Main.run pf (Main.step pf s0 e) post).
    assert (Hstop : Main.ready (Main.step pf s0 e) = true
                    ∧ Sidecar.pythonProcess (Main.sidecar (Main.step pf s0 e)) = None
                    ∧ Sidecar.killed (Main.sidecar (Main.step pf s0 e))
                        = [(0%nat, "SIGTERM")]).
    { destruct e; try discriminate He; cbn; (split; [done|]);
        unfold Sidecar.stopPythonSidecar; rewrite Htracked; cbn;
        by rewrite Hkilled. }
    destruct Hstop as (H1 & H2 & H3).
    destruct (stays_stopped pf post _ H1 H2) as (_ & _ & Hsame).
    by rewrite Hsame.
  - rewrite quits_run. cbn. done.
Qed.

Lemma main_backend_stays_stopped_witness :
  let s := Main.run Samples.macPackaged Main.launched
             ([Main.Ready] ++ Main.WindowAllClosed :: [Main.Activate 0]) in
  Sidecar.isSidecarRunning (Main.sidecar s) = false
  ∧ Sidecar.killed (Main.sidecar s) = [(0%nat, "SIGTERM")]
  ∧ Main.quits s = 0%nat
  ∧ length (Main.windows s) = 2%nat.
Proof.
  intros s.
  destruct (main_backend_stays_stopped Samples.macPackaged [Main.Ready]
              [Main.Activate 0] Main.WindowAllClosed eq_refl eq_refl)
    as (Hstopped & Hkilled & Hquits).
  split; [exact Hstopped|]. split; [exact (Hkilled eq_refl)|].
  split; [exact Hquits|reflexivity].
Defined.

(** ** More on date formatting *)

(** X10.  The number [formatDCDate] shows in the minute form is always
    between 1 and 59 and in the hour form between 1 and 23, so "0분 전",
    "60분 전" and "24시간 전" are never shown; a date that cannot be parsed
    is never given a relative form but handed to the locale formatting as
    it is; and a valid date is handed to it only when it is at least 24
    hours old. *)
Theorem formatDCDate_numbers_in_range
    (getTime : string → option Z) (toLocaleDateString : option Z → string)
    (now : Z) (dateStr : string) :
  let branch := DateFormatter.formatDCDate_branch getTime now dateStr in
  (∀ m, branch = DateFormatter.MinutesAgo m → 1 ≤ m ≤ 59)
  ∧ (∀ h, branch = DateFormatter.HoursAgo h → 1 ≤ h ≤ 23)
  ∧ (getTime dateStr = None →
       branch = DateFormatter.Absolute None
       ∧ DateFormatter.formatDCDate getTime toLocaleDateString now dateStr
         = toLocaleDateString None)
  ∧ (∀ date, branch = DateFormatter.Absolute (Some date) →
       getTime dateStr = Some date ∧ 86400000 ≤ now - date).
Proof.
  intros branch. subst branch.
  destruct (getTime dateStr) as [date|] eqn:Hdate.
  - rewrite (formatDCDate_branch_valid _ _ _ _ Hdate).
    destruct (Z.ltb_spec (now - date) 60000) as [H1|H1];
      [|destruct (Z.ltb_spec (now - date) 3600000) as [H2|H2];
        [|destruct (Z.ltb_spec (now - date) 86400000) as [H3|H3]]].
    + by repeat split.
    + split; [|by repeat split]. intros m [= <-]. Z.div_mod_to_equations. lia.
    + split; [done|]. split; [|by repeat split].
      intros k [= <-]. Z.div_mod_to_equations. lia.
    + split; [done|]. split; [done|]. split; [done|].
      intros d [= <-]. by split.
  - rewrite (formatDCDate_branch_invalid _ _ _ Hdate).
    split; [done|]. split; [done|]. split; [|done].
    intros _. split; [done|]. unfold DateFormatter.formatDCDate.
    by rewrite (formatDCDate_branch_invalid _ _ _ Hdate).
Qed.

(** ** Posts and comments *)

Section PostProperties.

Import DCPost.

Variable getTime : string → option Z.
Variable toLocaleDateString : option Z → string.
Variable now : Z.
Variable formatViewCount : Z → string.
Variable Score : Type.
Variable percent : Score → string.

Lemma DCComment_texts : ∀ (c : CommentData) depth,
  shownTexts (DCComment getTime toLocaleDateString now depth c) = texts c.
Proof.
  fix IH 1. intros [id author text date persona replies isAI] depth.
  cbn. f_equal. destruct replies as [rs|]; [|done].
  induction rs as [|r rs IHrs]; [done|].
  cbn. by rewrite IH, IHrs.
Qed.

Lemma DCComment_below : ∀ (c : CommentData) depth,
  Forall (λ v, isReplyOf v = true)
    (below (DCComment getTime toLocaleDateString now depth c)).
Proof.
  fix IH 1. intros [id author text date persona replies isAI] depth.
  cbn. destruct replies as [rs|]; [|constructor].
  induction rs as [|r rs IHrs]; [constructor|].
  cbn. constructor.
  - destruct r. cbn. apply bool_decide_eq_true_2. lia.
  - apply Forall_app. split; [apply IH|exact IHrs].
Qed.

Lemma DCComment_top (c : CommentData) :
  isReplyOf (DCComment getTime toLocaleDateString now 0 c) = false.
Proof. by destruct c. Qed.

Lemma texts_nonempty (c : CommentData) : (1 ≤ length (texts c))%nat.
Proof. destruct c. cbn. lia. Qed.

Lemma concat_texts_length (cs : list CommentData) :
  (length cs ≤ length (concat (List.map texts cs)))%nat.
Proof.
  induction cs as [|c cs IH]; [done|].
  cbn. rewrite length_app. pose proof (texts_nonempty c). lia.
Qed.

Lemma comments_texts (cs : list CommentData) :
  concat (List.map shownTexts
            (List.map (DCComment getTime toLocaleDateString now 0) cs))
  = concat (List.map texts cs).
Proof.
  induction cs as [|c cs IH]; [done|].
  cbn. by rewrite DCComment_texts, IH.
Qed.

Lemma take_ne_iff {A} (n : nat) (l : list A) :
  take n l ≠ l ↔ (n < length l)%nat.
Proof.
  split.
  - intros Hne. destruct (decide (n < length l)%nat) as [|Hge]; [done|].
    destruct Hne. apply take_ge. lia.
  - intros Hlt Heq. apply (f_equal length) in Heq.
    rewrite length_take in Heq. lia.
Qed.

Lemma clickMore_cases (posts : list (PostData Score)) (e : option string) (i : nat) :
  clickMore getTime toLocaleDateString now formatViewCount percent posts e i = e
  ∨ ∃ q, posts !! i = Some q ∧ (280 < length (body q))%nat
         ∧ clickMore getTime toLocaleDateString now formatViewCount percent posts e i
           = Some (id q).
Proof.
  unfold clickMore. destruct (posts !! i) as [q|] eqn:Hq; [|by left].
  cbn. unfold onExpand.
  destruct (isExpanded e q) eqn:He; cbn; [by left|].
  unfold isTruncated. case_bool_decide as Hlen; [|by left].
  right. by exists q.
Qed.

Lemma listed_snoc (posts0 : list (PostData Score)) es e :
  listed posts0 (es ++ [e])
  = listed posts0 es ++ match e with NewPosts ps => ps | ClickMore _ => [] end.
Proof.
  unfold listed. rewrite omap_app, concat_app, app_assoc.
  destruct e; cbn; by rewrite ?app_nil_r.
Qed.

Lemma posts_listed (posts0 : list (PostData Score)) es :
  posts (boardRun getTime toLocaleDateString now formatViewCount percent
           (mounted posts0) es) ⊆ listed posts0 es.
Proof.
  unfold boardRun.
  induction es as [|e es IH] using rev_ind.
  - unfold listed. cbn. by rewrite app_nil_r.
  - rewrite foldl_app, listed_snoc. cbn.
    destruct e as [i|ps]; cbn; set_solver.
Qed.

Lemma expandable_run (posts0 : list (PostData Score)) es :
  expandable (listed posts0 es)
    (expandedId (boardRun getTime toLocaleDateString now formatViewCount percent
                   (mounted posts0) es)).
Proof.
  induction es as [|e es IH] using rev_ind; [by left|].
  pose proof (posts_listed posts0 es) as Hsub.
  unfold boardRun in *. rewrite foldl_app, listed_snoc. cbn.
  assert (∀ (seen more : list (PostData Score)) x,
            expandable seen x → expandable (seen ++ more) x) as Hmono.
  { intros seen more x [->|(q & Hq & -> & Hlen)]; [by left|].
    right. exists q. split; [set_solver|done]. }
  destruct e as [i|ps]; cbn; [|by apply Hmono].
  rewrite app_nil_r.
  match goal with
  | |- expandable _ (clickMore _ _ _ _ _ ?ps ?x i) =>
      destruct (clickMore_cases ps x i) as [->|(q & Hq & Hlen & ->)]
  end; [exact IH|].
  right. exists q. split; [|done].
  apply Hsub. by eapply list_elem_of_lookup_2.
Qed.

Lemma stays_expanded (b : Board Score) (more : list (BoardEvent Score)) :
  expandedId b ≠ None →
  expandedId (boardRun getTime toLocaleDateString now formatViewCount percent
                b more) ≠ None.
Proof.
  unfold boardRun. revert b. induction more as [|e more IH]; [done|].
  intros b Hb. cbn [foldl]. apply IH.
  destruct e as [i|ps]; cbn; [|done].
  destruct (clickMore_cases (posts b) (expandedId b) i) as [->|(q & _ & _ & ->)];
    done.
Qed.

End PostProperties.

(** X11.  A collapsed post shows the first 280 code units of its body (the
    whole body when it is shorter) and no comments; the "더 보기" button is
    there exactly when that preview is not the whole body; an expanded post
    shows the whole body and no button. *)
Theorem post_preview_and_more_button
    (getTime : string → option Z) (toLocaleDateString : option Z → string)
    (now : Z) (formatViewCount : Z → string) (Score : Type)
    (percent : Score → string) (post : DCPost.PostData Score) :
  let collapsed :=
    DCPost.render getTime toLocaleDateString now formatViewCount percent post false in
  let expanded :=
    DCPost.render getTime toLocaleDateString now formatViewCount percent post true in
  DCPost.shownBody collapsed `prefix_of` DCPost.body post
  ∧ length (DCPost.shownBody collapsed) = (280 `min` length (DCPost.body post))%nat
  ∧ (DCPost.moreButton collapsed = true
       ↔ DCPost.shownBody collapsed ≠ DCPost.body post)
  ∧ DCPost.commentSection collapsed = None
  ∧ DCPost.shownBody expanded = DCPost.body post
  ∧ DCPost.moreButton expanded = false.
Proof.
  intros collapsed expanded. subst collapsed expanded.
  unfold DCPost.render, DCPost.shownBody, DCPost.moreButton,
    DCPost.commentSection, DCPost.previewBody, DCPost.isTruncated.
  rewrite !andb_false_l, !andb_true_l.
  split; [apply prefix_take|].
  split; [apply length_take|].
  split; [|done].
  rewrite bool_decide_eq_true. symmetry. apply take_ne_iff.
Qed.

(** X12.  The comment block of an expanded post is there exactly when the
    post has comments; its count is the number of top-level comments, which
    can be less than the number of comments shown; every comment of every
    thread is shown once, in the order of the data (a comment before its
    replies); the top-level comments are not set in and every comment below
    one is. *)
Theorem post_comments_shown_in_order
    (getTime : string → option Z) (toLocaleDateString : option Z → string)
    (now : Z) (formatViewCount : Z → string) (Score : Type)
    (percent : Score → string) (post : DCPost.PostData Score) :
  match DCPost.commentSection
          (DCPost.render getTime toLocaleDateString now formatViewCount percent
             post true) with
  | None => DCPost.comments post = []
  | Some sec =>
      DCPost.comments post ≠ []
      ∧ DCPost.commentCount sec = length (DCPost.comments post)
      ∧ length (DCPost.commentViews sec) = DCPost.commentCount sec
      ∧ concat (List.map DCPost.shownTexts (DCPost.commentViews sec))
        = concat (List.map DCPost.texts (DCPost.comments post))
      ∧ (DCPost.commentCount sec
         ≤ length (concat (List.map DCPost.shownTexts (DCPost.commentViews sec))))%nat
      ∧ Forall (λ v, DCPost.isReplyOf v = false
                     ∧ Forall (λ w, DCPost.isReplyOf w = true) (DCPost.below v))
          (DCPost.commentViews sec)
  end.
Proof.
  cbn. case_bool_decide as Hlen; cbn.
  - split; [intros Heq; rewrite Heq in Hlen; cbn in Hlen; lia|].
    split; [done|]. split; [by rewrite length_map|].
    rewrite comments_texts. split; [done|].
    split; [apply concat_texts_length|].
    apply Forall_forall. intros v Hv.
    apply list_elem_of_In, in_map_iff in Hv. destruct Hv as (c & <- & _).
    split; [apply DCComment_top|apply DCComment_below].
  - destruct (DCPost.comments post); [done|]. cbn in Hlen. lia.
Qed.

(** X13.  The board keeps the expanded id as long as the page is open, also
    when it is handed other posts.  Whatever "더 보기" buttons are clicked
    and whatever posts arrive: a post that is shown expanded has the id of a
    post the board has been handed, now or earlier, whose body is longer
    than 280 code units; once a post is expanded the board never returns
    to the state with none expanded (an expanded post has no button, so
    the collapsing branch of the toggle is never taken); and as long as
    every post the board has been handed fits the preview, nothing is
    expanded, so no post shows a button or its comments. *)
Theorem board_expands_only_truncated_posts
    (getTime : string → option Z) (toLocaleDateString : option Z → string)
    (now : Z) (formatViewCount : Z → string) (Score : Type)
    (percent : Score → string)
    (posts0 : list (DCPost.PostData Score)) (es : list (DCPost.BoardEvent Score)) :
  let run := DCPost.boardRun getTime toLocaleDateString now formatViewCount percent
               (DCPost.mounted posts0) in
  let b := run es in
  (∀ post : DCPost.PostData Score,
     DCPost.isExpanded (DCPost.expandedId b) post = true →
     ∃ q, q ∈ DCPost.listed posts0 es ∧ DCPost.id q = DCPost.id post
          ∧ (280 < length (DCPost.body q))%nat)
  ∧ (∀ more, DCPost.expandedId b ≠ None →
       DCPost.expandedId (run (es ++ more)) ≠ None)
  ∧ (Forall (λ p, (length (DCPost.body p) ≤ 280)%nat) (DCPost.listed posts0 es) →
       DCPost.expandedId b = None
       ∧ Forall (λ v, DCPost.commentSection v = None ∧ DCPost.moreButton v = false)
           (DCPost.renderPosts getTime toLocaleDateString now formatViewCount
              percent (DCPost.expandedId b) (DCPost.posts b))).
Proof.
  intros run b.
  pose proof (expandable_run getTime toLocaleDateString now formatViewCount
                Score percent posts0 es) as He.
  pose proof (posts_listed getTime toLocaleDateString now formatViewCount
                Score percent posts0 es) as Hsub.
  fold run in He, Hsub. fold b in He, Hsub.
  split; [|split].
  - intros post Hpost. unfold DCPost.isExpanded in Hpost.
    apply bool_decide_eq_true in Hpost.
    destruct He as [He|(q & Hq & He & Hlen)]; [congruence|].
    exists q. split; [done|]. split; [congruence|done].
  - intros more Hne. subst run. cbv beta. unfold DCPost.boardRun.
    rewrite foldl_app. by apply stays_expanded.
  - intros Hshort.
    assert (DCPost.expandedId b = None) as HNone.
    { destruct He as [He|(q & Hq & _ & Hlen)]; [done|].
      rewrite Forall_forall in Hshort. specialize (Hshort q Hq). lia. }
    split; [done|]. rewrite HNone.
    unfold DCPost.renderPosts. apply Forall_fmap.
    apply Forall_forall. intros p Hp. cbn.
    rewrite Forall_forall in Hshort. specialize (Hshort p (Hsub p Hp)).
    split; [done|]. unfold DCPost.isTruncated.
    rewrite bool_decide_eq_false_2 by lia. done.
Qed.

(** A post that is shown expanded need not be long itself: after the long
    post "101" has been expanded, a short post with the same id that
    arrives with another result is shown expanded, with its comments and
    without a button. *)
Example short_post_shown_expanded :
  let render := DCPost.render (λ _, None) (λ _, "") 0 (λ _, "") (λ _ : unit, "") in
  let short101 :=
    {| DCPost.id := "101"; DCPost.gallId := "eldenring"; DCPost.title := "질문";
       DCPost.body := replicate 20 66%N; DCPost.author := "ㅇㅇ";
       DCPost.date := "2024-05-01T09:30:00Z"; DCPost.views := 12;
       DCPost.upvotes := 0; DCPost.score := None;
       DCPost.comments := [Samples.reply1]; DCPost.sourceUrl := None |} in
  let b := DCPost.boardRun (λ _, None) (λ _, "") 0 (λ _, "") (λ _ : unit, "")
             (DCPost.mounted [Samples.longPost; Samples.shortPost])
             [DCPost.ClickMore 0; DCPost.NewPosts [short101]] in
  DCPost.expandedId b = Some "101"
  ∧ DCPost.isExpanded (DCPost.expandedId b) short101 = true
  ∧ DCPost.moreButton (render short101 true) = false
  ∧ (DCPost.commentCount <$> DCPost.commentSection (render short101 true))
    = Some 1%nat.
Proof. by vm_compute. Qed.

(** ** The components on untyped data *)

Section UntypedProperties.

Variable eng : Engine.
Variable fmt : Untyped.Formats.















End UntypedProperties.

(** ** The page for a stored result, and without one *)

Section PageProperties.

Variable eng : Engine.
Variable fmt : Untyped.Formats.




Lemma render_without_data (st : App.State) message :
  UseSearch.data (App.searchState st) = VNull →
  App.mountCrawlMessage eng
    (App.crawlPanelOf (App.showCrawlPanel st) (App.crawlState st)) = Normal message →
  App.render eng fmt st
  = Normal
      {| App.searchDisabled := UseSearch.isLoading (App.searchState st);
         App.searchLabel := if UseSearch.isLoading (App.searchState st)
                            then "검색 중..." else "검색";
         App.resetShown := false;
         App.crawlPanel :=
           App.crawlPanelOf (App.showCrawlPanel st) (App.crawlState st);
         App.crawlMessageText := message;
         App.loadingNotice := UseSearch.isLoading (App.searchState st);
         App.galleryStrip := None;
         App.answerBox := None;
         App.errorBox := match UseSearch.error (App.searchState st) with
                         | Some e => if String.eqb e "" then None else Some e
                         | None => None
                         end;
         App.board :=
           {| DCBoard.resultCount :=
                if String.eqb (App.query st) "" then None else Some "0";
              DCBoard.body := if UseSearch.isLoading (App.searchState st)
                              then DCBoard.LoadingSkeleton
                              else DCBoard.EmptyState (App.query st) |} |}.
Proof.
  intros Hdata Hmessage.
  unfold App.render, DCBoard.render, DCBoard.postElements.
  rewrite Hdata. cbn [App.galleryElements getPropOpt truthy andb
                      mbind Completion_bind bind].
  rewrite Hmessage.
  cbn [App.mountGalleryStrip App.renderAnswerBox getPropOpt truthy nullish
       isNullish lengthOf length isZero mbind Completion_bind bind].
  destruct (String.eqb (App.query st) ""),
    (UseSearch.isLoading (App.searchState st)); reflexivity.
Qed.

End PageProperties.



(** X15.  While a search from the page is loading, and after one has
    failed, the page shows nothing of an earlier result: no gallery strip,
    no answer box, no reset button, and a board without posts, which is the
    loading skeleton while the search is loading and the empty state after
    a failure; the submit button is disabled exactly while loading, and the
    error box shows the message of the failure unless it is empty.  The
    crawl panel, which does not depend on the search, is taken to be closed
    or to hold a message React can show. *)
Theorem page_while_loading_or_failed
    (h : Host) (apiBase : option string) (es : list SearchHook.Event)
    (fmt : Untyped.Formats) (st : App.State) (message : option string) :
  let s := SearchHook.state (SearchHook.run h apiBase SearchHook.mounted es) in
  App.searchState st = s →
  UseSearch.isLoading s = true ∨ is_Some (UseSearch.error s) →
  App.mountCrawlMessage (engine h)
    (App.crawlPanelOf (App.showCrawlPanel st) (App.crawlState st)) = Normal message →
  ∃ v,
    App.render (engine h) fmt st = Normal v
    ∧ App.galleryStrip v = None
    ∧ App.answerBox v = None
    ∧ App.resetShown v = false
    ∧ App.searchDisabled v = UseSearch.isLoading s
    ∧ DCBoard.body (App.board v)
      = (if UseSearch.isLoading s then DCBoard.LoadingSkeleton
         else DCBoard.EmptyState (App.query st))
    ∧ (∀ e, UseSearch.error s = Some e →
         UseSearch.isLoading s = false
         ∧ App.errorBox v = if String.eqb e "" then None else Some e)
    ∧ (UseSearch.isLoading s = true → App.errorBox v = None).
Proof.
  intros s Hst Hs Hmessage.
  pose proof (coherent_run h apiBase es) as [Hloading Hfailed].
  fold s in Hloading, Hfailed.
  assert (UseSearch.data s = VNull) as Hdata.
  { destruct Hs as [Hs|Hs]; [apply (Hloading Hs)|apply (Hfailed Hs)]. }
  rewrite <- Hst in Hdata.
  eexists. split; [apply (render_without_data _ _ _ _ Hdata Hmessage)|].
  cbn. rewrite Hst. repeat (split; [reflexivity|]).
  split.
  - intros e He. split; [apply Hfailed; by rewrite He|]. by rewrite He.
  - intros Hl. destruct (Hloading Hl) as [_ ->]. done.
Qed.

Lemma page_while_loading_or_failed_witness :
  ∃ v,
    App.render Examples.v8 Examples.formats
      {| App.query := "엘든링"; App.gallId := "programming";
         App.showCrawlPanel := false;
         App.searchState :=
           SearchHook.state
             (SearchHook.run Examples.browser None SearchHook.mounted
                [SearchHook.Search "엘든링" None;
                 SearchHook.Settle 0
                   (HttpReply (Throw (ErrorObj "Failed to fetch")))]);
         App.crawlState := UseCrawl.initial;
         App.boardExpanded := λ _, false |} = Normal v
    ∧ App.errorBox v = Some "Failed to fetch"
    ∧ DCBoard.body (App.board v) = DCBoard.EmptyState "엘든링"
    ∧ App.answerBox v = None.
Proof.
  destruct (page_while_loading_or_failed Examples.browser None
              [SearchHook.Search "엘든링" None;
               SearchHook.Settle 0 (HttpReply (Throw (ErrorObj "Failed to fetch")))]
              Examples.formats
              {| App.query := "엘든링"; App.gallId := "programming";
                 App.showCrawlPanel := false;
                 App.searchState :=
                   SearchHook.state
                     (SearchHook.run Examples.browser None SearchHook.mounted
                        [SearchHook.Search "엘든링" None;
                         SearchHook.Settle 0
                           (HttpReply (Throw (ErrorObj "Failed to fetch")))]);
                 App.crawlState := UseCrawl.initial;
                 App.boardExpanded := λ _, false |}
              None eq_refl
              (or_intror (ex_intro _ "Failed to fetch" eq_refl)) eq_refl)
    as (v & Hv & _ & Hanswer & _ & _ & Hbody & Herror & _).
  exists v. split; [exact Hv|].
  split; [exact (proj2 (Herror _ eq_refl))|].
  split; [exact Hbody|exact Hanswer].
Defined.

(** What the two preconditions of the page theorems exclude.  A crawl
    response whose [message] is an object is stored as it is; with the
    crawl panel open the page then throws when the message is mounted, and
    with the panel closed it does not.  A response that has the fields of
    the contract but a post without [body] is stored too, and the page
    throws in [DCPost]. *)
Example object_crawl_message_breaks_page :
  let response :=
    {| ok := true; status := 200; text := Normal "";
       json := Normal (VObj (<["posts_indexed" := VNum 1]>
                             (<["message" := VObj (<["detail" := VStr "ok"]> ∅)]> ∅))) |} in
  let page shown crawl :=
    App.render Examples.v8 Examples.formats
      {| App.query := ""; App.gallId := "programming";
         App.showCrawlPanel := shown;
         App.searchState := UseSearch.initial;
         App.crawlState := crawl;
         App.boardExpanded := λ _, false |} in
  ∃ crawl,
    UseCrawl.startCrawl_finish Examples.browser
      (HttpFetch (UseCrawl.request "/api" "programming" 5))
      (HttpReply (Normal response)) = Some crawl
    ∧ UseCrawl.status crawl = UseCrawl.done
    ∧ page true crawl
      = Throw (ErrorObj "Objects are not valid as a React child")
    ∧ (∃ v, page false crawl = Normal v).
Proof.
  eexists. split; [reflexivity|]. split; [reflexivity|].
  split; [reflexivity|]. eexists. reflexivity.
Qed.

Example post_without_body_breaks_page :
  let wire : gmap string JsValue :=
    <["posts" := VArr [VObj (<["id" := VStr "101"]> ∅)]]>
    (<["synthesized_answer" := VNull]>
    (<["persona" := VStr "helpful_sunbae"]>
    (<["query_time" := VNum 12]> ∅))) in
  UseSearch.conforms wire = true
  ∧ ∃ d,
      UseSearch.fromWire Examples.v8 (VObj wire) = Normal d
      ∧ App.render Examples.v8 Examples.formats
          {| App.query := "엘든링"; App.gallId := "programming";
             App.showCrawlPanel := false;
             App.searchState := UseSearch.succeeded d;
             App.crawlState := UseCrawl.initial;
             App.boardExpanded := λ _, false |}
        = Throw (ErrorObj "Cannot read properties of undefined (reading 'slice')").
Proof.
  split; [reflexivity|]. eexists. split; reflexivity.
Qed.

(** The post of [Samples.oneHit] as [DCPost] shows it, collapsed. *)
Example wirePost_rendered :
  Untyped.DCPost Examples.v8 Examples.formats (VObj Samples.wirePost) false
  = Normal
      {| Untyped.shownTitle := "현재 메타 정리";
         Untyped.shownGallId := "eldenring";
         Untyped.shownAuthor := "ㅇㅇ";
         Untyped.shownDate := "3시간 전";
         Untyped.shownViews := "조회 1.2천";
         Untyped.shownUpvotes := "10";
         Untyped.scoreBadge := None;
         Untyped.shownBody := utf16 "출혈이 답이다";
         Untyped.moreButton := false;
         Untyped.commentSection := None;
         Untyped.sourceLink := Some (VStr "https://gall.dcinside.com/eldenring/101") |}.
Proof. by vm_compute. Qed.

(** ** The status flag in the application *)

Section StatusInTheApplication.

Variable pf : Sidecar.Platform.

Lemma backendUp_run es :
  let s := Main.run pf Main.launched es in
  Main.ready s = (Main.backendUp es).1
  ∧ Sidecar.isSidecarRunning (Main.sidecar s) = (Main.backendUp es).2
  ∧ ((Main.backendUp es).1 = false → (Main.backendUp es).2 = false).
Proof.
  induction es as [|e es IH] using rev_ind; [done|].
  pose proof (spawnedOnce_run pf es) as Honce.
  cbv zeta in IH. destruct IH as (Hready & Hup & Hdown).
  unfold Main.run, Main.backendUp in *. rewrite !foldl_app. cbn [foldl].
  fold (Main.run pf Main.launched es) in *.
  set (s := Main.run pf Main.launched es) in *.
  set (st := foldl _ (false, false) es) in *.
  clearbody s st. destruct st as [r u]. cbn [fst snd] in *.
  assert (∀ p, Sidecar.hasListeners (Main.sidecar s) p
               = r && bool_decide (p = 0%nat)) as Hlisten.
  { intros p. unfold Sidecar.hasListeners. rewrite <- Hready.
    destruct Honce as [[-> ->]|(-> & -> & _)]; cbn.
    - apply bool_decide_eq_false_2. lia.
    - apply bool_decide_ext. lia. }
  assert (∀ sc, Sidecar.isSidecarRunning (Sidecar.stopPythonSidecar sc) = false)
    as Hstop.
  { intros sc. unfold Sidecar.isSidecarRunning, Sidecar.stopPythonSidecar.
    destruct (Sidecar.pythonProcess sc) eqn:Hp; [done|by rewrite Hp]. }
  destruct e as [|n| | |c]; cbn [Main.step Main.endsBackend].
  - rewrite Hready. destruct r; [done|].
    cbn. split; [done|]. split; [|done].
    destruct Honce as [[_ ->]|[Hr _]]; [done|congruence].
  - destruct (Main.ready s && bool_decide (n = 0%nat)); cbn; done.
  - cbn. by rewrite Hstop.
  - cbn. by rewrite Hstop.
  - destruct c as [| |p d|p d|p code|p m];
      cbn [Sidecar.processOf Sidecar.step Main.sidecar Main.ready fst snd];
      try done; rewrite ?Hlisten.
    + destruct r, (bool_decide (p = 0%nat)); cbn; done.
    + destruct r, (bool_decide (p = 0%nat)); cbn; done.
    + destruct r, (bool_decide (p = 0%nat)); cbn; try done.
      split; [done|]. split; [|done]. rewrite Hup. by apply Hdown.
    + destruct r, (bool_decide (p = 0%nat)); cbn; try done.
      split; [done|]. split; [|done]. rewrite Hup. by apply Hdown.
Qed.

Lemma backendUp_ready es : (Main.backendUp es).1 = true ↔ Main.Ready ∈ es.
Proof.
  induction es as [|e es IH] using rev_ind; [set_solver|].
  unfold Main.backendUp in *. rewrite foldl_app. cbn [foldl].
  rewrite elem_of_app, list_elem_of_singleton.
  set (st := foldl _ (false, false) es) in *. clearbody st.
  destruct st as [r u]. cbn [fst snd] in *.
  destruct e; cbn; try (rewrite IH; intuition congruence).
  destruct r; cbn; intuition.
Qed.

Lemma backendUp_split es :
  (Main.backendUp es).2 = true ↔
  ∃ pre post, es = pre ++ Main.Ready :: post
              ∧ (Main.Ready ∉ pre)
              ∧ Forall (λ e, Main.endsBackend e = false) post.
Proof.
  induction es as [|e es IH] using rev_ind.
  { split; [discriminate|]. intros (pre & post & Hes & _). by destruct pre. }
  pose proof (backendUp_ready es) as Hready.
  unfold Main.backendUp in *. rewrite foldl_app. cbn [foldl].
  set (st := foldl _ (false, false) es) in *.
  assert (∀ pre post, es ++ [e] = pre ++ Main.Ready :: post →
            (post = [] ∧ es = pre ∧ e = Main.Ready)
            ∨ ∃ post', post = post' ++ [e] ∧ es = pre ++ Main.Ready :: post')
    as Hsnoc.
  { intros pre post Heq. destruct post as [|x post _] using rev_ind.
    - left. by apply app_inj_tail in Heq as [-> ->].
    - right. exists post.
      rewrite app_comm_cons, app_assoc in Heq.
      by apply app_inj_tail in Heq as [-> ->]. }
  split.
  - intros Hup.
    assert (e = Main.Ready ∨ e ≠ Main.Ready) as [->|Hne]
      by (destruct e; auto).
    + destruct st.1 eqn:Hst.
      * destruct (proj1 IH Hup) as (pre & post & -> & Hpre & Hpost).
        exists pre, (post ++ [Main.Ready]).
        split; [by rewrite <- app_assoc|]. split; [done|].
        apply Forall_app. split; [done|]. by constructor.
      * exists es, []. split; [done|]. split; [|constructor].
        intros Hin. apply Hready in Hin. congruence.
    + assert (Main.endsBackend e = false ∧ st.2 = true) as [He Hst].
      { assert (∀ x : bool, (if x then false else st.2) = true →
                  x = false ∧ st.2 = true) as Hif by (by intros []).
        destruct e; try done; by apply Hif. }
      destruct (proj1 IH Hst) as (pre & post & -> & Hpre & Hpost).
      exists pre, (post ++ [e]). split; [by rewrite <- app_assoc|].
      split; [done|]. apply Forall_app. split; [done|]. by constructor.
  - intros (pre & post & Heq & Hpre & Hpost).
    destruct (Hsnoc pre post Heq) as [(-> & -> & ->)|(post' & -> & Hes)].
    + destruct st.1 eqn:Hst; [|done].
      exfalso. apply Hpre, Hready. done.
    + apply Forall_app in Hpost as [Hpost' He].
      rewrite Forall_singleton in He.
      assert (st.2 = true) as Hst by (apply IH; by exists pre, post').
      assert (st.1 = true) as Hst1.
      { apply Hready. rewrite Hes, elem_of_app. right. constructor. }
      destruct e; cbn [snd]; rewrite ?Hst1, ?He; done.
Qed.

End StatusInTheApplication.

(** X17.  In the application the status flag is right: the main process
    starts the backend once, when [whenReady] resolves, so at any time
    [sidecarRunning] is true exactly when that has happened and since then
    there has been no [window-all-closed] and no [before-quit], and the
    process has neither exited nor failed to spawn. *)
Theorem status_in_the_application (pf : Sidecar.Platform) (es : list Main.Event) :
  let s := Main.run pf Main.launched es in
  ∃ b : bool,
    Backend.getStatus (Main.sidecar s) = VObj {[ "sidecarRunning" := VBool b ]}
    ∧ (b = true ↔
       ∃ pre post, es = pre ++ Main.Ready :: post
                   ∧ (Main.Ready ∉ pre)
                   ∧ Forall (λ e, Main.endsBackend e = false) post).
Proof.
  intros s. exists (Sidecar.isSidecarRunning (Main.sidecar s)).
  split; [reflexivity|].
  pose proof (backendUp_run pf es) as (_ & Hup & _). fold s in Hup.
  rewrite Hup. apply backendUp_split.
Qed.
